(** * Infographics API: generation / extraction pipeline

    A shallow embedding of the orchestration code of the repository
    ([api_headless_infographic.py], [svg_extractor.py],
    [main_d3_parallel_headless.py]), of the text processing of the
    generation functions ([gemini_api_d3_single_frame.py],
    [gemini_api_d3_headless.py]), and the properties of the batch
    pipeline.

    Python strings are modelled as [string] (code points below 256),
    Python integers as [Z].  Calls to the outside world (the browser
    driven through Playwright, the generation service, the file system,
    subprocesses, the clock) are performed in a small monad that threads
    a logical clock and an event trace and can raise Python exceptions;
    what the outside world answers at each call site is read from a
    script given as input. *)

From Stdlib Require Import String Ascii ZArith List Lia Bool Permutation.
From Stdlib Require Import DecimalString DecimalNat.
Import ListNotations.

Local Open Scope string_scope.
Local Open Scope Z_scope.

(** ** Python string operations *)

Module PyStr.

(** [s.startswith(p)] *)
Fixpoint startswith (p s : string) : bool :=
  match p with
  | EmptyString => true
  | String a p' =>
      match s with
      | EmptyString => false
      | String b s' => Ascii.eqb a b && startswith p' s'
      end
  end.

(** [p in s] *)
Fixpoint contains (p s : string) : bool :=
  startswith p s ||
  match s with
  | EmptyString => false
  | String _ s' => contains p s'
  end.

(** [s.replace(old, new)] for a non-empty [old]: occurrences are
    replaced from left to right and do not overlap; [skip] counts the
    characters of a matched occurrence that remain to be dropped. *)
Fixpoint replace_from (old new s : string) (skip : nat) : string :=
  match s with
  | EmptyString => EmptyString
  | String c s' =>
      match skip with
      | S k => replace_from old new s' k
      | O =>
          if startswith old s
          then new ++ replace_from old new s' (String.length old - 1)
          else String c (replace_from old new s' 0)
      end
  end.

Definition replace (old new s : string) : string := replace_from old new s 0.

(** [s.count(p)] for a non-empty [p] (non-overlapping occurrences). *)
Fixpoint count_from (p s : string) (skip : nat) : nat :=
  match s with
  | EmptyString => 0%nat
  | String _ s' =>
      match skip with
      | S k => count_from p s' k
      | O =>
          if startswith p s
          then S (count_from p s' (String.length p - 1))
          else count_from p s' 0
      end
  end.

Definition count (p s : string) : nat := count_from p s 0.

(** [str.isspace] on one character, for code points below 256:
    TAB, LF, VT, FF, CR, FS, GS, RS, US, SPACE, NEL and NBSP. *)
Definition isspace (c : ascii) : bool :=
  let n := nat_of_ascii c in
  ((9 <=? n) && (n <=? 13))%nat || ((28 <=? n) && (n <=? 32))%nat
  || (n =? 133)%nat || (n =? 160)%nat.

Fixpoint lstrip (s : string) : string :=
  match s with
  | EmptyString => EmptyString
  | String c s' => if isspace c then lstrip s' else s
  end.

Fixpoint rstrip (s : string) : string :=
  match s with
  | EmptyString => EmptyString
  | String c s' =>
      match rstrip s' with
      | EmptyString => if isspace c then EmptyString else String c EmptyString
      | r => String c r
      end
  end.

(** [s.strip()] *)
Definition strip (s : string) : string := rstrip (lstrip s).

(** [s.split(sep)] for a non-empty [sep]; [cur] is the piece being
    read, in reverse. *)
Fixpoint rev_string (acc s : string) : string :=
  match s with
  | EmptyString => acc
  | String c s' => rev_string (String c acc) s'
  end.

Fixpoint split_from (sep s : string) (cur : string) (skip : nat) : list string :=
  match s with
  | EmptyString => [rev_string "" cur]
  | String c s' =>
      match skip with
      | S k => split_from sep s' cur k
      | O =>
          if startswith sep s
          then rev_string "" cur :: split_from sep s' "" (String.length sep - 1)
          else split_from sep s' (String c cur) 0
      end
  end.

Definition split (sep s : string) : list string := split_from sep s "" 0.

(** Truthiness of a string: [if s] *)
Definition truthy (s : string) : bool :=
  match s with EmptyString => false | _ => true end.

(** Truthiness of an optional string ([None] or [str]) *)
Definition truthy_opt (o : option string) : bool :=
  match o with None => false | Some s => truthy s end.

(** [str(n)] for a non-negative integer *)
Definition of_nat (n : nat) : string := NilEmpty.string_of_uint (Nat.to_uint n).

(** [str(z)] for an integer *)
Definition of_Z (z : Z) : string :=
  match z with
  | Z0 => "0"
  | Zpos p => of_nat (Pos.to_nat p)
  | Zneg p => "-" ++ of_nat (Pos.to_nat p)
  end.

(** [len(s.encode('utf-8'))] for code points below 256: one byte below
    128, two bytes from 128 on. *)
Fixpoint utf8_len (s : string) : Z :=
  match s with
  | EmptyString => 0
  | String c s' => (if (nat_of_ascii c <? 128)%nat then 1 else 2) + utf8_len s'
  end.

Definition LF : string := String (ascii_of_nat 10) EmptyString.

(** [s.encode('utf-8')] for code points below 256, as a list of byte
    values. *)
Fixpoint utf8_encode (s : string) : list N :=
  match s with
  | EmptyString => []
  | String c s' =>
      let n := N_of_ascii c in
      if (n <? 128)%N
      then n :: utf8_encode s'
      else (192 + n / 64)%N :: (128 + n mod 64)%N :: utf8_encode s'
  end.

Definition b64_alphabet : string :=
  "ABCDEFGHIJKLMNOPQRSTUVWXYZabcdefghijklmnopqrstuvwxyz0123456789+/".

(** The character of the base64 alphabet for a 6-bit value. *)
Definition b64_char (n : N) : string :=
  match String.get (N.to_nat (n mod 64)) b64_alphabet with
  | Some c => String c EmptyString
  | None => EmptyString
  end.

(** [base64.b64encode(bytes).decode('utf-8')] *)
Fixpoint b64encode_bytes (l : list N) : string :=
  match l with
  | [] => EmptyString
  | [a] =>
      let n := (a * 65536)%N in
      b64_char (n / 262144) ++ b64_char (n / 4096) ++ "=="
  | [a; b] =>
      let n := (a * 65536 + b * 256)%N in
      b64_char (n / 262144) ++ b64_char (n / 4096) ++ b64_char (n / 64) ++ "="
  | a :: b :: c :: rest =>
      let n := (a * 65536 + b * 256 + c)%N in
      b64_char (n / 262144) ++ b64_char (n / 4096) ++ b64_char (n / 64) ++ b64_char n
      ++ b64encode_bytes rest
  end.

(** [base64.b64encode(s.encode('utf-8')).decode('utf-8')] *)
Definition b64encode (s : string) : string := b64encode_bytes (utf8_encode s).

End PyStr.

(** ** More Python string operations *)

Module PyText.

(** Every character of [s] satisfies [p]. *)
Fixpoint all_chars (p : ascii -> bool) (s : string) : bool :=
  match s with
  | EmptyString => true
  | String c s' => p c && all_chars p s'
  end.

(** ["".join(c for c in s if p c)] *)
Fixpoint filter_chars (p : ascii -> bool) (s : string) : string :=
  match s with
  | EmptyString => EmptyString
  | String c s' => if p c then String c (filter_chars p s') else filter_chars p s'
  end.

(** [s.split()]: the maximal runs of characters that are not white
    space; [cur] is the run being read, in reverse. *)
Fixpoint split_ws_from (s : string) (cur : string) : list string :=
  match s with
  | EmptyString =>
      match cur with
      | EmptyString => []
      | _ => [PyStr.rev_string EmptyString cur]
      end
  | String c s' =>
      if PyStr.isspace c
      then match cur with
           | EmptyString => split_ws_from s' EmptyString
           | _ => PyStr.rev_string EmptyString cur :: split_ws_from s' EmptyString
           end
      else split_ws_from s' (String c cur)
  end.

Definition split_ws (s : string) : list string := split_ws_from s EmptyString.

(** [sep.join(l)] *)
Fixpoint join (sep : string) (l : list string) : string :=
  match l with
  | [] => EmptyString
  | [w] => w
  | w :: l' => w ++ sep ++ join sep l'
  end.

(** [s[:n]] for a non-negative [n] *)
Fixpoint take (n : nat) (s : string) : string :=
  match n, s with
  | O, _ => EmptyString
  | _, EmptyString => EmptyString
  | S n', String c s' => String c (take n' s')
  end.

(** [s[n:]] for a non-negative [n] *)
Fixpoint drop (n : nat) (s : string) : string :=
  match n, s with
  | O, _ => s
  | _, EmptyString => EmptyString
  | S n', String _ s' => drop n' s'
  end.

(** [s.endswith(suffix)] *)
Definition endswith (suffix s : string) : bool :=
  (String.length suffix <=? String.length s)%nat
  && String.eqb (drop (String.length s - String.length suffix) s) suffix.

(** [s[:-n]] for a positive [n] *)
Definition drop_last (n : nat) (s : string) : string :=
  take (String.length s - n) s.

(** [str.isalnum] on one character, for code points below 256: the
    ASCII digits and letters, the letters of Latin-1 (feminine and
    masculine ordinal, micro, and the accented letters without the
    multiplication and division signs), the superscript digits and the
    three vulgar fractions. *)
Definition isalnum (c : ascii) : bool :=
  let n := nat_of_ascii c in
  (((48 <=? n) && (n <=? 57)) || ((65 <=? n) && (n <=? 90)) || ((97 <=? n) && (n <=? 122))
  || (n =? 170) || (n =? 178) || (n =? 179) || (n =? 181) || (n =? 185) || (n =? 186)
  || ((188 <=? n) && (n <=? 190))
  || ((192 <=? n) && (n <=? 214)) || ((216 <=? n) && (n <=? 246))
  || ((248 <=? n) && (n <=? 255)))%nat.

(** [str.lower] on one character, for code points below 256. *)
Definition lower_char (c : ascii) : ascii :=
  let n := nat_of_ascii c in
  if (((65 <=? n) && (n <=? 90)) || ((192 <=? n) && (n <=? 214))
      || ((216 <=? n) && (n <=? 222)))%nat
  then ascii_of_nat (n + 32)
  else c.

(** [s.lower()] *)
Fixpoint lower (s : string) : string :=
  match s with
  | EmptyString => EmptyString
  | String c s' => String (lower_char c) (lower s')
  end.

End PyText.


(** ** Exceptions, events and the effect monad *)

(** Python exceptions that the code raises or catches.  Every one of
    them is an instance of [Exception]. *)
Inductive exn : Type :=
| PyException (msg : string)               (* any other [Exception] *)
| TimeoutExpired (msg : string)            (* [subprocess.TimeoutExpired] *)
| HTTPException (status_code : Z) (detail : string).

(** [str(e)] *)
Definition str_exn (e : exn) : string :=
  match e with
  | PyException msg => msg
  | TimeoutExpired msg => msg
  | HTTPException status_code detail => PyStr.of_Z status_code ++ ": " ++ detail
  end.

(** Outcome of a call: it returns a value or raises. *)
Inductive outcome (A : Type) : Type :=
| Returns (a : A)
| Raises (e : exn).
Arguments Returns {A} a.
Arguments Raises {A} e.

(** Calls to the outside world, as they appear in the three files. *)
Inductive event : Type :=
| PlaywrightStart                              (* [async with async_playwright() as p] *)
| PlaywrightStop                               (* leaving that block *)
| BrowserLaunch                                (* [p.chromium.launch(headless=True)] *)
| BrowserClose                                 (* [browser.close()] *)
| NewPage                                      (* [browser.new_page()] *)
| SetViewport (width height : Z)               (* [page.set_viewport_size] *)
| Goto (url : string) (timeout : Z)            (* [page.goto(url, wait_until='networkidle', timeout=...)] *)
| WaitForTimeout (ms : Z)                      (* [page.wait_for_timeout(ms)] *)
| EvalD3                                       (* [page.evaluate("typeof d3 !== 'undefined'")] *)
| WaitForSelector (selector : string) (timeout : Z)
| EvalSvgInfo                                  (* the script returning children, textElements, ... *)
| EvalSvgContent                               (* the script returning the serialized [svg] *)
| WriteFile (path content : string)            (* [open(path, 'w').write(content)] *)
| ReadFile (path : string)                     (* [open(path, 'r').read()] *)
| StatSize (path : string)                     (* [Path(path).stat().st_size] *)
| Mkdir (path : string)                        (* [path.mkdir(parents=True, exist_ok=True)] *)
| ImportGemini                                 (* the two local imports of the generation functions *)
| GetElements (topic task : string)            (* [get_d3_code_single_frame(elements_prompt)] *)
| GetCode (topic elements : string) (variant_id : Z) (task : string)
                                               (* [get_d3_code_headless_variant(code_prompt, variant_id)] *)
| Sleep (seconds : Z)                          (* [time.sleep(seconds)] *)
| SubprocessRun (args : list string) (timeout : Z)
                                               (* [subprocess.run(args, capture_output=True, text=True, timeout=...)] *)
| SubprocessKill (args : list string).         (* inside [subprocess.run], when the timeout expires:
                                                  [process.kill()] and [process.wait()] *)

(** The result of running a computation from a clock value: its
    outcome, the clock afterwards (milliseconds), and the events it
    performed, each with the time at which it started. *)
Record run (A : Type) : Type := Run {
  res : outcome A;
  now : Z;
  log : list (Z * event)
}.
Arguments Run {A} res now log.
Arguments res {A} r.
Arguments now {A} r.
Arguments log {A} r.

Definition M (A : Type) : Type := Z -> run A.

Definition ret {A} (a : A) : M A := fun t => Run (Returns a) t [].

Definition bind {A B} (c : M A) (f : A -> M B) : M B :=
  fun t =>
    match c t with
    | Run (Returns a) t1 l1 =>
        match f a t1 with
        | Run r t2 l2 => Run r t2 (l1 ++ l2)
        end
    | Run (Raises e) t1 l1 => Run (Raises e) t1 l1
    end.

Declare Scope py_scope.
Delimit Scope py_scope with py.
Notation "x <- c ;; k" := (bind c (fun x => k))
  (at level 100, c at next level, right associativity) : py_scope.
Notation "' p <- c ;; k" := (bind c (fun x => match x with p => k end))
  (at level 100, p pattern, c at next level, right associativity) : py_scope.
Local Open Scope py_scope.

(** [raise e] *)
Definition raise {A} (e : exn) : M A := fun t => Run (Raises e) t [].

(** [try: c  except Exception as e: h e] *)
Definition try_ {A} (c : M A) (h : exn -> M A) : M A :=
  fun t =>
    match c t with
    | Run (Returns a) t1 l1 => Run (Returns a) t1 l1
    | Run (Raises e) t1 l1 =>
        match h e t1 with
        | Run r t2 l2 => Run r t2 (l1 ++ l2)
        end
    end.

(** [try: c  finally: f].  The outcome is that of [c], unless [f]
    itself raises. *)
Definition finally_ {A} (c : M A) (f : M unit) : M A :=
  fun t =>
    match c t with
    | Run r t1 l1 =>
        match f t1 with
        | Run (Returns _) t2 l2 => Run r t2 (l1 ++ l2)
        | Run (Raises e) t2 l2 => Run (Raises e) t2 (l1 ++ l2)
        end
    end.

(** A call to the outside world that takes [elapsed] milliseconds and
    whose answer is [answer]. *)
Definition call_timed {A} (ev : event) (elapsed : Z) (answer : outcome A) : M A :=
  fun t => Run answer (t + elapsed) [(t, ev)].

Definition call {A} (ev : event) (answer : outcome A) : M A :=
  call_timed ev 0 answer.

(** [time.time()], in milliseconds *)
Definition time : M Z := fun t => Run (Returns t) t [].

(** [time.sleep(seconds)] *)
Definition sleep (seconds : Z) : M unit :=
  call_timed (Sleep seconds) (1000 * seconds) (Returns tt).

(** [await page.wait_for_timeout(ms)] *)
Definition wait_for_timeout (ms : Z) (answer : outcome unit) : M unit :=
  call_timed (WaitForTimeout ms) ms answer.

(** A task submitted to the thread pool at time [t0]: it runs on its own
    time line from [t0]; the caller that collects its result continues
    no earlier than the task's end. *)
Definition in_thread {A} (t0 : Z) (c : M A) : M A :=
  fun t =>
    match c t0 with
    | Run r t1 l1 => Run r (Z.max t t1) l1
    end.

(** [range(n)] *)
Definition range (n : nat) : list Z := map Z.of_nat (seq 0 n).

(** [as_completed(futures)] for the futures of the slots [pending]:
    every future is yielded once; the order is that in which the tasks
    end, which the script gives as [order].  A slot is yielded at its
    first mention in [order] if it is still pending; what [order] names
    beside the pending slots is passed over, and the slots that it does
    not name are yielded last, as submitted. *)
Fixpoint as_completed (pending order : list Z) : list Z :=
  match order with
  | [] => pending
  | v :: rest =>
      if existsb (Z.eqb v) pending
      then v :: as_completed (filter (fun x => negb (x =? v)) pending) rest
      else as_completed pending rest
  end.

(** The events of a log, without their times. *)
Definition events {A} (r : run A) : list event := map snd (log r).

(** ** The rendering collaborator *)

(** What the info script returns for the [svg] element; the two
    floating-point fields [width] and [height] of the JavaScript object
    are never read by the Python code. *)
Record SvgInfo : Type := {
  children : Z;
  textElements : Z
}.

(** Answers of Playwright and of the file system along one extraction,
    one per call site. *)
Record PageScript : Type := {
  cwd : string;
  pw_start : outcome unit;
  pw_stop : outcome unit;
  launch : outcome unit;
  close : outcome unit;
  new_page : outcome unit;
  set_viewport : outcome unit;
  goto : outcome unit;
  settle_3000 : outcome unit;
  d3_first : outcome bool;
  settle_5000 : outcome unit;
  d3_second : outcome bool;
  wait_selector : outcome unit;
  settle_2000 : outcome unit;
  svg_info : outcome (option SvgInfo);
  svg_content : outcome (option string);
  write : outcome unit;
  stat_size : outcome Z
}.

(** The root of a POSIX path: [//] for exactly two leading slashes,
    [/] for one or for three and more, nothing for a relative path. *)
Definition path_root (p : string) : string :=
  if PyStr.startswith "//" p && negb (PyStr.startswith "///" p) then "//"
  else if PyStr.startswith "/" p then "/"
  else EmptyString.

(** The components of a path that pathlib keeps: the pieces between
    slashes that are neither empty nor [.]. *)
Definition path_parts (p : string) : list string :=
  filter (fun c => negb (String.eqb c EmptyString || String.eqb c "."))
    (PyStr.split "/" p).

(** [str] of the path with the root [root] and the components
    [parts]; the empty path is [.]. *)
Definition path_of (root : string) (parts : list string) : string :=
  match root ++ PyText.join "/" parts with
  | EmptyString => "."
  | q => q
  end.

(** [str(Path(p))] on a POSIX system *)
Definition path_str (p : string) : string := path_of (path_root p) (path_parts p).

(** [str(Path(p).absolute())] on a POSIX system, in the working
    directory [cwd]: a path with a root is kept, any other one is
    joined to the working directory, whose root it takes. *)
Definition absolute (cwd p : string) : string :=
  if PyStr.truthy (path_root p) then path_str p
  else path_of (path_root cwd) (path_parts cwd ++ path_parts p).
Arguments absolute : simpl never.

(** [async with async_playwright() as p: body] *)
Definition with_playwright {A} (ps : PageScript) (body : M A) : M A :=
  _ <- call PlaywrightStart (pw_start ps) ;;
  finally_ body (call PlaywrightStop (pw_stop ps)).

(** [not svg_info or svg_info['children'] < 5] *)
Definition invalid_svg_info (info : option SvgInfo) : bool :=
  match info with
  | None => true
  | Some i => children i <? 5
  end.

(** The double-quote character *)
Definition DQ : string := String (ascii_of_nat 34) EmptyString.

(** ['<?xml version="1.0" encoding="UTF-8"?>\n'] *)
Definition xml_declaration : string :=
  Eval cbv in "<?xml version=" ++ DQ ++ "1.0" ++ DQ ++ " encoding=" ++ DQ ++ "UTF-8" ++ DQ ++ "?>" ++ PyStr.LF.

(** ['xmlns="http://www.w3.org/2000/svg"'] *)
Definition xmlns_attr : string :=
  Eval cbv in "xmlns=" ++ DQ ++ "http://www.w3.org/2000/svg" ++ DQ.

(** ['<svg xmlns="http://www.w3.org/2000/svg"'] *)
Definition svg_with_xmlns : string :=
  Eval cbv in "<svg " ++ xmlns_attr.

(** The block under the comment [# Add XML declaration and namespace],
    which is the same in [api_headless_infographic.py] (lines 114-119)
    and [main_d3_parallel_headless.py] (lines 85-90). *)
Definition add_declaration_and_namespace (svg_content : string) : string :=
  let svg_content :=
    if negb (PyStr.startswith "<?xml" svg_content)
    then xml_declaration ++ svg_content
    else svg_content in
  if negb (PyStr.contains xmlns_attr svg_content)
  then PyStr.replace "<svg" svg_with_xmlns svg_content
  else svg_content.


(** ** [svg_extractor.py] *)

Module SvgExtractor.

(** [extract_svg(html_file, output_svg, variant_name)] *)
Definition extract_svg (ps : PageScript) (html_file output_svg variant_name : string)
  : M (bool * string) :=
  try_
    (with_playwright ps
       (_ <- call BrowserLaunch (launch ps) ;;
        finally_
          (try_
             (_ <- call NewPage (new_page ps) ;;
              _ <- call (SetViewport 1200 800) (set_viewport ps) ;;
              let file_url := "file://" ++ absolute (cwd ps) html_file in
              _ <- call (Goto file_url 30000) (goto ps) ;;
              _ <- wait_for_timeout 3000 (settle_3000 ps) ;;
              d3_available <- call EvalD3 (d3_first ps) ;;
              d3_available <-
                (if negb d3_available
                 then _ <- wait_for_timeout 5000 (settle_5000 ps) ;;
                      call EvalD3 (d3_second ps)
                 else ret d3_available) ;;
              if negb d3_available
              then ret (false, "D3.js failed to load")
              else
                _ <- call (WaitForSelector "svg" 15000) (wait_selector ps) ;;
                _ <- wait_for_timeout 2000 (settle_2000 ps) ;;
                svg_info <- call EvalSvgInfo (svg_info ps) ;;
                if invalid_svg_info svg_info
                then ret (false, "Invalid SVG content")
                else
                  svg_content <- call EvalSvgContent (svg_content ps) ;;
                  match svg_content with
                  | None | Some EmptyString => ret (false, "Failed to extract SVG")
                  | Some svg_content =>
                      _ <- call (WriteFile output_svg (xml_declaration ++ svg_content))
                             (write ps) ;;
                      let file_size := PyStr.utf8_len svg_content in
                      ret (true, "Success: " ++ PyStr.of_Z file_size ++ " bytes")
                  end)
             (fun e =>
                ret (false, "Extraction failed for " ++ variant_name ++ ": " ++ str_exn e)))
          (call BrowserClose (close ps))))
    (fun e => ret (false, "Browser launch failed for " ++ variant_name ++ ": " ++ str_exn e)).

(** [main()] once the three arguments are read: the exit status of the
    process. *)
Definition main (ps : PageScript) (html_file output_svg variant_name : string) : M Z :=
  '(success, message) <- extract_svg ps html_file output_svg variant_name ;;
  if (success : bool) then ret 0 else ret 1.

End SvgExtractor.

(** ** The generation collaborator *)

(** Answers met by one generation task, one per call site.  The answer
    of the code-generation call may depend on the element description
    that is passed to it. *)
Record GenScript : Type := {
  import_gemini : outcome unit;
  mkdir_variant : outcome unit;
  elements_elapsed : Z;
  elements_answer : outcome (option string);
  code_elapsed : Z;
  code_answer : string -> outcome (option string);
  write_html : outcome unit
}.

Definition elements_task (variant_id : Z) : string :=
  "List the key visual/text elements needed to make a single-frame D3.js infographic for this topic. Create a unique and creative approach - make this infographic different from typical ones. Variant "
  ++ PyStr.of_Z (variant_id + 1)
  ++ " of 3 - be creative and original. Return as a JSON list of element descriptions. Do not include code or explanations.".

Definition code_task (variant_id : Z) : string :=
  "Generate complete D3.js infographic code for variant "
  ++ PyStr.of_Z (variant_id + 1)
  ++ ". Make it visually distinct and creative. Return complete HTML with proper structure for headless browser extraction.".

(** ** [api_headless_infographic.py] *)

Module Api.

(** [headless_svg_extract_async(html_file, output_svg, variant_name)] *)
Definition headless_svg_extract_async (ps : PageScript)
    (html_file output_svg variant_name : string) : M (bool * string) :=
  with_playwright ps
    (_ <- call BrowserLaunch (launch ps) ;;
     finally_
       (try_
          (_ <- call NewPage (new_page ps) ;;
           _ <- call (SetViewport 1200 800) (set_viewport ps) ;;
           let file_url := "file://" ++ absolute (cwd ps) html_file in
           _ <- call (Goto file_url 30000) (goto ps) ;;
           _ <- wait_for_timeout 3000 (settle_3000 ps) ;;
           d3_available <- call EvalD3 (d3_first ps) ;;
           d3_available <-
             (if negb d3_available
              then _ <- wait_for_timeout 5000 (settle_5000 ps) ;;
                   call EvalD3 (d3_second ps)
              else ret d3_available) ;;
           if negb d3_available
           then ret (false, "D3.js failed to load")
           else
             _ <- call (WaitForSelector "svg" 15000) (wait_selector ps) ;;
             _ <- wait_for_timeout 2000 (settle_2000 ps) ;;
             svg_info <- call EvalSvgInfo (svg_info ps) ;;
             if invalid_svg_info svg_info
             then ret (false, "Invalid SVG content")
             else
               svg_content <- call EvalSvgContent (svg_content ps) ;;
               match svg_content with
               | None | Some EmptyString => ret (false, "Failed to extract SVG")
               | Some svg_content =>
                   let svg_content := add_declaration_and_namespace svg_content in
                   _ <- call (WriteFile output_svg svg_content) (write ps) ;;
                   file_size <- call (StatSize output_svg) (stat_size ps) ;;
                   ret (true, "Success: " ++ PyStr.of_Z file_size ++ " bytes")
               end)
          (fun e => ret (false, "Error: " ++ str_exn e)))
       (call BrowserClose (close ps))).

(** The dictionary returned by [generate_single_variant_api]. *)
Record GeneratedDoc : Type := {
  variant_id : Z;
  html : string;
  directory : string;
  status : string
}.

(** [generate_single_variant_api(topic, variant_id, base_output_dir)];
    [None] is Python's [None]. *)
Definition generate_single_variant_api (gs : GenScript)
    (topic : string) (variant_id : Z) (base_output_dir : string)
  : M (option GeneratedDoc) :=
  try_
    (_ <- call ImportGemini (import_gemini gs) ;;
     let variant_dir := base_output_dir ++ "/variant_" ++ PyStr.of_Z (variant_id + 1) in
     _ <- call (Mkdir variant_dir) (mkdir_variant gs) ;;
     elements_response <-
       call_timed (GetElements topic (elements_task variant_id))
         (elements_elapsed gs) (elements_answer gs) ;;
     let elements_response :=
       if negb (PyStr.truthy_opt elements_response)
       then "basic elements"
       else match elements_response with Some s => s | None => EmptyString end in
     d3_code <-
       call_timed (GetCode topic elements_response variant_id (code_task variant_id))
         (code_elapsed gs) (code_answer gs elements_response) ;;
     match d3_code with
     | None | Some EmptyString => ret None
     | Some d3_code =>
         let html_file := variant_dir ++ "/infographic.html" in
         _ <- call (WriteFile html_file d3_code) (write_html gs) ;;
         ret (Some {| variant_id := variant_id + 1;
                      html := html_file;
                      directory := variant_dir;
                      status := "html_generated" |})
     end)
    (fun e => ret None).

(** What [subprocess.run] returns. *)
Record CompletedProcess : Type := {
  returncode : Z;
  stdout : string;
  stderr : string
}.

(** Answers met by one subprocess extraction: the run itself and its
    duration, then reading back the written file. *)
Record ExtractScript : Type := {
  run_elapsed : Z;
  run_answer : outcome CompletedProcess;
  read_svg : outcome string;
  stat_svg : outcome Z
}.

(** Where the interpreter and the source directory are. *)
Record Install : Type := {
  executable : string;
  src_dir : string
}.

(** [subprocess.run(args, capture_output=True, text=True,
    timeout=timeout)], a function of the standard library: it starts
    the child process and waits for it; when the timeout expires it
    kills the child, waits for it to end, and only then raises
    [TimeoutExpired]. *)
Definition subprocess_run (args : list string) (timeout elapsed : Z)
    (answer : outcome CompletedProcess) : M CompletedProcess :=
  fun t =>
    Run answer (t + elapsed)
      ((t, SubprocessRun args timeout)
       :: match answer with
          | Raises (TimeoutExpired _) => [(t + elapsed, SubprocessKill args)]
          | _ => []
          end).

(** [extract_svg_subprocess(html_file, output_svg, variant_name)] *)
Definition extract_svg_subprocess (inst : Install) (xs : ExtractScript)
    (html_file output_svg variant_name : string) : M (bool * string) :=
  let script_path := src_dir inst ++ "/svg_extractor.py" in
  try_
    (result <-
       subprocess_run [executable inst; script_path; html_file; output_svg; variant_name] 120
         (run_elapsed xs) (run_answer xs) ;;
     if returncode result =? 0
     then
       let output_lines := PyStr.split PyStr.LF (PyStr.strip (stdout result)) in
       match find (fun line => PyStr.contains "SUCCESS:" line && PyStr.contains "bytes" line)
               output_lines with
       | Some line =>
           match nth_error (PyStr.split "SUCCESS: " line) 1 with
           | Some m => ret (true, m)
           | None => raise (PyException "list index out of range")
           end
       | None => ret (true, "Success")
       end
     else
       let error_msg := "Subprocess failed: " ++ stderr result in
       ret (false, error_msg))
    (fun e =>
       match e with
       | TimeoutExpired _ => ret (false, "Extraction timeout (120s)")
       | _ => ret (false, "Subprocess error: " ++ str_exn e)
       end).

(** One entry of [svg_results]. *)
Record SvgResult : Type := {
  sr_variant_id : Z;
  sr_success : bool;
  sr_svg_file : string;
  sr_svg_content_base64 : option string;
  sr_file_size : Z;
  sr_message : string
}.

(** The body of the loop of [extract_svgs_sequential] for the document
    [result] at index [i] of the list: the staggered delay, the
    extraction in a subprocess, and the entry appended to
    [svg_results]. *)
Definition extract_svgs_body (inst : Install) (xs : Z -> ExtractScript)
    (i : Z) (result : GeneratedDoc) : M SvgResult :=
  let variant_id := variant_id result in
  let html_file := html result in
  let svg_file := directory result ++ "/infographic.svg" in
  let delay_seconds := i * 3 in
  _ <- (if 0 <? delay_seconds then sleep delay_seconds else ret tt) ;;
  '(success, message) <-
    extract_svg_subprocess inst (xs variant_id) html_file svg_file
      ("variant_" ++ PyStr.of_Z variant_id) ;;
  if (success : bool)
  then
    svg_content <- call (ReadFile svg_file) (read_svg (xs variant_id)) ;;
    let svg_base64 := PyStr.b64encode svg_content in
    file_size <- call (StatSize svg_file) (stat_svg (xs variant_id)) ;;
    ret {| sr_variant_id := variant_id;
           sr_success := true;
           sr_svg_file := svg_file;
           sr_svg_content_base64 := Some svg_base64;
           sr_file_size := file_size;
           sr_message := message |}
  else
    ret {| sr_variant_id := variant_id;
           sr_success := false;
           sr_svg_file := svg_file;
           sr_svg_content_base64 := None;
           sr_file_size := 0;
           sr_message := message |}.

(** The loop of [extract_svgs_sequential]: [i] is the index that
    [enumerate] gives to the head of [results], [svg_results] the list
    built so far. *)
Fixpoint extract_svgs_loop (inst : Install) (xs : Z -> ExtractScript)
    (i : Z) (results : list (option GeneratedDoc)) (svg_results : list SvgResult)
  : M (list SvgResult) :=
  match results with
  | [] => ret svg_results
  | None :: rest => extract_svgs_loop inst xs (i + 1) rest svg_results
  | Some result :: rest =>
      entry <- extract_svgs_body inst xs i result ;;
      extract_svgs_loop inst xs (i + 1) rest (svg_results ++ [entry])%list
  end.

(** [extract_svgs_sequential(results, base_output_dir)] *)
Definition extract_svgs_sequential (inst : Install) (xs : Z -> ExtractScript)
    (results : list (option GeneratedDoc)) (base_output_dir : string)
  : M (list SvgResult) :=
  extract_svgs_loop inst xs 0 results [].

(** The request and response models of the endpoint. *)
Record InfographicRequest : Type := {
  prompt : string;
  style_preference : string
}.

(** One dictionary of [response_variants]. *)
Record ResponseVariant : Type := {
  rv_variant_id : Z;
  rv_success : bool;
  rv_svg_content_base64 : option string;
  rv_file_size : Z;
  rv_message : string;
  rv_svg_file_path : string
}.

Record InfographicResponse : Type := {
  success : bool;
  message : string;
  variants : list ResponseVariant;
  generation_time : Z;
  output_directory : string
}.

(** What one batch meets: the name of its directory (built in the source
    from the time stamp, the MD5 digest of the topic and the sanitized
    topic), the order in which the generation tasks end, as
    [as_completed] reads it, and the scripts of the generation tasks (by
    slot, 0-based) and of the extractions (by variant id, 1-based). *)
Record BatchScript : Type := {
  install : Install;
  batch_name : string -> string;
  mkdir_batch : outcome unit;
  completion_order : list Z;
  gen : Z -> GenScript;
  extraction : Z -> ExtractScript
}.

(** The body of the loop over [as_completed(future_to_variant)] for the
    future of slot [variant_id]; the tasks were all submitted at
    [t_submit]. *)
Definition collect_html_body (bs : BatchScript) (t_submit : Z) (topic output_dir : string)
    (variant_id : Z) (html_results : list GeneratedDoc) : M (list GeneratedDoc) :=
  try_
    (result <-
       in_thread t_submit
         (generate_single_variant_api (gen bs variant_id) topic variant_id output_dir) ;;
     match result with
     | Some result => ret (html_results ++ [result])%list
     | None => ret html_results
     end)
    (fun e => ret html_results).

(** The loop over [as_completed(future_to_variant)]. *)
Fixpoint collect_html (bs : BatchScript) (t_submit : Z) (topic output_dir : string)
    (order : list Z) (html_results : list GeneratedDoc) : M (list GeneratedDoc) :=
  match order with
  | [] => ret html_results
  | variant_id :: rest =>
      html_results <- collect_html_body bs t_submit topic output_dir variant_id html_results ;;
      collect_html bs t_submit topic output_dir rest html_results
  end.

Definition to_response_variant (svg_result : SvgResult) : ResponseVariant :=
  {| rv_variant_id := sr_variant_id svg_result;
     rv_success := sr_success svg_result;
     rv_svg_content_base64 := sr_svg_content_base64 svg_result;
     rv_file_size := sr_file_size svg_result;
     rv_message := sr_message svg_result;
     rv_svg_file_path := sr_svg_file svg_result |}.

Definition is_empty {A} (l : list A) : bool :=
  match l with [] => true | _ => false end.

(** [generate_infographics(request)]: the endpoint returns a response or
    raises an [HTTPException]. *)
Definition generate_infographics (bs : BatchScript) (request : InfographicRequest)
  : M InfographicResponse :=
  start_time <- time ;;
  let topic := PyStr.strip (prompt request) in
  if negb (PyStr.truthy topic)
  then raise (HTTPException 400 "Prompt cannot be empty")
  else
    try_
      (let output_dir := "generated/" ++ batch_name bs topic in
       _ <- call (Mkdir output_dir) (mkdir_batch bs) ;;
       t_submit <- time ;;
       html_results <-
         collect_html bs t_submit topic output_dir
           (as_completed (range 3) (completion_order bs)) [] ;;
       if is_empty html_results
       then raise (HTTPException 500 "Failed to generate any HTML variants")
       else
         svg_results <-
           extract_svgs_sequential (install bs) (extraction bs)
             (map Some html_results) output_dir ;;
         let successful_svgs := filter sr_success svg_results in
         if is_empty successful_svgs
         then raise (HTTPException 500 "Failed to extract any SVGs")
         else
           end_time <- time ;;
           let generation_time := end_time - start_time in
           let response_variants := map to_response_variant svg_results in
           ret {| success := true;
                  message := "Successfully generated "
                             ++ PyStr.of_nat (List.length successful_svgs)
                             ++ "/3 infographic variants";
                  variants := response_variants;
                  generation_time := generation_time;
                  output_directory := output_dir |})
      (fun e =>
         match e with
         | HTTPException _ _ => raise e
         | _ => raise (HTTPException 500 ("Internal server error: " ++ str_exn e))
         end).

End Api.

(** ** [main_d3_parallel_headless.py] *)

Module MainHeadless.

(** [headless_svg_extract_async(html_file, output_svg)] *)
Definition headless_svg_extract_async (ps : PageScript) (html_file output_svg : string)
  : M bool :=
  with_playwright ps
    (_ <- call BrowserLaunch (launch ps) ;;
     finally_
       (try_
          (_ <- call NewPage (new_page ps) ;;
           _ <- call (SetViewport 1200 800) (set_viewport ps) ;;
           let file_url := "file://" ++ absolute (cwd ps) html_file in
           _ <- call (Goto file_url 30000) (goto ps) ;;
           _ <- wait_for_timeout 3000 (settle_3000 ps) ;;
           d3_available <- call EvalD3 (d3_first ps) ;;
           d3_available <-
             (if negb d3_available
              then _ <- wait_for_timeout 5000 (settle_5000 ps) ;;
                   call EvalD3 (d3_second ps)
              else ret d3_available) ;;
           if negb d3_available
           then ret false
           else
             _ <- call (WaitForSelector "svg" 15000) (wait_selector ps) ;;
             _ <- wait_for_timeout 2000 (settle_2000 ps) ;;
             svg_info <- call EvalSvgInfo (svg_info ps) ;;
             if invalid_svg_info svg_info
             then ret false
             else
               svg_content <- call EvalSvgContent (svg_content ps) ;;
               match svg_content with
               | None | Some EmptyString => ret false
               | Some svg_content =>
                   let svg_content := add_declaration_and_namespace svg_content in
                   _ <- call (WriteFile output_svg svg_content) (write ps) ;;
                   file_size <- call (StatSize output_svg) (stat_size ps) ;;
                   ret true
               end)
          (fun e => ret false))
       (call BrowserClose (close ps))).

(** [headless_svg_extract_sync(html_file, output_svg)] *)
Definition headless_svg_extract_sync (ps : PageScript) (html_file output_svg : string)
  : M bool :=
  headless_svg_extract_async ps html_file output_svg.

(** The dictionary returned by [generate_single_variant_headless]. *)
Record Variant : Type := {
  variant_id : Z;
  html : string;
  svg : string;
  directory : string
}.

(** [generate_single_variant_headless(topic, variant_id, base_output_dir)] *)
Definition generate_single_variant_headless (gs : GenScript) (ps : PageScript)
    (topic : string) (variant_id : Z) (base_output_dir : string) : M (option Variant) :=
  try_
    (_ <- call ImportGemini (import_gemini gs) ;;
     let variant_dir := base_output_dir ++ "/variant_" ++ PyStr.of_Z (variant_id + 1) in
     _ <- call (Mkdir variant_dir) (mkdir_variant gs) ;;
     elements_response <-
       call_timed (GetElements topic (elements_task variant_id))
         (elements_elapsed gs) (elements_answer gs) ;;
     match elements_response with
     | None | Some EmptyString => ret None
     | Some elements_response =>
         d3_code <-
           call_timed (GetCode topic elements_response variant_id (code_task variant_id))
             (code_elapsed gs) (code_answer gs elements_response) ;;
         match d3_code with
         | None | Some EmptyString => ret None
         | Some d3_code =>
             let html_file := variant_dir ++ "/infographic.html" in
             _ <- call (WriteFile html_file d3_code) (write_html gs) ;;
             let svg_file := variant_dir ++ "/infographic.svg" in
             let delay_seconds := variant_id * 5 in
             _ <- (if 0 <? delay_seconds then sleep delay_seconds else ret tt) ;;
             svg_success <- headless_svg_extract_sync ps html_file svg_file ;;
             if negb svg_success
             then ret None
             else ret (Some {| variant_id := variant_id + 1;
                               html := html_file;
                               svg := svg_file;
                               directory := variant_dir |})
         end
     end)
    (fun e => ret None).

End MainHeadless.

(** ** Notions used in the statements *)

(** A call answered by a return. *)
Definition returned {A} (o : outcome A) : bool :=
  match o with Returns _ => true | Raises _ => false end.

(** The attempt gets as far as the first check of the runtime: the
    browser starts, the page is opened and loaded, and the first settle
    delay elapses. *)
Definition reaches_runtime_gate (ps : PageScript) : bool :=
  returned (pw_start ps) && returned (launch ps) && returned (new_page ps)
  && returned (set_viewport ps) && returned (goto ps) && returned (settle_3000 ps).

(** The runtime is reported present at the first check, or at the
    second one after the longer delay. *)
Definition runtime_ready (ps : PageScript) : bool :=
  match d3_first ps with
  | Returns true => true
  | Returns false =>
      returned (settle_5000 ps) &&
      match d3_second ps with Returns true => true | _ => false end
  | Raises _ => false
  end.

(** The attempt gets as far as the structural validation of the [svg]
    element, which is then described by [info]. *)
Definition reaches_validation_gate (ps : PageScript) (info : SvgInfo) : Prop :=
  reaches_runtime_gate ps = true /\ runtime_ready ps = true /\
  returned (wait_selector ps) = true /\ returned (settle_2000 ps) = true /\
  svg_info ps = Returns (Some info).

(** The browser and Playwright shut down without raising. *)
Definition teardown_ok (ps : PageScript) : bool :=
  returned (close ps) && returned (pw_stop ps).

Definition is_EvalD3 (e : event) : bool :=
  match e with EvalD3 => true | _ => false end.

(** Number of checks of the runtime in a list of events. *)
Definition d3_checks (l : list event) : nat := List.length (filter is_EvalD3 l).

(** Events of the gates that come after the runtime gate. *)
Definition is_later_gate (e : event) : bool :=
  match e with
  | WaitForSelector _ _ | EvalSvgInfo | EvalSvgContent | WriteFile _ _ | StatSize _
  | WaitForTimeout 2000 => true
  | _ => false
  end.

Definition is_SubprocessRun (e : event) : bool :=
  match e with SubprocessRun _ _ => true | _ => false end.

(** The times at which the extraction subprocesses are started. *)
Fixpoint extraction_starts (l : list (Z * event)) : list Z :=
  match l with
  | [] => []
  | (t, SubprocessRun _ _) :: l' => t :: extraction_starts l'
  | _ :: l' => extraction_starts l'
  end.

(** The start of the subprocess whose last argument, the variant name,
    is [name]. *)
Fixpoint start_of (name : string) (l : list (Z * event)) : option Z :=
  match l with
  | [] => None
  | (t, SubprocessRun args _) :: l' =>
      if String.eqb (last args EmptyString) name then Some t else start_of name l'
  | _ :: l' => start_of name l'
  end.

(** Consecutive times differ by at least [d]. *)
Fixpoint spaced (d : Z) (l : list Z) : Prop :=
  match l with
  | [] => True
  | t :: l' =>
      match l' with
      | [] => True
      | t' :: _ => t + d <= t' /\ spaced d l'
      end
  end.

(** The events of the runtime gate: the two settle delays and the
    checks. *)
Definition is_runtime_gate_event (e : event) : bool :=
  match e with
  | EvalD3 | WaitForTimeout 3000 | WaitForTimeout 5000 => true
  | _ => false
  end.

Definition runtime_gate_events (l : list event) : list event :=
  filter is_runtime_gate_event l.

(** The serialization of the [svg] element and what follows it. *)
Definition is_serialization (e : event) : bool :=
  match e with
  | EvalSvgContent | WriteFile _ _ | StatSize _ => true
  | _ => false
  end.

(** What is claimed of the runtime gate of an attempt [r] that met the
    answers [ps]: at most two checks; one check after the 3000 ms delay
    when the runtime is there at once; otherwise the 5000 ms delay and
    one more check; and when the runtime is still absent the attempt is
    a failure for that reason (the message is kept when the browser
    shuts down normally) and no later gate is entered. *)
Definition runtime_gate_policy (ps : PageScript) (r : run (bool * string)) : Prop :=
  (d3_checks (events r) <= 2)%nat /\
  (d3_first ps = Returns true ->
     runtime_gate_events (events r) = [WaitForTimeout 3000; EvalD3]) /\
  (d3_first ps = Returns false -> settle_5000 ps = Returns tt ->
     runtime_gate_events (events r)
     = [WaitForTimeout 3000; EvalD3; WaitForTimeout 5000; EvalD3]) /\
  (d3_first ps = Returns false -> settle_5000 ps = Returns tt ->
   d3_second ps = Returns false ->
     existsb is_later_gate (events r) = false /\
     (forall m, res r <> Returns (true, m)) /\
     (teardown_ok ps = true -> res r = Returns (false, "D3.js failed to load"))).

(** What is claimed of the structural validation of an attempt [r] whose
    [svg] element is described by [info]. *)
Definition validation_gate_policy (info : SvgInfo) (ps : PageScript)
    (r : run (bool * string)) : Prop :=
  (children info < 5 ->
     (forall m, res r <> Returns (true, m)) /\
     (teardown_ok ps = true -> res r = Returns (false, "Invalid SVG content")) /\
     existsb is_serialization (events r) = false) /\
  (5 <= children info ->
     In EvalSvgContent (events r) /\
     res r <> Returns (false, "Invalid SVG content")).

(** The files written during a run, with their contents. *)
Fixpoint written_files (l : list event) : list (string * string) :=
  match l with
  | [] => []
  | WriteFile path content :: l' => (path, content) :: written_files l'
  | _ :: l' => written_files l'
  end.

(** What holds of the block that adds the declaration and the namespace
    to the markup [s]: the result starts with [<?xml]; when [s] already
    has the attribute nothing is inserted but, if missing, the
    declaration; when [s] has no attribute but an [<svg] tag, the result
    has the attribute; and applying the block again changes nothing. *)
Definition normalization_policy (s : string) : Prop :=
  let a := add_declaration_and_namespace s in
  PyStr.startswith "<?xml" a = true /\
  (PyStr.contains xmlns_attr s = true ->
     a = if PyStr.startswith "<?xml" s then s else xml_declaration ++ s) /\
  (PyStr.contains xmlns_attr s = false -> PyStr.contains "<svg" s = true ->
     PyStr.contains xmlns_attr a = true) /\
  add_declaration_and_namespace a = a.

(** The suffix of [s] that starts at the first occurrence of [p]. *)
Fixpoint from_first (p s : string) : string :=
  match s with
  | EmptyString => EmptyString
  | String _ s' => if PyStr.startswith p s then s else from_first p s'
  end.

(** The text of [s] before the first [c]. *)
Fixpoint before_char (c : ascii) (s : string) : string :=
  match s with
  | EmptyString => EmptyString
  | String x s' => if Ascii.eqb x c then EmptyString else String x (before_char c s')
  end.

(** The opening tag of the root element of an SVG document, without its
    closing [>]. *)
Definition root_tag (s : string) : string := before_char ">" (from_first "<svg" s).

(** What holds, beside [normalization_policy], of the block on markup
    that starts with [<svg], as the serialization of an [svg] element
    does: the result starts with the declaration; when the attribute
    text occurs nowhere in [s] the root element gets it; and when the
    root element of [s] has it, [s] is kept unchanged after the
    declaration. *)
Definition browser_markup_policy (s : string) : Prop :=
  normalization_policy s /\
  (PyStr.startswith "<svg" s = true ->
   PyStr.startswith xml_declaration (add_declaration_and_namespace s) = true /\
   (PyStr.contains xmlns_attr s = false ->
      PyStr.startswith (xml_declaration ++ svg_with_xmlns) (add_declaration_and_namespace s)
      = true) /\
   (PyStr.contains xmlns_attr (root_tag s) = true ->
      add_declaration_and_namespace s = xml_declaration ++ s)).

(** What the subprocess extraction of the document [d] reports: the
    pair returned by [extract_svg_subprocess] (it does not depend on the
    time of the call). *)
Definition extraction_verdict (inst : Api.Install) (xs : Z -> Api.ExtractScript)
    (d : Api.GeneratedDoc) : bool * string :=
  match res (Api.extract_svg_subprocess inst (xs (Api.variant_id d)) (Api.html d)
               (Api.directory d ++ "/infographic.svg")
               ("variant_" ++ PyStr.of_Z (Api.variant_id d)) 0) with
  | Returns v => v
  | Raises _ => (false, EmptyString)
  end.

(** The artifact of [d] can be read back and its size taken. *)
Definition readable (xs : Z -> Api.ExtractScript) (d : Api.GeneratedDoc) : Prop :=
  returned (Api.read_svg (xs (Api.variant_id d))) = true /\
  returned (Api.stat_svg (xs (Api.variant_id d))) = true.

(** The delay, in milliseconds, slept before the extraction at index
    [i]. *)
Definition stagger_delay (i : Z) : Z := if 0 <? i * 3 then 1000 * (i * 3) else 0.

(** How an entry of [svg_results] relates to its document. *)
Definition entry_of (inst : Api.Install) (xs : Z -> Api.ExtractScript)
    (d : Api.GeneratedDoc) (e : Api.SvgResult) : Prop :=
  Api.sr_variant_id e = Api.variant_id d /\
  Api.sr_success e = fst (extraction_verdict inst xs d) /\
  Api.sr_message e = snd (extraction_verdict inst xs d).

(** The subprocess launches of a run. *)
Definition subprocess_runs {A} (r : run A) : list event := filter is_SubprocessRun (events r).

(** The launch of the extractor for the document [d], with its
    timeout. *)
Definition expected_run (inst : Api.Install) (d : Api.GeneratedDoc) : event :=
  SubprocessRun [Api.executable inst; Api.src_dir inst ++ "/svg_extractor.py"; Api.html d;
                 Api.directory d ++ "/infographic.svg";
                 "variant_" ++ PyStr.of_Z (Api.variant_id d)] 120.

(** The document that the generation task of slot [v] yields, if any
    (it does not depend on the time of the call). *)
Definition generated (bs : Api.BatchScript) (topic dir : string) (v : Z)
  : option Api.GeneratedDoc :=
  match res (Api.generate_single_variant_api (Api.gen bs v) topic v dir 0) with
  | Returns x => x
  | Raises _ => None
  end.

Definition docs_of (o : option Api.GeneratedDoc) : list Api.GeneratedDoc :=
  match o with Some d => [d] | None => [] end.

(** The documents collected from the slots of [order], in that order. *)
Definition html_docs (bs : Api.BatchScript) (topic dir : string) (order : list Z)
  : list Api.GeneratedDoc :=
  flat_map (fun v => docs_of (generated bs topic dir v)) order.

(** The topic, directory and generated documents of a batch. *)
Definition batch_topic (req : Api.InfographicRequest) : string := PyStr.strip (Api.prompt req).

Definition batch_dir (bs : Api.BatchScript) (req : Api.InfographicRequest) : string :=
  "generated/" ++ Api.batch_name bs (batch_topic req).

(** The slots of a batch, in the order in which their futures are
    yielded. *)
Definition completed_slots (bs : Api.BatchScript) : list Z :=
  as_completed (range 3) (Api.completion_order bs).

Definition batch_docs (bs : Api.BatchScript) (req : Api.InfographicRequest)
  : list Api.GeneratedDoc :=
  html_docs bs (batch_topic req) (batch_dir bs req) (completed_slots bs).

(** How an entry of the response relates to its document. *)
Definition variant_of (bs : Api.BatchScript) (d : Api.GeneratedDoc)
    (rv : Api.ResponseVariant) : Prop :=
  Api.rv_variant_id rv = Api.variant_id d /\
  Api.rv_success rv = fst (extraction_verdict (Api.install bs) (Api.extraction bs) d) /\
  Api.rv_message rv = snd (extraction_verdict (Api.install bs) (Api.extraction bs) d).

Definition is_WriteFile (e : event) : bool :=
  match e with WriteFile _ _ => true | _ => false end.

Definition is_PlaywrightStart (e : event) : bool :=
  match e with PlaywrightStart => true | _ => false end.

(** The time of the first event that satisfies [p]. *)
Fixpoint first_time (p : event -> bool) (l : list (Z * event)) : option Z :=
  match l with
  | [] => None
  | (t, e) :: l' => if p e then Some t else first_time p l'
  end.

(** ** Sample scripts *)

(** A page on which the runtime answers [d3_a] at the first check and
    [d3_b] at the second, whose [svg] element has [n] children and is
    serialized as [markup]; every other call returns normally. *)
Definition sample_page (d3_a d3_b : bool) (n : Z) (markup : string) : PageScript :=
  {| cwd := "/srv/app";
     pw_start := Returns tt;
     pw_stop := Returns tt;
     launch := Returns tt;
     close := Returns tt;
     new_page := Returns tt;
     set_viewport := Returns tt;
     goto := Returns tt;
     settle_3000 := Returns tt;
     d3_first := Returns d3_a;
     settle_5000 := Returns tt;
     d3_second := Returns d3_b;
     wait_selector := Returns tt;
     settle_2000 := Returns tt;
     svg_info := Returns (Some {| children := n; textElements := 2 |});
     svg_content := Returns (Some markup);
     write := Returns tt;
     stat_size := Returns (PyStr.utf8_len (add_declaration_and_namespace markup)) |}.

Definition sample_markup : string := "<svg width=1><g></g><g></g><g></g><g></g><g></g></svg>".

(** Markup, as the browser serializes it, in which the root element has
    no namespace attribute and a nested [svg] element has one. *)
Definition inner_namespace_markup : string :=
  Eval cbv in
    "<svg width=" ++ DQ ++ "800" ++ DQ ++ " height=" ++ DQ ++ "600" ++ DQ ++ "><g><svg "
    ++ xmlns_attr ++ " x=" ++ DQ ++ "10" ++ DQ
    ++ "></svg></g><g></g><g></g><g></g><g></g></svg>".

(** The page of [sample_page d3_a d3_b n markup] on which closing the
    browser raises [e]. *)
Definition unclosable_page (d3_a d3_b : bool) (n : Z) (markup : string) (e : exn)
  : PageScript :=
  let ps := sample_page d3_a d3_b n markup in
  {| cwd := cwd ps;
     pw_start := pw_start ps;
     pw_stop := pw_stop ps;
     launch := launch ps;
     close := Raises e;
     new_page := new_page ps;
     set_viewport := set_viewport ps;
     goto := goto ps;
     settle_3000 := settle_3000 ps;
     d3_first := d3_first ps;
     settle_5000 := settle_5000 ps;
     d3_second := d3_second ps;
     wait_selector := wait_selector ps;
     settle_2000 := settle_2000 ps;
     svg_info := svg_info ps;
     svg_content := svg_content ps;
     write := write ps;
     stat_size := stat_size ps |}.

Definition sample_install : Api.Install :=
  {| Api.executable := "/usr/bin/python3"; Api.src_dir := "/srv/app/src" |}.

Definition sample_html : string :=
  "<!DOCTYPE html><html><body><div id=chart></div></body></html>".

(** A generation task whose two calls to the generation service return
    [elements] and [code]. *)
Definition sample_gen (elements code : option string) : GenScript :=
  {| import_gemini := Returns tt;
     mkdir_variant := Returns tt;
     elements_elapsed := 1500;
     elements_answer := Returns elements;
     code_elapsed := 4000;
     code_answer := fun _ => Returns code;
     write_html := Returns tt |}.

Inductive sample_outcome : Type := Extracted | Rejected | TimedOut.

(** A subprocess extraction that succeeds, that exits with status 1, or
    that exceeds its timeout. *)
Definition sample_extraction (o : sample_outcome) : Api.ExtractScript :=
  match o with
  | Extracted =>
      {| Api.run_elapsed := 9000;
         Api.run_answer :=
           Returns {| Api.returncode := 0;
                      Api.stdout := "[EXTRACTOR] Starting extraction for variant" ++ PyStr.LF
                                    ++ "[EXTRACTOR] SUCCESS: Success: 54 bytes" ++ PyStr.LF;
                      Api.stderr := EmptyString |};
         Api.read_svg := Returns (xml_declaration ++ sample_markup);
         Api.stat_svg := Returns 93 |}
  | Rejected =>
      {| Api.run_elapsed := 8500;
         Api.run_answer :=
           Returns {| Api.returncode := 1;
                      Api.stdout := "[EXTRACTOR] FAILED: D3.js failed to load" ++ PyStr.LF;
                      Api.stderr := EmptyString |};
         Api.read_svg := Raises (PyException "No such file or directory");
         Api.stat_svg := Raises (PyException "No such file or directory") |}
  | TimedOut =>
      {| Api.run_elapsed := 120000;
         Api.run_answer := Raises (TimeoutExpired "timed out after 120 seconds");
         Api.read_svg := Raises (PyException "No such file or directory");
         Api.stat_svg := Raises (PyException "No such file or directory") |}
  end.

(** A batch in which the futures complete in [order], the code
    generation of slot [v] returns [code v], and the extraction of
    variant [id] ends as [ext id]. *)
Definition sample_batch (order : list Z) (code : Z -> option string)
    (ext : Z -> sample_outcome) : Api.BatchScript :=
  {| Api.install := sample_install;
     Api.batch_name := fun _ => "api_batch_1700000000_5f3a9c1e_coffee_brewing";
     Api.mkdir_batch := Returns tt;
     Api.completion_order := order;
     Api.gen := fun v => sample_gen (Some "title, bars, legend") (code v);
     Api.extraction := fun id => sample_extraction (ext id) |}.

Definition sample_request : Api.InfographicRequest :=
  {| Api.prompt := "  coffee brewing "; Api.style_preference := "creative and modern" |}.

Definition sample_doc (id : Z) : Api.GeneratedDoc :=
  {| Api.variant_id := id;
     Api.html := "generated/b/variant_" ++ PyStr.of_Z id ++ "/infographic.html";
     Api.directory := "generated/b/variant_" ++ PyStr.of_Z id;
     Api.status := "html_generated" |}.

(** ** The name of the batch directory *)

Module BatchName.

(** [c.isalnum() or c in (' ', '-', '_')] *)
Definition kept (c : ascii) : bool :=
  PyText.isalnum c || Ascii.eqb c " " || Ascii.eqb c "-" || Ascii.eqb c "_".

(** The two lines that compute [safe_topic] in [generate_infographics]
    and in [main_d3_parallel_headless]. *)
Definition safe_topic (topic : string) : string :=
  let safe_topic := PyStr.rstrip (PyText.filter_chars kept topic) in
  PyText.take 50 (PyText.join "_" (PyText.split_ws safe_topic)).

(** [batch_name] of [generate_infographics]; [hexdigest] stands for
    [hashlib.md5(topic.encode()).hexdigest()]. *)
Definition api_batch_name (timestamp : Z) (hexdigest topic : string) : string :=
  "api_batch_" ++ PyStr.of_Z timestamp ++ "_" ++ PyText.take 8 hexdigest ++ "_"
  ++ safe_topic topic.

(** [batch_name] of [main_d3_parallel_headless]. *)
Definition cli_batch_name (timestamp : Z) (hexdigest topic : string) : string :=
  "batch_" ++ PyStr.of_Z timestamp ++ "_" ++ PyText.take 8 hexdigest ++ "_"
  ++ safe_topic topic.

End BatchName.

(** ** [gemini_api_d3_single_frame.py] and [gemini_api_d3_headless.py]:
    the text processing around the calls to the model *)

Module Gemini.

Definition fence : string := "```".

(** The block under the comment [# Remove accidental code blocks],
    applied to [response.text]; [lang] is [json] for the list of
    elements and [html] for the code. *)
Definition remove_code_fences (lang : string) (text : string) : string :=
  let s := PyStr.strip text in
  let s := if PyStr.startswith (fence ++ lang) s then PyText.drop 7 s else s in
  let s := if PyStr.startswith fence s then PyText.drop 3 s else s in
  let s := if PyText.endswith fence s then PyText.drop_last 3 s else s in
  PyStr.strip s.

(** The branch taken for a dictionary prompt with the task [task]. *)
Inductive branch : Type := ListElements | GenerateCode | LegacyFlow.

(** The tests on [prompt['task'].lower()] that select the branch, the
    same in [get_d3_code_single_frame] and
    [get_d3_code_headless_variant]. *)
Definition task_branch (task : string) : branch :=
  let task := PyText.lower task in
  if PyStr.contains "list" task && PyStr.contains "element" task then ListElements
  else if PyStr.contains "code" task then GenerateCode
  else LegacyFlow.

End Gemini.

(** ** More notions used in the statements *)

Definition is_BrowserClose (e : event) : bool :=
  match e with BrowserClose => true | _ => false end.

Definition is_GetCode (e : event) : bool :=
  match e with GetCode _ _ _ _ => true | _ => false end.

Definition is_SubprocessKill (e : event) : bool :=
  match e with SubprocessKill _ => true | _ => false end.

(** The launches and the kills of subprocesses in a run, in order. *)
Definition process_events {A} (r : run A) : list event :=
  filter (fun e => is_SubprocessRun e || is_SubprocessKill e) (events r).


(** The kill of the extractor launched for the document [d]. *)
Definition expected_kill (inst : Api.Install) (d : Api.GeneratedDoc) : event :=
  SubprocessKill [Api.executable inst; Api.src_dir inst ++ "/svg_extractor.py"; Api.html d;
                  Api.directory d ++ "/infographic.svg";
                  "variant_" ++ PyStr.of_Z (Api.variant_id d)].


(** The launches of subprocesses in a log, with their times. *)
Definition launches (l : list (Z * event)) : list (Z * event) :=
  filter (fun p => is_SubprocessRun (snd p)) l.

(** The launches of a sequence of extractions that begins at the time
    [t] with the list index [i]: the document at index [i] is launched
    [3 * i] seconds after the end of the extraction before it (after
    [t] for the first one), and its extraction lasts as long as its
    subprocess runs. *)
Fixpoint staggered_launches (inst : Api.Install) (xs : Z -> Api.ExtractScript)
    (i t : Z) (docs : list Api.GeneratedDoc) : list (Z * event) :=
  match docs with
  | [] => []
  | d :: rest =>
      let start := t + 1000 * (3 * i) in
      (start, expected_run inst d)
      :: staggered_launches inst xs (i + 1)
           (start + Api.run_elapsed (xs (Api.variant_id d))) rest
  end.

(** The total of the staggered delays, in milliseconds, slept before
    [n] extractions that start at index [i]. *)
Fixpoint stagger_total (i : Z) (n : nat) : Z :=
  match n with
  | O => 0
  | S n' => 3000 * i + stagger_total (i + 1) n'
  end.

(** Characters allowed in the sanitized topic. *)
Definition name_char (c : ascii) : bool :=
  PyText.isalnum c || Ascii.eqb c "-" || Ascii.eqb c "_".

(** What an entry of [svg_results] carries for its document [d]: the
    path of the artifact, and either the encoded content read back from
    it and its size, or nothing. *)
Definition entry_content (xs : Z -> Api.ExtractScript) (d : Api.GeneratedDoc)
    (e : Api.SvgResult) : Prop :=
  Api.sr_svg_file e = Api.directory d ++ "/infographic.svg" /\
  if Api.sr_success e
  then exists content,
         Api.read_svg (xs (Api.variant_id d)) = Returns content /\
         Api.sr_svg_content_base64 e = Some (PyStr.b64encode content) /\
         Api.stat_svg (xs (Api.variant_id d)) = Returns (Api.sr_file_size e)
  else Api.sr_svg_content_base64 e = None /\ Api.sr_file_size e = 0.

(** A document of the slot [v] under the directory [base]. *)
Definition doc_of_slot (base : string) (v : Z) : Api.GeneratedDoc :=
  let variant_dir := base ++ "/variant_" ++ PyStr.of_Z (v + 1) in
  {| Api.variant_id := v + 1;
     Api.html := variant_dir ++ "/infographic.html";
     Api.directory := variant_dir;
     Api.status := "html_generated" |}.

(** Number of successful variants of a response. *)
Definition successes (resp : Api.InfographicResponse) : nat :=
  List.length (filter Api.rv_success (Api.variants resp)).

(** Number of times the browser is closed in a run. *)
Definition closes {A} (r : run A) : nat := List.length (filter is_BrowserClose (events r)).

(** The calls made on the browser or on its page, as opposed to the
    start and stop of Playwright and to the file system. *)
Definition is_browser_or_page (e : event) : bool :=
  match e with
  | BrowserLaunch | BrowserClose | NewPage | SetViewport _ _ | Goto _ _ | WaitForTimeout _
  | EvalD3 | WaitForSelector _ _ | EvalSvgInfo | EvalSvgContent => true
  | _ => false
  end.

(** The test applied to every line of the output of the extractor:
    ["SUCCESS:" in line and "bytes" in line]. *)
Definition has_markers (line : string) : bool :=
  PyStr.contains "SUCCESS:" line && PyStr.contains "bytes" line.

Definition is_digit (c : ascii) : bool :=
  let n := nat_of_ascii c in ((48 <=? n) && (n <=? 57))%nat.

(** The characters of [str(z)]. *)
Definition is_numeral_char (c : ascii) : bool := is_digit c || Ascii.eqb c "-".

(** [c in p] for a character *)
Fixpoint occurs (c : ascii) (p : string) : bool :=
  match p with
  | EmptyString => false
  | String x p' => Ascii.eqb x c || occurs c p'
  end.

(** What a variant of the response carries: when it is a success, the
    encoding of the content read back from the artifact of that variant
    and the size of the artifact; otherwise no content and the size
    0. *)
Definition variant_content (xs : Z -> Api.ExtractScript) (rv : Api.ResponseVariant) : Prop :=
  if Api.rv_success rv
  then exists content,
         Api.read_svg (xs (Api.rv_variant_id rv)) = Returns content /\
         Api.rv_svg_content_base64 rv = Some (PyStr.b64encode content) /\
         Api.stat_svg (xs (Api.rv_variant_id rv)) = Returns (Api.rv_file_size rv)
  else Api.rv_svg_content_base64 rv = None /\ Api.rv_file_size rv = 0.

(** The exception met when the artifact of [d] is read back and its
    size taken, if any. *)
Definition read_back_error (xs : Z -> Api.ExtractScript) (d : Api.GeneratedDoc) : option exn :=
  match Api.read_svg (xs (Api.variant_id d)) with
  | Raises e => Some e
  | Returns _ =>
      match Api.stat_svg (xs (Api.variant_id d)) with
      | Raises e => Some e
      | Returns _ => None
      end
  end.

(** The dictionary that the command-line task of slot [v] returns under
    the directory [base]. *)
Definition variant_of_slot (base : string) (v : Z) : MainHeadless.Variant :=
  let variant_dir := base ++ "/variant_" ++ PyStr.of_Z (v + 1) in
  {| MainHeadless.variant_id := v + 1;
     MainHeadless.html := variant_dir ++ "/infographic.html";
     MainHeadless.svg := variant_dir ++ "/infographic.svg";
     MainHeadless.directory := variant_dir |}.

(** The generation task of the slot [v] yields a document. *)
Definition slot_generated (bs : Api.BatchScript) (req : Api.InfographicRequest) (v : Z)
  : bool :=
  match generated bs (batch_topic req) (batch_dir bs req) v with
  | Some _ => true
  | None => false
  end.

(** The slots whose generation task yields a document, in the order of
    completion. *)
Definition generated_slots (bs : Api.BatchScript) (req : Api.InfographicRequest) : list Z :=
  filter (slot_generated bs req) (completed_slots bs).

(** The entries of a response for the slot [v]. *)
Definition entries_of_slot (resp : Api.InfographicResponse) (v : Z)
  : list Api.ResponseVariant :=
  filter (fun rv => Api.rv_variant_id rv =? v + 1) (Api.variants resp).

(** ** More sample scripts *)



(** A subprocess that exits with status 0 and whose report has no space
    after the marker. *)
Definition terse_extraction : Api.ExtractScript :=
  {| Api.run_elapsed := 9000;
     Api.run_answer :=
       Returns {| Api.returncode := 0;
                  Api.stdout := "starting" ++ PyStr.LF ++ "SUCCESS:54 bytes" ++ PyStr.LF;
                  Api.stderr := EmptyString |};
     Api.read_svg := Returns (xml_declaration ++ sample_markup);
     Api.stat_svg := Returns 93 |}.

(** A subprocess that reports a success, after which the artifact
    cannot be opened. *)
Definition vanished_extraction : Api.ExtractScript :=
  {| Api.run_elapsed := 9000;
     Api.run_answer := Api.run_answer (sample_extraction Extracted);
     Api.read_svg := Raises (PyException "No such file or directory");
     Api.stat_svg := Raises (PyException "No such file or directory") |}.

(** The batch of [sample_batch [0; 1; 2]] in which every document is
    generated and the artifact of variant 2 cannot be read back. *)
Definition vanishing_batch : Api.BatchScript :=
  {| Api.install := sample_install;
     Api.batch_name := fun _ => "api_batch_1700000000_5f3a9c1e_coffee_brewing";
     Api.mkdir_batch := Returns tt;
     Api.completion_order := [0; 1; 2];
     Api.gen := fun _ => sample_gen (Some "title, bars, legend") (Some sample_html);
     Api.extraction := fun id => if id =? 2 then vanished_extraction
                                 else sample_extraction Extracted |}.

(** A batch whose directory cannot be created. *)
Definition unwritable_batch : Api.BatchScript :=
  {| Api.install := sample_install;
     Api.batch_name := fun _ => "api_batch_1700000000_5f3a9c1e_coffee_brewing";
     Api.mkdir_batch := Raises (PyException "Permission denied");
     Api.completion_order := [0; 1; 2];
     Api.gen := fun _ => sample_gen (Some "title, bars, legend") (Some sample_html);
     Api.extraction := fun _ => sample_extraction Extracted |}.

(** * Properties *)

(** ** Strings *)

Example strip_example : PyStr.strip "  a b  " = "a b".
Proof. reflexivity. Qed.

Example split_example : PyStr.split ", " "a, b, c" = ["a"; "b"; "c"].
Proof. reflexivity. Qed.

Example replace_example : PyStr.replace "ab" "X" "aabab_" = "aXX_".
Proof. reflexivity. Qed.

Example count_example : PyStr.count "aa" "aaaaa" = 2%nat.
Proof. reflexivity. Qed.

Lemma startswith_split (p s : string) :
  PyStr.startswith p s = true -> exists t, s = p ++ t.
Proof.
  revert s. induction p as [|c p IH]; intros s H.
  - exists s. reflexivity.
  - destruct s as [|d s]; simpl in H; [discriminate|].
    apply andb_true_iff in H. destruct H as [Hc H].
    apply Ascii.eqb_eq in Hc. subst d.
    destruct (IH s H) as [t ->]. exists t. reflexivity.
Qed.

Lemma startswith_append (p a b : string) :
  PyStr.startswith p a = true -> PyStr.startswith p (a ++ b) = true.
Proof.
  revert a. induction p as [|c p IH]; intros a H; [reflexivity|].
  destruct a as [|d a]; simpl in *; [discriminate|].
  apply andb_true_iff in H. destruct H as [Hc H].
  rewrite Hc, (IH a H). reflexivity.
Qed.

Lemma contains_step (p : string) (c : ascii) (s : string) :
  PyStr.contains p (String c s) = PyStr.startswith p (String c s) || PyStr.contains p s.
Proof. reflexivity. Qed.

Lemma contains_append_l (p a b : string) :
  PyStr.contains p a = true -> PyStr.contains p (a ++ b) = true.
Proof.
  induction a as [|c a IH]; intros H.
  - destruct p; [destruct b; reflexivity|discriminate].
  - rewrite contains_step in H. apply orb_true_iff in H.
    change (String c a ++ b) with (String c (a ++ b)). rewrite contains_step.
    apply orb_true_iff. destruct H as [H|H].
    + left. exact (startswith_append _ _ b H).
    + right. exact (IH H).
Qed.

Lemma contains_append_r (p a b : string) :
  PyStr.contains p b = true -> PyStr.contains p (a ++ b) = true.
Proof.
  intros H. induction a as [|c a IH]; [exact H|].
  change (String c a ++ b) with (String c (a ++ b)).
  rewrite contains_step, IH. apply orb_true_r.
Qed.

Lemma contains_cons (p : string) (c : ascii) (s : string) :
  PyStr.contains p s = true -> PyStr.contains p (String c s) = true.
Proof. intros H. rewrite contains_step, H. apply orb_true_r. Qed.

(** A replacement with nothing to replace changes nothing. *)
Lemma replace_absent (old new s : string) :
  PyStr.contains old s = false -> PyStr.replace old new s = s.
Proof.
  unfold PyStr.replace. induction s as [|c s IH]; intros H; [reflexivity|].
  rewrite contains_step in H. apply orb_false_iff in H. destruct H as [Hp Hc].
  cbn [PyStr.replace_from]. rewrite Hp, (IH Hc). reflexivity.
Qed.

(** After a replacement that found an occurrence, whatever the new text
    contains is contained in the result. *)
Lemma replace_present (old new q s : string) :
  PyStr.contains old s = true -> old <> EmptyString ->
  PyStr.contains q new = true ->
  PyStr.contains q (PyStr.replace old new s) = true.
Proof.
  unfold PyStr.replace. intros H Hne Hq.
  induction s as [|c s IH].
  - destruct old; [congruence|discriminate].
  - cbn [PyStr.replace_from].
    destruct (PyStr.startswith old (String c s)) eqn:Hp.
    + apply contains_append_l. exact Hq.
    + rewrite contains_step, Hp in H.
      apply contains_cons. apply IH. exact H.
Qed.

(** ** The declaration and the namespace attribute *)

Lemma declaration_starts_xml (s : string) :
  PyStr.startswith "<?xml" (xml_declaration ++ s) = true.
Proof. reflexivity. Qed.

Lemma declaration_has_no_namespace (s : string) :
  PyStr.contains xmlns_attr (xml_declaration ++ s) = PyStr.contains xmlns_attr s.
Proof. reflexivity. Qed.

Lemma declaration_has_no_svg (s : string) :
  PyStr.contains "<svg" (xml_declaration ++ s) = PyStr.contains "<svg" s.
Proof. reflexivity. Qed.

Lemma replace_keeps_xml_prefix (s : string) :
  PyStr.startswith "<?xml" s = true ->
  PyStr.startswith "<?xml" (PyStr.replace "<svg" svg_with_xmlns s) = true.
Proof.
  intros H. destruct (startswith_split _ _ H) as [t ->]. reflexivity.
Qed.

(** The result of the normalization block starts with [<?xml]. *)
Lemma normalized_starts_xml (s : string) :
  PyStr.startswith "<?xml" (add_declaration_and_namespace s) = true.
Proof.
  unfold add_declaration_and_namespace.
  destruct (PyStr.startswith "<?xml" s) eqn:Hs; cbn [negb].
  - destruct (PyStr.contains xmlns_attr s); cbn [negb]; auto using replace_keeps_xml_prefix.
  - destruct (PyStr.contains xmlns_attr (xml_declaration ++ s)); cbn [negb].
    + apply declaration_starts_xml.
    + apply replace_keeps_xml_prefix, declaration_starts_xml.
Qed.

Lemma normalized_fixpoint_of_present (s : string) :
  PyStr.startswith "<?xml" s = true ->
  PyStr.contains xmlns_attr s = true ->
  add_declaration_and_namespace s = s.
Proof.
  intros H1 H2. unfold add_declaration_and_namespace. rewrite H1. cbn [negb].
  rewrite H2. reflexivity.
Qed.

(** When the attribute is already there nothing but the declaration is
    added. *)
Lemma normalized_when_present (s : string) :
  PyStr.contains xmlns_attr s = true ->
  add_declaration_and_namespace s =
  if PyStr.startswith "<?xml" s then s else xml_declaration ++ s.
Proof.
  intros H. unfold add_declaration_and_namespace.
  destruct (PyStr.startswith "<?xml" s); cbn [negb].
  - rewrite H. reflexivity.
  - rewrite declaration_has_no_namespace, H. reflexivity.
Qed.

(** When the attribute is missing and the markup has an [<svg] tag, the
    result has the attribute. *)
Lemma normalized_when_absent (s : string) :
  PyStr.contains xmlns_attr s = false ->
  PyStr.contains "<svg" s = true ->
  PyStr.contains xmlns_attr (add_declaration_and_namespace s) = true.
Proof.
  intros H1 H2. unfold add_declaration_and_namespace.
  destruct (PyStr.startswith "<?xml" s); cbn [negb].
  - rewrite H1. cbn [negb].
    apply replace_present; [exact H2|discriminate|reflexivity].
  - rewrite declaration_has_no_namespace, H1. cbn [negb].
    apply replace_present; [|discriminate|reflexivity].
    rewrite declaration_has_no_svg. exact H2.
Qed.

(** Normalizing twice is normalizing once. *)
Lemma normalized_idempotent (s : string) :
  add_declaration_and_namespace (add_declaration_and_namespace s) =
  add_declaration_and_namespace s.
Proof.
  pose proof (normalized_starts_xml s) as Hx.
  destruct (PyStr.contains xmlns_attr (add_declaration_and_namespace s)) eqn:Hc.
  - apply normalized_fixpoint_of_present; assumption.
  - unfold add_declaration_and_namespace at 1. rewrite Hx. cbn [negb].
    rewrite Hc. cbn [negb].
    apply replace_absent.
    revert Hc. unfold add_declaration_and_namespace.
    set (s1 := if negb (PyStr.startswith "<?xml" s) then xml_declaration ++ s else s).
    destruct (PyStr.contains xmlns_attr s1) eqn:Hn; cbn [negb]; intros Hc.
    + congruence.
    + destruct (PyStr.contains "<svg" s1) eqn:Hs.
      * rewrite replace_present in Hc; [discriminate|exact Hs|discriminate|reflexivity].
      * rewrite replace_absent by exact Hs. exact Hs.
Qed.

Example normalize_plain :
  add_declaration_and_namespace "<svg width=1><g></g></svg>" =
  xml_declaration ++ svg_with_xmlns ++ " width=1><g></g></svg>".
Proof. reflexivity. Qed.


(** ** Case analysis of a run *)

Ltac unfold_m :=
  unfold with_playwright, bind, try_, finally_, call, wait_for_timeout, call_timed,
    ret, raise in *.

Ltac destruct_returned :=
  repeat match goal with
  | H : returned ?x = true |- _ => destruct x; [clear H|discriminate H]
  | H : (_ && _) = true |- _ => apply andb_true_iff in H; destruct H
  end.

Ltac reduce_run := cbv beta iota delta [negb invalid_svg_info res now log].

(** Follow a run: split on the answer that the next call site reads. *)
Ltac split_run :=
  reduce_run;
  repeat match goal with
  | |- context [match ?x with _ => _ end] =>
      lazymatch x with
      | context [match _ with _ => _ end] => fail
      | _ => first [ is_var x; destruct x | destruct x eqn:? ]; reduce_run
      end
  end.

Ltac split_hyps :=
  repeat match goal with
  | H : context [match ?x with _ => _ end] |- _ =>
      is_var x; destruct x; cbn in H; try discriminate H
  end.

Ltac finish_leaf :=
  cbn -[String.append Z.add];
  repeat split; intros; try discriminate; try congruence; try reflexivity; try lia;
  try solve [cbn; repeat (first [left; reflexivity | right])].

(** ** The runtime gate *)

Lemma extractor_runtime_gate ps html out name t :
  reaches_runtime_gate ps = true ->
  runtime_gate_policy ps (SvgExtractor.extract_svg ps html out name t).
Proof.
  destruct ps; unfold reaches_runtime_gate, runtime_gate_policy, teardown_ok, events,
    d3_checks, runtime_gate_events; cbn.
  intros H. destruct_returned.
  unfold SvgExtractor.extract_svg; unfold_m. cbn -[String.append Z.add].
  split_run; finish_leaf.
Qed.

Lemma api_runtime_gate ps html out name t :
  reaches_runtime_gate ps = true ->
  runtime_gate_policy ps (Api.headless_svg_extract_async ps html out name t).
Proof.
  destruct ps; unfold reaches_runtime_gate, runtime_gate_policy, teardown_ok, events,
    d3_checks, runtime_gate_events; cbn.
  intros H. destruct_returned.
  unfold Api.headless_svg_extract_async; unfold_m. cbn -[String.append Z.add].
  split_run; finish_leaf.
Qed.

Lemma extractor_checks_bounded ps html out name t :
  (d3_checks (events (SvgExtractor.extract_svg ps html out name t)) <= 2)%nat.
Proof.
  destruct ps; unfold events, d3_checks.
  unfold SvgExtractor.extract_svg; unfold_m. cbn -[String.append Z.add].
  split_run; cbn; lia.
Qed.

Lemma api_checks_bounded ps html out name t :
  (d3_checks (events (Api.headless_svg_extract_async ps html out name t)) <= 2)%nat.
Proof.
  destruct ps; unfold events, d3_checks.
  unfold Api.headless_svg_extract_async; unfold_m.
  cbn -[String.append Z.add add_declaration_and_namespace].
  split_run; cbn -[add_declaration_and_namespace]; lia.
Qed.

(** C9, as amended.  In [svg_extractor.extract_svg] and in the API's
    [headless_svg_extract_async], no attempt checks the runtime more
    than twice.  An attempt that gets to the runtime gate checks the
    runtime once after the 3000 ms settle delay; if it is absent it
    waits 5000 ms and checks once more; if it is still absent the
    attempt is never a success and enters no later gate, and it fails
    with "D3.js failed to load" when the browser and Playwright then
    shut down without raising. *)
Theorem runtime_gate_two_strikes (ps : PageScript) (html out name : string) (t : Z) :
  (d3_checks (events (SvgExtractor.extract_svg ps html out name t)) <= 2)%nat /\
  (d3_checks (events (Api.headless_svg_extract_async ps html out name t)) <= 2)%nat /\
  (reaches_runtime_gate ps = true ->
   runtime_gate_policy ps (SvgExtractor.extract_svg ps html out name t) /\
   runtime_gate_policy ps (Api.headless_svg_extract_async ps html out name t)).
Proof.
  split; [apply extractor_checks_bounded|].
  split; [apply api_checks_bounded|].
  intros H. split; [apply extractor_runtime_gate | apply api_runtime_gate]; exact H.
Qed.

Lemma runtime_gate_two_strikes_witness :
  runtime_gate_policy (sample_page false false 7 sample_markup)
    (SvgExtractor.extract_svg (sample_page false false 7 sample_markup)
       "v/infographic.html" "v/infographic.svg" "variant_1" 0) /\
  runtime_gate_policy (sample_page false false 7 sample_markup)
    (Api.headless_svg_extract_async (sample_page false false 7 sample_markup)
       "v/infographic.html" "v/infographic.svg" "variant_1" 0).
Proof.
  apply (runtime_gate_two_strikes (sample_page false false 7 sample_markup)).
  reflexivity.
Defined.

(** C9 as stated fails: when the runtime is absent at both checks and
    closing the browser then raises, the attempt does not fail with the
    reason of the runtime: [svg_extractor.extract_svg] reports a failed
    launch and the API function raises the exception of the close. *)
Lemma runtime_failure_masked_by_close :
  let ps := unclosable_page false false 7 sample_markup (PyException "Target closed") in
  let r1 := SvgExtractor.extract_svg ps "v/infographic.html" "v/infographic.svg" "variant_1" 0 in
  let r2 := Api.headless_svg_extract_async ps "v/infographic.html" "v/infographic.svg"
              "variant_1" 0 in
  reaches_runtime_gate ps = true /\
  d3_first ps = Returns false /\ d3_second ps = Returns false /\
  d3_checks (events r1) = 2%nat /\ d3_checks (events r2) = 2%nat /\
  res r1 = Returns (false, "Browser launch failed for variant_1: Target closed") /\
  res r2 = Raises (PyException "Target closed").
Proof. cbv zeta. repeat split; reflexivity. Qed.

Example runtime_absent_run :
  let r := SvgExtractor.extract_svg (sample_page false false 7 sample_markup)
             "v/infographic.html" "v/infographic.svg" "variant_1" 0 in
  res r = Returns (false, "D3.js failed to load") /\
  events r = [PlaywrightStart; BrowserLaunch; NewPage; SetViewport 1200 800;
              Goto "file:///srv/app/v/infographic.html" 30000;
              WaitForTimeout 3000; EvalD3; WaitForTimeout 5000; EvalD3;
              BrowserClose; PlaywrightStop] /\
  now r = 8000.
Proof. cbv. repeat split. Qed.

(** ** The structural validation gate *)

Lemma extractor_validation_gate ps info html out name t :
  reaches_validation_gate ps info ->
  validation_gate_policy info ps (SvgExtractor.extract_svg ps html out name t).
Proof.
  destruct ps; unfold reaches_validation_gate, reaches_runtime_gate, runtime_ready,
    validation_gate_policy, teardown_ok, events; cbn.
  intros (H1 & H2 & H3 & H4 & H5). destruct_returned. subst. split_hyps.
  all: unfold SvgExtractor.extract_svg; unfold_m; cbn -[String.append Z.add].
  all: split_run; finish_leaf.
Qed.

Lemma api_validation_gate ps info html out name t :
  reaches_validation_gate ps info ->
  validation_gate_policy info ps (Api.headless_svg_extract_async ps html out name t).
Proof.
  destruct ps; unfold reaches_validation_gate, reaches_runtime_gate, runtime_ready,
    validation_gate_policy, teardown_ok, events; cbn.
  intros (H1 & H2 & H3 & H4 & H5). destruct_returned. subst. split_hyps.
  all: unfold Api.headless_svg_extract_async; unfold_m; cbn -[String.append Z.add].
  all: split_run; finish_leaf.
Qed.

(** C4, as amended.  An attempt that gets to the structural validation
    with an [svg] element of fewer than 5 children is never a success
    and does not serialize the element, and it fails with "Invalid SVG
    content" when the browser and Playwright then shut down without
    raising; with 5 children or more it passes on to the
    serialization. *)
Theorem structural_validation_gate (ps : PageScript) (info : SvgInfo)
    (html out name : string) (t : Z) :
  reaches_validation_gate ps info ->
  validation_gate_policy info ps (SvgExtractor.extract_svg ps html out name t) /\
  validation_gate_policy info ps (Api.headless_svg_extract_async ps html out name t).
Proof.
  intros H. split; [apply extractor_validation_gate | apply api_validation_gate]; exact H.
Qed.

Lemma structural_validation_gate_witness :
  (validation_gate_policy {| children := 4; textElements := 2 |}
     (sample_page true true 4 sample_markup)
     (SvgExtractor.extract_svg (sample_page true true 4 sample_markup)
        "v/infographic.html" "v/infographic.svg" "variant_1" 0) /\
   validation_gate_policy {| children := 4; textElements := 2 |}
     (sample_page true true 4 sample_markup)
     (Api.headless_svg_extract_async (sample_page true true 4 sample_markup)
        "v/infographic.html" "v/infographic.svg" "variant_1" 0)) /\
  (validation_gate_policy {| children := 5; textElements := 2 |}
     (sample_page false true 5 sample_markup)
     (SvgExtractor.extract_svg (sample_page false true 5 sample_markup)
        "v/infographic.html" "v/infographic.svg" "variant_1" 0) /\
   validation_gate_policy {| children := 5; textElements := 2 |}
     (sample_page false true 5 sample_markup)
     (Api.headless_svg_extract_async (sample_page false true 5 sample_markup)
        "v/infographic.html" "v/infographic.svg" "variant_1" 0)).
Proof.
  split.
  - apply (structural_validation_gate (sample_page true true 4 sample_markup)).
    repeat split; reflexivity.
  - apply (structural_validation_gate (sample_page false true 5 sample_markup)).
    repeat split; reflexivity.
Defined.

(** C4 as stated fails: when the element has 4 children and closing
    the browser then raises, the attempt is not classified as a failure
    for insufficient content: [svg_extractor.extract_svg] reports a
    failed launch and the API function raises the exception of the
    close. *)
Lemma validation_failure_masked_by_close :
  let ps := unclosable_page true true 4 sample_markup (PyException "Target closed") in
  let r1 := SvgExtractor.extract_svg ps "v/infographic.html" "v/infographic.svg" "variant_1" 0 in
  let r2 := Api.headless_svg_extract_async ps "v/infographic.html" "v/infographic.svg"
              "variant_1" 0 in
  reaches_validation_gate ps {| children := 4; textElements := 2 |} /\
  res r1 = Returns (false, "Browser launch failed for variant_1: Target closed") /\
  res r2 = Raises (PyException "Target closed").
Proof. cbv zeta. split; [repeat split; reflexivity|]. split; reflexivity. Qed.

Example four_children_fail :
  res (SvgExtractor.extract_svg (sample_page true true 4 sample_markup)
         "v/infographic.html" "v/infographic.svg" "variant_1" 0)
  = Returns (false, "Invalid SVG content").
Proof. reflexivity. Qed.

Example five_children_pass :
  res (SvgExtractor.extract_svg (sample_page true true 5 sample_markup)
         "v/infographic.html" "v/infographic.svg" "variant_1" 0)
  = Returns (true, "Success: 54 bytes").
Proof. reflexivity. Qed.

(** ** The written artifact *)

Lemma extractor_success_written ps html out name t m :
  res (SvgExtractor.extract_svg ps html out name t) = Returns (true, m) ->
  exists s, svg_content ps = Returns (Some s) /\
    written_files (events (SvgExtractor.extract_svg ps html out name t))
    = [(out, xml_declaration ++ s)].
Proof.
  destruct ps; unfold events; cbn.
  unfold SvgExtractor.extract_svg; unfold_m. cbn -[String.append Z.add].
  split_run; cbn -[String.append Z.add]; intros H; try discriminate H.
  all: eexists; split; reflexivity.
Qed.

Lemma api_success_written ps html out name t m :
  res (Api.headless_svg_extract_async ps html out name t) = Returns (true, m) ->
  exists s, svg_content ps = Returns (Some s) /\
    written_files (events (Api.headless_svg_extract_async ps html out name t))
    = [(out, add_declaration_and_namespace s)].
Proof.
  destruct ps; unfold events; cbn.
  unfold Api.headless_svg_extract_async; unfold_m.
  cbn -[String.append Z.add add_declaration_and_namespace].
  split_run; cbn -[String.append Z.add add_declaration_and_namespace];
    intros H; try discriminate H.
  all: eexists; split; reflexivity.
Qed.

Lemma main_success_written ps html out t :
  res (MainHeadless.headless_svg_extract_async ps html out t) = Returns true ->
  exists s, svg_content ps = Returns (Some s) /\
    written_files (events (MainHeadless.headless_svg_extract_async ps html out t))
    = [(out, add_declaration_and_namespace s)].
Proof.
  destruct ps; unfold events; cbn.
  unfold MainHeadless.headless_svg_extract_async; unfold_m.
  cbn -[String.append Z.add add_declaration_and_namespace].
  split_run; cbn -[String.append Z.add add_declaration_and_namespace];
    intros H; try discriminate H.
  all: eexists; split; reflexivity.
Qed.

Lemma normalization_holds (s : string) : normalization_policy s.
Proof.
  unfold normalization_policy. cbv zeta.
  split; [apply normalized_starts_xml|].
  split; [apply normalized_when_present|].
  split; [apply normalized_when_absent|apply normalized_idempotent].
Qed.

Lemma from_first_suffix (p s : string) : exists pre, s = pre ++ from_first p s.
Proof.
  induction s as [|c s IH]; [exists EmptyString; reflexivity|].
  cbn [from_first]. destruct (PyStr.startswith p (String c s)).
  - exists EmptyString. reflexivity.
  - destruct IH as [pre IH]. exists (String c pre). cbn. rewrite <- IH. reflexivity.
Qed.

Lemma before_char_prefix (c : ascii) (s : string) : exists post, s = before_char c s ++ post.
Proof.
  induction s as [|x s IH]; [exists EmptyString; reflexivity|].
  cbn [before_char]. destruct (Ascii.eqb x c).
  - exists (String x s). reflexivity.
  - destruct IH as [post IH]. exists post. cbn. rewrite <- IH. reflexivity.
Qed.

(** What the opening tag of the root element contains, the document
    contains. *)
Lemma root_tag_contains (p s : string) :
  PyStr.contains p (root_tag s) = true -> PyStr.contains p s = true.
Proof.
  unfold root_tag. intros H.
  destruct (from_first_suffix "<svg" s) as [pre Hs].
  destruct (before_char_prefix ">" (from_first "<svg" s)) as [post Hp].
  rewrite Hs. apply contains_append_r. rewrite Hp. apply contains_append_l. exact H.
Qed.

(** The block on markup as the browser serializes an [svg] element. *)
Lemma browser_markup_normalized (s : string) :
  PyStr.startswith "<svg" s = true ->
  PyStr.startswith xml_declaration (add_declaration_and_namespace s) = true /\
  (PyStr.contains xmlns_attr s = false ->
     PyStr.startswith (xml_declaration ++ svg_with_xmlns) (add_declaration_and_namespace s)
     = true) /\
  (PyStr.contains xmlns_attr (root_tag s) = true ->
     add_declaration_and_namespace s = xml_declaration ++ s).
Proof.
  intros H. destruct (startswith_split _ _ H) as [rest ->].
  unfold add_declaration_and_namespace.
  change (PyStr.startswith "<?xml" ("<svg" ++ rest)) with false. cbn [negb].
  rewrite declaration_has_no_namespace.
  split; [|split].
  - destruct (PyStr.contains xmlns_attr ("<svg" ++ rest)); reflexivity.
  - intros ->. reflexivity.
  - intros Hr. rewrite (root_tag_contains _ _ Hr). reflexivity.
Qed.

Lemma browser_markup_holds (s : string) : browser_markup_policy s.
Proof.
  unfold browser_markup_policy. split; [apply normalization_holds|].
  apply browser_markup_normalized.
Qed.

(** X28.  The artifact of a successful extraction: [svg_extractor.extract_svg]
    writes the declaration followed by the markup that the page has
    serialized; the two [headless_svg_extract_async] write that markup
    after the block that adds declaration and namespace.  The result of
    the block starts with [<?xml], keeps markup that has the attribute
    text as it is but for the declaration, and is not changed by a
    second application; on markup that starts with [<svg], as the
    serialization of an [svg] element does, it starts with the
    declaration; the root element then gets the attribute when the
    attribute text occurs nowhere in the markup, and markup whose root
    element has the attribute is written unchanged after the
    declaration. *)
Theorem successful_artifact_normalized
    (ps : PageScript) (html out name : string) (t : Z) :
  (forall m, res (SvgExtractor.extract_svg ps html out name t) = Returns (true, m) ->
     exists s, svg_content ps = Returns (Some s) /\
       written_files (events (SvgExtractor.extract_svg ps html out name t))
       = [(out, xml_declaration ++ s)]) /\
  (res (MainHeadless.headless_svg_extract_async ps html out t) = Returns true ->
     exists s, svg_content ps = Returns (Some s) /\
       written_files (events (MainHeadless.headless_svg_extract_async ps html out t))
       = [(out, add_declaration_and_namespace s)] /\
       browser_markup_policy s) /\
  (forall m, res (Api.headless_svg_extract_async ps html out name t) = Returns (true, m) ->
     exists s, svg_content ps = Returns (Some s) /\
       written_files (events (Api.headless_svg_extract_async ps html out name t))
       = [(out, add_declaration_and_namespace s)] /\
       browser_markup_policy s).
Proof.
  split; [|split].
  - intros m H. exact (extractor_success_written _ _ _ _ _ _ H).
  - intros H. destruct (main_success_written _ _ _ _ H) as (s & H1 & H2).
    exists s. split; [exact H1|]. split; [exact H2|apply browser_markup_holds].
  - intros m H. destruct (api_success_written _ _ _ _ _ _ H) as (s & H1 & H2).
    exists s. split; [exact H1|]. split; [exact H2|apply browser_markup_holds].
Qed.

(** C3.  The two [headless_svg_extract_async] look for the text of the
    namespace attribute anywhere in the markup, where
    [svg_extractor.extract_svg] sets the attribute on the root element:
    on markup whose root element has no namespace attribute while a
    nested [svg] element has one, the extraction succeeds and writes
    the declaration followed by the markup unchanged, so that the root
    element of the artifact has no namespace attribute. *)
Theorem namespace_missing_on_root :
  let ps := sample_page true true 5 inner_namespace_markup in
  let r1 := MainHeadless.headless_svg_extract_async ps "v/infographic.html" "v/out.svg" 0 in
  let r2 := Api.headless_svg_extract_async ps "v/infographic.html" "v/out.svg" "variant_1" 0 in
  res r1 = Returns true /\
  (exists size, res r2 = Returns (true, "Success: " ++ PyStr.of_Z size ++ " bytes")) /\
  written_files (events r1) = [("v/out.svg", xml_declaration ++ inner_namespace_markup)] /\
  written_files (events r2) = [("v/out.svg", xml_declaration ++ inner_namespace_markup)] /\
  PyStr.contains xmlns_attr (root_tag inner_namespace_markup) = false /\
  PyStr.contains xmlns_attr (root_tag (xml_declaration ++ inner_namespace_markup)) = false /\
  PyStr.contains xmlns_attr inner_namespace_markup = true.
Proof.
  cbv zeta. split; [reflexivity|]. split; [eexists; reflexivity|].
  repeat split; reflexivity.
Qed.

Example namespace_added_once :
  PyStr.count xmlns_attr (add_declaration_and_namespace sample_markup) = 1%nat.
Proof. reflexivity. Qed.

Example b64encode_examples :
  PyStr.b64encode "Man" = "TWFu" /\ PyStr.b64encode "Ma" = "TWE=" /\
  PyStr.b64encode "M" = "TQ==" /\ PyStr.b64encode "<svg></svg>" = "PHN2Zz48L3N2Zz4=".
Proof. repeat split; reflexivity. Qed.

(** ** Laws of the monad *)

Lemma some_eq {A} (x y : A) : Some x = Some y -> x = y.
Proof. congruence. Qed.

Lemma returns_eq {A} (x y : A) : Returns x = Returns y -> x = y.
Proof. congruence. Qed.

Lemma res_bind {A B} (c : M A) (f : A -> M B) (t : Z) :
  res (bind c f t) =
  match res (c t) with
  | Returns a => res (f a (now (c t)))
  | Raises e => Raises e
  end.
Proof. unfold bind. destruct (c t) as [[a|e] t1 l1]; cbn; [destruct (f a t1)|]; reflexivity. Qed.

Lemma log_bind {A B} (c : M A) (f : A -> M B) (t : Z) :
  log (bind c f t) =
  match res (c t) with
  | Returns a => (log (c t) ++ log (f a (now (c t))))%list
  | Raises e => log (c t)
  end.
Proof. unfold bind. destruct (c t) as [[a|e] t1 l1]; cbn; [destruct (f a t1)|]; reflexivity. Qed.

Lemma now_bind {A B} (c : M A) (f : A -> M B) (t : Z) :
  now (bind c f t) =
  match res (c t) with
  | Returns a => now (f a (now (c t)))
  | Raises e => now (c t)
  end.
Proof. unfold bind. destruct (c t) as [[a|e] t1 l1]; cbn; [destruct (f a t1)|]; reflexivity. Qed.

(** ** One generation task *)

Lemma generation_never_raises gs topic v dir t :
  exists x, res (Api.generate_single_variant_api gs topic v dir t) = Returns x.
Proof.
  destruct gs. unfold Api.generate_single_variant_api; unfold_m.
  cbn -[String.append Z.add code_task elements_task].
  split_run; eexists; reflexivity.
Qed.

Lemma generation_res_timeless gs topic v dir t t' :
  res (Api.generate_single_variant_api gs topic v dir t)
  = res (Api.generate_single_variant_api gs topic v dir t').
Proof.
  destruct gs. unfold Api.generate_single_variant_api; unfold_m.
  cbn -[String.append Z.add code_task elements_task].
  split_run; reflexivity.
Qed.

Lemma generation_runs_no_subprocess gs topic v dir t :
  existsb is_SubprocessRun (events (Api.generate_single_variant_api gs topic v dir t)) = false.
Proof.
  destruct gs. unfold events, Api.generate_single_variant_api; unfold_m.
  cbn -[String.append Z.add code_task elements_task].
  split_run; reflexivity.
Qed.

Lemma generation_document gs topic v dir t doc :
  res (Api.generate_single_variant_api gs topic v dir t) = Returns (Some doc) ->
  doc = doc_of_slot dir v.
Proof.
  destruct gs; cbn. unfold doc_of_slot, Api.generate_single_variant_api; unfold_m.
  cbn -[String.append Z.add code_task elements_task].
  split_run; cbn -[String.append Z.add code_task elements_task];
    intros H; try discriminate H; apply returns_eq, some_eq in H; subst doc; reflexivity.
Qed.

(** C10.  In the API path, when the element-listing call returns
    nothing ([None] or an empty string), the task goes on: the
    code-generation call is made with the elements "basic elements",
    the task never raises, and it yields a document exactly when that
    call returns non-empty code and the HTML file is written. *)
Theorem placeholder_elements (gs : GenScript) (topic : string) (v : Z) (dir : string)
    (t : Z) (e : option string) :
  import_gemini gs = Returns tt ->
  mkdir_variant gs = Returns tt ->
  elements_answer gs = Returns e ->
  PyStr.truthy_opt e = false ->
  let r := Api.generate_single_variant_api gs topic v dir t in
  In (GetCode topic "basic elements" v (code_task v)) (events r) /\
  (res r = Returns None \/ exists doc, res r = Returns (Some doc)) /\
  ((exists doc, res r = Returns (Some doc)) <->
   (exists code, code_answer gs "basic elements" = Returns (Some code) /\
                 code <> EmptyString /\ returned (write_html gs) = true)).
Proof.
  destruct gs; cbn. intros -> -> -> He.
  unfold events, Api.generate_single_variant_api; unfold_m.
  cbn -[String.append Z.add code_task elements_task].
  rewrite He. cbn -[String.append Z.add code_task elements_task].
  split_run; cbn -[String.append Z.add code_task elements_task].
  all: split; [solve [repeat (first [left; reflexivity | right])]|].
  all: split; [solve [left; reflexivity | right; eexists; reflexivity]|].
  all: split; [intros [doc Hd]; try discriminate Hd|intros (code & Hc & Hne & Hw)].
  all: try discriminate; try congruence.
  all: try solve [eexists; split; [reflexivity|split; [discriminate|reflexivity]]].
  all: try solve [eexists; reflexivity].
Qed.

Ltac unfold_api :=
  unfold Api.extract_svgs_body, Api.extract_svg_subprocess, Api.subprocess_run, sleep; unfold_m.

Ltac cbn_run :=
  cbn -[String.append Z.add Z.mul Z.ltb Z.eqb PyStr.split PyStr.strip PyStr.contains find
        nth_error PyStr.of_Z PyStr.b64encode].

Lemma subprocess_run_once inst xs h o n t :
  launches (log (Api.extract_svg_subprocess inst xs h o n t))
  = [(t, SubprocessRun [Api.executable inst; Api.src_dir inst ++ "/svg_extractor.py"; h; o; n] 120)]
  /\ now (Api.extract_svg_subprocess inst xs h o n t) = t + Api.run_elapsed xs
  /\ exists v, res (Api.extract_svg_subprocess inst xs h o n t) = Returns v.
Proof.
  destruct xs. unfold_api. cbn_run.
  split_run; cbn_run; repeat split; try reflexivity; eexists; reflexivity.
Qed.


Lemma body_starts inst xs i d t :
  extraction_starts (log (Api.extract_svgs_body inst xs i d t)) = [t + stagger_delay i].
Proof.
  unfold stagger_delay. destruct (xs (Api.variant_id d)) eqn:Hx.
  unfold_api. rewrite Hx. cbn_run.
  split_run; cbn_run; try reflexivity; f_equal; lia.
Qed.

Lemma body_now inst xs i d t :
  0 <= Api.run_elapsed (xs (Api.variant_id d)) ->
  t + stagger_delay i <= now (Api.extract_svgs_body inst xs i d t).
Proof.
  unfold stagger_delay. destruct (xs (Api.variant_id d)) eqn:Hx.
  unfold_api. rewrite Hx. cbn_run. intros H.
  split_run; cbn_run; lia.
Qed.

Lemma body_res inst xs i d t e :
  res (Api.extract_svgs_body inst xs i d t) = Returns e ->
  Api.sr_variant_id e = Api.variant_id d /\
  Api.sr_success e = fst (extraction_verdict inst xs d) /\
  Api.sr_message e = snd (extraction_verdict inst xs d).
Proof.
  unfold extraction_verdict. destruct (xs (Api.variant_id d)) eqn:Hx.
  unfold_api. rewrite Hx. cbn_run.
  split_run; cbn_run; intros H; try discriminate H; injection H as <-; cbn; auto.
Qed.

Lemma body_returns inst xs i d t :
  readable xs d ->
  exists e, res (Api.extract_svgs_body inst xs i d t) = Returns e.
Proof.
  unfold readable. destruct (xs (Api.variant_id d)) eqn:Hx.
  unfold_api. cbn. rewrite Hx. cbn_run. intros [H1 H2].
  destruct_returned.
  split_run; cbn_run; eexists; reflexivity.
Qed.

Lemma body_failure_returns inst xs i d t :
  fst (extraction_verdict inst xs d) = false ->
  exists e, res (Api.extract_svgs_body inst xs i d t) = Returns e.
Proof.
  unfold extraction_verdict. destruct (xs (Api.variant_id d)) eqn:Hx.
  unfold_api. rewrite Hx. cbn_run.
  split_run; cbn_run; intros H; try discriminate H; eexists; reflexivity.
Qed.

Lemma res_try {A} (c : M A) (h : exn -> M A) (t : Z) :
  res (try_ c h t) =
  match res (c t) with
  | Returns a => Returns a
  | Raises e => res (h e (now (c t)))
  end.
Proof. unfold try_. destruct (c t) as [[a|e] t1 l1]; cbn; [|destruct (h e t1)]; reflexivity. Qed.

Lemma log_try {A} (c : M A) (h : exn -> M A) (t : Z) :
  log (try_ c h t) =
  match res (c t) with
  | Returns a => log (c t)
  | Raises e => (log (c t) ++ log (h e (now (c t))))%list
  end.
Proof. unfold try_. destruct (c t) as [[a|e] t1 l1]; cbn; [|destruct (h e t1)]; reflexivity. Qed.

(** ** The sequential extraction loop *)

Lemma extraction_starts_app (l1 l2 : list (Z * event)) :
  extraction_starts (l1 ++ l2) = (extraction_starts l1 ++ extraction_starts l2)%list.
Proof.
  induction l1 as [|[t e] l1 IH]; [reflexivity|].
  destruct e; cbn; rewrite IH; reflexivity.
Qed.

Lemma spaced_cons (d s : Z) (l : list Z) :
  Forall (fun s' => s + d <= s') l -> spaced d l -> spaced d (s :: l).
Proof.
  intros HF HS. destruct l as [|s' l]; [exact I|].
  split; [exact (Forall_inv HF)|exact HS].
Qed.

Lemma stagger_delay_nonneg (i : Z) : 0 <= i -> stagger_delay i = 3000 * i.
Proof. intros H. unfold stagger_delay. destruct (Z.ltb_spec 0 (i * 3)); lia. Qed.

Lemma loop_starts inst xs results :
  (forall v, 0 <= Api.run_elapsed (xs v)) ->
  forall i acc t, 0 <= i ->
  let st := extraction_starts (log (Api.extract_svgs_loop inst xs i results acc t)) in
  spaced 3000 st /\ Forall (fun s => t + 3000 * i <= s) st.
Proof.
  intros Hel. induction results as [|[d|] rest IH]; intros i acc t Hi; cbn zeta.
  - split; [exact I|constructor].
  - cbn [Api.extract_svgs_loop]. rewrite log_bind.
    pose proof (body_starts inst xs i d t) as Hs.
    pose proof (body_now inst xs i d t (Hel _)) as Hn.
    rewrite stagger_delay_nonneg in Hs, Hn by exact Hi.
    destruct (res (Api.extract_svgs_body inst xs i d t)) as [e|e].
    + rewrite extraction_starts_app, Hs.
      destruct (IH (i + 1) (acc ++ [e])%list
                  (now (Api.extract_svgs_body inst xs i d t))) as [IH1 IH2]; [lia|].
      split.
      * apply spaced_cons; [|exact IH1].
        eapply Forall_impl; [|exact IH2]. cbn beta. intros s' Hs'. lia.
      * constructor; [lia|].
        eapply Forall_impl; [|exact IH2]. cbn beta. intros s' Hs'. lia.
    + rewrite Hs. split; [exact I|]. constructor; [lia|constructor].
  - cbn [Api.extract_svgs_loop].
    destruct (IH (i + 1) acc t) as [IH1 IH2]; [lia|].
    split; [exact IH1|].
    eapply Forall_impl; [|exact IH2]. cbn beta. intros s' Hs'. lia.
Qed.

Lemma loop_res inst xs docs :
  forall i acc t l,
  res (Api.extract_svgs_loop inst xs i (map Some docs) acc t) = Returns l ->
  exists entries, l = (acc ++ entries)%list /\ Forall2 (entry_of inst xs) docs entries.
Proof.
  induction docs as [|d docs IH]; intros i acc t l H.
  - cbn in H. injection H as <-. exists []. rewrite app_nil_r. split; [reflexivity|constructor].
  - cbn [map Api.extract_svgs_loop] in H. rewrite res_bind in H.
    destruct (res (Api.extract_svgs_body inst xs i d t)) as [e|e] eqn:He; [|discriminate H].
    destruct (IH _ _ _ _ H) as (entries & -> & HF).
    exists (e :: entries). rewrite <- app_assoc. split; [reflexivity|].
    constructor; [exact (body_res _ _ _ _ _ _ He)|exact HF].
Qed.

Lemma loop_returns inst xs docs :
  (forall d, In d docs -> fst (extraction_verdict inst xs d) = true -> readable xs d) ->
  forall i acc t, exists l, res (Api.extract_svgs_loop inst xs i (map Some docs) acc t) = Returns l.
Proof.
  induction docs as [|d docs IH]; intros Hr i acc t.
  - eexists; reflexivity.
  - cbn [map Api.extract_svgs_loop]. rewrite res_bind.
    assert (exists e, res (Api.extract_svgs_body inst xs i d t) = Returns e) as [e ->].
    { destruct (fst (extraction_verdict inst xs d)) eqn:Hv.
      - apply body_returns, Hr; [now left|exact Hv].
      - apply body_failure_returns. exact Hv. }
    apply IH. intros d' Hd'. apply Hr. now right.
Qed.

Lemma body_subprocess_runs inst xs i d t :
  subprocess_runs (Api.extract_svgs_body inst xs i d t) = [expected_run inst d].
Proof.
  unfold subprocess_runs, events, expected_run.
  destruct (xs (Api.variant_id d)) eqn:Hx.
  unfold_api. rewrite Hx. cbn_run.
  split_run; cbn_run; reflexivity.
Qed.


(** ** The generation stage *)

Lemma collect_body_res bs ts topic dir v acc t :
  res (Api.collect_html_body bs ts topic dir v acc t)
  = Returns (acc ++ docs_of (generated bs topic dir v))%list.
Proof.
  unfold Api.collect_html_body, generated.
  rewrite res_try, res_bind.
  rewrite (generation_res_timeless _ _ _ _ 0 ts).
  destruct (generation_never_raises (Api.gen bs v) topic v dir ts) as [x Hx].
  unfold in_thread.
  destruct (Api.generate_single_variant_api (Api.gen bs v) topic v dir ts) as [r t1 l1].
  cbn in Hx. subst r. cbn.
  destruct x; cbn; [reflexivity|rewrite app_nil_r; reflexivity].
Qed.

Lemma collect_body_no_subprocess bs ts topic dir v acc t :
  existsb is_SubprocessRun (events (Api.collect_html_body bs ts topic dir v acc t)) = false.
Proof.
  unfold events, Api.collect_html_body.
  rewrite log_try, res_bind, log_bind.
  pose proof (generation_runs_no_subprocess (Api.gen bs v) topic v dir ts) as Hn.
  destruct (generation_never_raises (Api.gen bs v) topic v dir ts) as [x Hx].
  unfold events, in_thread in *.
  destruct (Api.generate_single_variant_api (Api.gen bs v) topic v dir ts) as [r t1 l1].
  cbn in Hx, Hn. subst r. cbn.
  destruct x; cbn; rewrite app_nil_r; exact Hn.
Qed.

Lemma collect_res bs ts topic dir order :
  forall acc t,
  res (Api.collect_html bs ts topic dir order acc t)
  = Returns (acc ++ html_docs bs topic dir order)%list.
Proof.
  induction order as [|v order IH]; intros acc t.
  - cbn. rewrite app_nil_r. reflexivity.
  - cbn [Api.collect_html]. rewrite res_bind, collect_body_res, IH.
    unfold html_docs. cbn [flat_map]. rewrite app_assoc. reflexivity.
Qed.

Lemma collect_no_subprocess bs ts topic dir order :
  forall acc t,
  existsb is_SubprocessRun (events (Api.collect_html bs ts topic dir order acc t)) = false.
Proof.
  induction order as [|v order IH]; intros acc t; [reflexivity|].
  unfold events in *. cbn [Api.collect_html]. rewrite log_bind, collect_body_res.
  rewrite map_app, existsb_app, IH.
  pose proof (collect_body_no_subprocess bs ts topic dir v acc t) as Hb.
  unfold events in Hb. rewrite Hb. reflexivity.
Qed.

Lemma html_docs_length bs topic dir order :
  (List.length (html_docs bs topic dir order) <= List.length order)%nat.
Proof.
  induction order as [|v order IH]; [apply le_n|].
  unfold html_docs in *. cbn [flat_map]. rewrite length_app.
  destruct (generated bs topic dir v); cbn; lia.
Qed.

Lemma launches_app (l1 l2 : list (Z * event)) :
  launches (l1 ++ l2) = (launches l1 ++ launches l2)%list.
Proof. apply filter_app. Qed.

Lemma launches_none (l : list (Z * event)) :
  existsb is_SubprocessRun (map snd l) = false -> launches l = [].
Proof.
  induction l as [|p l IH]; [reflexivity|]. cbn. intros H.
  apply orb_false_iff in H. destruct H as [-> H]. exact (IH H).
Qed.

Lemma body_launch inst xs i d t :
  launches (log (Api.extract_svgs_body inst xs i d t))
  = [(t + stagger_delay i, expected_run inst d)].
Proof.
  unfold launches, stagger_delay, expected_run. destruct (xs (Api.variant_id d)) eqn:Hx.
  unfold_api. rewrite Hx. cbn_run.
  split_run; cbn_run; try reflexivity; repeat f_equal; lia.
Qed.

Lemma body_end inst xs i d t e :
  res (Api.extract_svgs_body inst xs i d t) = Returns e ->
  now (Api.extract_svgs_body inst xs i d t)
  = t + stagger_delay i + Api.run_elapsed (xs (Api.variant_id d)).
Proof.
  unfold stagger_delay. destruct (xs (Api.variant_id d)) eqn:Hx.
  unfold_api. rewrite Hx. cbn_run.
  split_run; cbn_run; intros H; try discriminate H; lia.
Qed.

(** The launches of the loop are those of the staggered sequence, as
    far as the loop gets, and all of them when it returns. *)
Lemma loop_launches inst xs docs :
  forall i acc t, 0 <= i ->
  (exists n, launches (log (Api.extract_svgs_loop inst xs i (map Some docs) acc t))
             = firstn n (staggered_launches inst xs i t docs)) /\
  (forall l, res (Api.extract_svgs_loop inst xs i (map Some docs) acc t) = Returns l ->
     launches (log (Api.extract_svgs_loop inst xs i (map Some docs) acc t))
     = staggered_launches inst xs i t docs).
Proof.
  induction docs as [|d docs IH]; intros i acc t Hi.
  - split; [exists 0%nat|intros l _]; reflexivity.
  - cbn [map Api.extract_svgs_loop staggered_launches]. rewrite log_bind, res_bind.
    pose proof (body_launch inst xs i d t) as Hb.
    pose proof (body_end inst xs i d t) as He.
    rewrite stagger_delay_nonneg in Hb, He by exact Hi.
    replace (t + 3000 * i) with (t + 1000 * (3 * i)) in Hb, He by lia.
    destruct (res (Api.extract_svgs_body inst xs i d t)) as [e|e].
    + rewrite launches_app, Hb, <- (He e eq_refl).
      destruct (IH (i + 1) (acc ++ [e])%list (now (Api.extract_svgs_body inst xs i d t)))
        as [[n Hn] Hall]; [lia|].
      split.
      * exists (S n). cbn [app firstn]. rewrite Hn. reflexivity.
      * intros l Hl. cbn [app]. rewrite (Hall l Hl). reflexivity.
    + rewrite Hb. split; [exists 1%nat; reflexivity|intros l Hl; discriminate Hl].
Qed.



(** *** The order of completion *)

Lemma filter_permutation {A} (p : A -> bool) (l l' : list A) :
  Permutation l l' -> Permutation (filter p l) (filter p l').
Proof.
  induction 1 as [|x l l' HP IH|x y l|l l' l'' H1 IH1 H2 IH2]; cbn.
  - constructor.
  - destruct (p x); [constructor|]; exact IH.
  - destruct (p x), (p y); try apply Permutation_refl. apply perm_swap.
  - exact (Permutation_trans IH1 IH2).
Qed.

Lemma filter_other_absent (v : Z) (l : list Z) :
  ~ In v l -> filter (fun x => negb (x =? v)) l = l.
Proof.
  induction l as [|x l IH]; [reflexivity|]. cbn [filter In]. intros H.
  destruct (Z.eqb_spec x v) as [->|Hx]; cbn [negb]; [exfalso; apply H; now left|].
  rewrite IH; [reflexivity|]. intros Hin. apply H. now right.
Qed.

Lemma remove_present_permutation (v : Z) (l : list Z) :
  NoDup l -> In v l -> Permutation (v :: filter (fun x => negb (x =? v)) l) l.
Proof.
  induction 1 as [|x l Hx Hl IH]; [contradiction|]. intros [->|Hin]; cbn [filter].
  - rewrite Z.eqb_refl. cbn [negb]. rewrite (filter_other_absent v l Hx). apply Permutation_refl.
  - destruct (Z.eqb_spec x v) as [->|Hne]; [contradiction|]. cbn [negb].
    eapply Permutation_trans; [apply perm_swap|]. constructor. exact (IH Hin).
Qed.

Lemma existsb_eqb_in (v : Z) (l : list Z) : existsb (Z.eqb v) l = true <-> In v l.
Proof.
  rewrite existsb_exists. split.
  - intros (x & Hx & He). apply Z.eqb_eq in He. subst x. exact Hx.
  - intros H. exists v. split; [exact H|apply Z.eqb_refl].
Qed.

(** [as_completed] yields every pending future once. *)
Lemma as_completed_permutation (order pending : list Z) :
  NoDup pending -> Permutation (as_completed pending order) pending.
Proof.
  revert pending. induction order as [|v rest IH]; intros pending Hnd; [apply Permutation_refl|].
  cbn [as_completed]. destruct (existsb (Z.eqb v) pending) eqn:Hv.
  - apply existsb_eqb_in in Hv.
    eapply Permutation_trans; [|exact (remove_present_permutation v pending Hnd Hv)].
    constructor. apply IH, NoDup_filter, Hnd.
  - exact (IH pending Hnd).
Qed.

(** When the script gives the pending futures in some order, that is
    the order in which they are yielded. *)
Lemma as_completed_of_permutation (order pending : list Z) :
  NoDup order -> Permutation order pending -> as_completed pending order = order.
Proof.
  revert pending. induction order as [|v rest IH]; intros pending Hnd HP.
  - apply Permutation_nil in HP. subst pending. reflexivity.
  - cbn [as_completed].
    assert (In v pending) as Hin by (apply (Permutation_in _ HP); now left).
    apply existsb_eqb_in in Hin. rewrite Hin. f_equal.
    apply IH; [exact (proj2 (proj1 (NoDup_cons_iff v rest) Hnd))|].
    pose proof (filter_permutation (fun x => negb (x =? v)) _ _ HP) as HF.
    cbn [filter] in HF. rewrite Z.eqb_refl in HF. cbn [negb] in HF.
    rewrite filter_other_absent in HF; [exact HF|].
    apply NoDup_cons_iff in Hnd. exact (proj1 Hnd).
Qed.

Lemma completed_slots_permutation (bs : Api.BatchScript) :
  Permutation (completed_slots bs) [0; 1; 2].
Proof.
  apply (as_completed_permutation (Api.completion_order bs) (range 3)).
  repeat constructor; cbn; intuition discriminate.
Qed.

Lemma completed_slots_nodup (bs : Api.BatchScript) : NoDup (completed_slots bs).
Proof.
  apply (Permutation_NoDup (Permutation_sym (completed_slots_permutation bs))).
  repeat constructor; cbn; intuition discriminate.
Qed.

Lemma generated_slot_doc bs topic dir v d :
  generated bs topic dir v = Some d -> d = doc_of_slot dir v.
Proof.
  unfold generated.
  destruct (res (Api.generate_single_variant_api (Api.gen bs v) topic v dir 0)) as [x|e] eqn:H;
    [|discriminate].
  intros ->. exact (generation_document _ _ _ _ _ _ H).
Qed.

Lemma html_docs_slots bs topic dir order :
  html_docs bs topic dir order
  = map (doc_of_slot dir)
      (filter (fun v => match generated bs topic dir v with Some _ => true | None => false end)
         order).
Proof.
  unfold html_docs. induction order as [|v order IH]; [reflexivity|].
  cbn [flat_map filter]. rewrite IH.
  destruct (generated bs topic dir v) as [d|] eqn:Hg; [|reflexivity].
  rewrite (generated_slot_doc _ _ _ _ _ Hg). reflexivity.
Qed.

Lemma batch_docs_slots bs req :
  batch_docs bs req = map (doc_of_slot (batch_dir bs req)) (generated_slots bs req).
Proof. apply html_docs_slots. Qed.

Lemma collect_now bs ts topic dir order :
  forall acc t, t <= now (Api.collect_html bs ts topic dir order acc t).
Proof.
  induction order as [|v order IH]; intros acc t; [cbn; lia|].
  cbn [Api.collect_html]. rewrite now_bind, collect_body_res.
  specialize (IH (acc ++ docs_of (generated bs topic dir v))%list
                (now (Api.collect_html_body bs ts topic dir v acc t))).
  assert (t <= now (Api.collect_html_body bs ts topic dir v acc t)); [|lia].
  unfold Api.collect_html_body, try_, bind, in_thread, ret.
  destruct (Api.generate_single_variant_api (Api.gen bs v) topic v dir ts) as [[[x|]|e] t1 l1];
    cbn; lia.
Qed.

(** ** The endpoint *)

Lemma log_try_nil {A} (c : M A) (h : exn -> M A) (t : Z) :
  (forall e t', log (h e t') = []) -> log (try_ c h t) = log (c t).
Proof.
  intros Hh. rewrite log_try. destruct (res (c t)); [reflexivity|].
  rewrite Hh, app_nil_r. reflexivity.
Qed.

Ltac unfold_batch :=
  unfold Api.generate_infographics, Api.extract_svgs_sequential,
    bind, try_, time, call, call_timed, raise, ret.

(** The generation stage of a batch, as a run. *)
Ltac destruct_collect bs req t :=
  let Hr := fresh "Hres" in
  let Hn := fresh "Hnosub" in
  pose proof (collect_res bs (t + 0) (PyStr.strip (Api.prompt req))
    ("generated/" ++ Api.batch_name bs (PyStr.strip (Api.prompt req)))
    (as_completed (range 3) (Api.completion_order bs)) [] (t + 0)) as Hr;
  pose proof (collect_no_subprocess bs (t + 0) (PyStr.strip (Api.prompt req))
    ("generated/" ++ Api.batch_name bs (PyStr.strip (Api.prompt req)))
    (as_completed (range 3) (Api.completion_order bs)) [] (t + 0)) as Hn;
  unfold events in Hn;
  destruct (Api.collect_html bs (t + 0) (PyStr.strip (Api.prompt req))
    ("generated/" ++ Api.batch_name bs (PyStr.strip (Api.prompt req)))
    (as_completed (range 3) (Api.completion_order bs)) [] (t + 0)) as [r1 t1 l1];
  cbn [res log app] in Hr, Hn; subst r1.

Lemma no_generated_documents bs req t u :
  PyStr.truthy (batch_topic req) = true ->
  Api.mkdir_batch bs = Returns u ->
  batch_docs bs req = [] ->
  res (Api.generate_infographics bs req t)
  = Raises (HTTPException 500 "Failed to generate any HTML variants") /\
  existsb is_SubprocessRun (events (Api.generate_infographics bs req t)) = false.
Proof.
  unfold batch_docs, completed_slots, batch_dir, batch_topic, events. intros Ht Hm Hd.
  unfold_batch. rewrite Ht, Hm. cbn [negb].
  destruct_collect bs req t. rewrite Hd. cbn.
  split; [reflexivity|]. rewrite !app_nil_r. exact Hnosub.
Qed.

Lemma Forall2_map_r {A B C} (R : A -> C -> Prop) (f : B -> C) (l : list A) (l' : list B) :
  Forall2 (fun a b => R a (f b)) l l' -> Forall2 R l (map f l').
Proof. induction 1; constructor; auto. Qed.

Lemma filter_nonempty_exists {A} (p : A -> bool) (l : list A) :
  filter p l <> [] -> exists x, In x l /\ p x = true.
Proof.
  induction l as [|a l IH]; cbn; [congruence|].
  destruct (p a) eqn:Hp; [exists a; auto|].
  intros H. destruct (IH H) as (x & Hx & Hpx). exists x. auto.
Qed.

Lemma filter_all_false {A} (p : A -> bool) (l : list A) :
  (forall x, In x l -> p x = false) -> filter p l = [].
Proof.
  induction l as [|a l IH]; intros H; [reflexivity|].
  cbn. rewrite (H a (or_introl eq_refl)). apply IH. intros x Hx. apply H. now right.
Qed.

Lemma existsb_false_filter {A} (p : A -> bool) (l : list A) :
  existsb p l = false -> filter p l = [].
Proof.
  induction l as [|a l IH]; [reflexivity|]. cbn. intros H.
  apply orb_false_iff in H. destruct H as [-> H]. exact (IH H).
Qed.

Lemma Forall2_in_r {A B} (R : A -> B -> Prop) (l : list A) (l' : list B) (b : B) :
  Forall2 R l l' -> In b l' -> exists a, In a l /\ R a b.
Proof.
  induction 1 as [|a' b' l l' HR HF IH]; intros Hin; [contradiction|].
  destruct Hin as [<-|Hin]; [exists a'; split; [now left|exact HR]|].
  destruct (IH Hin) as (a & Ha & HRa). exists a. split; [now right|exact HRa].
Qed.

Lemma Forall2_in_l {A B} (R : A -> B -> Prop) (l : list A) (l' : list B) (a : A) :
  Forall2 R l l' -> In a l -> exists b, In b l' /\ R a b.
Proof.
  induction 1 as [|a' b' l l' HR HF IH]; intros Hin; [contradiction|].
  destruct Hin as [<-|Hin]; [exists b'; split; [now left|exact HR]|].
  destruct (IH Hin) as (b & Hb & HRb). exists b. split; [now right|exact HRb].
Qed.

(** The extraction stage of a batch, as a run. *)
Ltac destruct_loop Hl :=
  match goal with
  | |- context [Api.extract_svgs_loop ?inst ?xs ?i ?results ?acc ?t] =>
      destruct (Api.extract_svgs_loop inst xs i results acc t) as [r2 t2 l2] eqn:Hl
  end.

Lemma returned_batch bs req t resp :
  res (Api.generate_infographics bs req t) = Returns resp ->
  Api.success resp = true /\
  Forall2 (variant_of bs) (batch_docs bs req) (Api.variants resp) /\
  (exists rv, In rv (Api.variants resp) /\ Api.rv_success rv = true) /\
  Api.output_directory resp = batch_dir bs req.
Proof.
  unfold batch_docs, completed_slots, batch_dir, batch_topic.
  unfold_batch.
  destruct (PyStr.truthy (PyStr.strip (Api.prompt req))); cbn [negb]; [|discriminate].
  destruct (Api.mkdir_batch bs) as [u|e]; [|destruct e; discriminate].
  destruct_collect bs req t.
  destruct (html_docs _ _ _ _) as [|d ds] eqn:Hd; [discriminate|].
  cbn [app Api.is_empty].
  destruct_loop Hl.
  apply (f_equal res) in Hl. cbn [res] in Hl.
  destruct r2 as [l|e]; [|destruct e; discriminate].
  change (Some d :: map Some ds) with (map Some (d :: ds)) in Hl.
  destruct (loop_res _ _ _ _ _ _ _ Hl) as (entries & -> & HF). cbn [app].
  destruct (filter Api.sr_success entries) as [|e0 es] eqn:Hf; [discriminate|].
  cbn. intros H. injection H as <-. cbn.
  split; [reflexivity|]. split; [|split; [|reflexivity]].
  - apply Forall2_map_r. eapply Forall2_impl; [|exact HF].
    intros a b (H1 & H2 & H3). repeat split; assumption.
  - destruct (filter_nonempty_exists Api.sr_success entries) as (x & Hx & Hs); [congruence|].
    exists (Api.to_response_variant x). split; [apply in_map; exact Hx|exact Hs].
Qed.

Lemma failed_batch bs req t u :
  PyStr.truthy (batch_topic req) = true ->
  Api.mkdir_batch bs = Returns u ->
  batch_docs bs req <> [] ->
  (forall d, In d (batch_docs bs req) ->
     fst (extraction_verdict (Api.install bs) (Api.extraction bs) d) = false) ->
  res (Api.generate_infographics bs req t)
  = Raises (HTTPException 500 "Failed to extract any SVGs").
Proof.
  unfold batch_docs, completed_slots, batch_dir, batch_topic. intros Ht Hm Hne Hall.
  unfold_batch. rewrite Ht, Hm. cbn [negb].
  destruct_collect bs req t.
  destruct (html_docs _ _ _ _) as [|d ds] eqn:Hd; [congruence|].
  cbn [app Api.is_empty].
  destruct (loop_returns (Api.install bs) (Api.extraction bs) (d :: ds)) with
    (i := 0) (acc := @nil Api.SvgResult) (t := t1) as [l Hl].
  { intros d' Hd' Hv. rewrite (Hall d' Hd') in Hv. discriminate. }
  destruct (loop_res _ _ _ _ _ _ _ Hl) as (entries & -> & HF). cbn [app] in Hl.
  cbn [map] in Hl.
  destruct (Api.extract_svgs_loop _ _ _ _ _ _) as [r2 t2 l2]. cbn [res] in Hl. subst r2.
  rewrite filter_all_false; [reflexivity|].
  intros x Hx. destruct (Forall2_in_r _ _ _ _ HF Hx) as (a & Ha & _ & Hs & _).
  rewrite Hs. apply Hall. exact Ha.
Qed.

Lemma successful_batch bs req t u d :
  PyStr.truthy (batch_topic req) = true ->
  Api.mkdir_batch bs = Returns u ->
  In d (batch_docs bs req) ->
  fst (extraction_verdict (Api.install bs) (Api.extraction bs) d) = true ->
  (forall d', In d' (batch_docs bs req) ->
     fst (extraction_verdict (Api.install bs) (Api.extraction bs) d') = true ->
     readable (Api.extraction bs) d') ->
  exists resp, res (Api.generate_infographics bs req t) = Returns resp.
Proof.
  unfold batch_docs, completed_slots, batch_dir, batch_topic. intros Ht Hm Hin Hv Hr.
  unfold_batch. rewrite Ht, Hm. cbn [negb].
  destruct_collect bs req t.
  destruct (html_docs _ _ _ _) as [|d0 ds] eqn:Hd; [contradiction|].
  cbn [app Api.is_empty].
  destruct (loop_returns (Api.install bs) (Api.extraction bs) (d0 :: ds) Hr 0 [] t1) as [l Hl].
  destruct (loop_res _ _ _ _ _ _ _ Hl) as (entries & -> & HF). cbn [app] in Hl.
  cbn [map] in Hl.
  destruct (Api.extract_svgs_loop _ _ _ _ _ _) as [r2 t2 l2]. cbn [res] in Hl. subst r2.
  destruct (Forall2_in_l _ _ _ _ HF Hin) as (e & He & _ & Hs & _).
  destruct (filter Api.sr_success entries) as [|e0 es] eqn:Hf.
  - exfalso. assert (In e (filter Api.sr_success entries)) as Hc.
    { apply filter_In. split; [exact He|]. rewrite Hs. exact Hv. }
    rewrite Hf in Hc. exact Hc.
  - cbn. eexists. reflexivity.
Qed.

(** The launches of a batch that returns a response: the staggered
    sequence over its documents, from the end of the generation
    stage. *)
Lemma batch_launches bs req t resp :
  res (Api.generate_infographics bs req t) = Returns resp ->
  exists t1, t <= t1 /\
    launches (log (Api.generate_infographics bs req t))
    = staggered_launches (Api.install bs) (Api.extraction bs) 0 t1 (batch_docs bs req).
Proof.
  unfold batch_docs, completed_slots, batch_dir, batch_topic.
  unfold_batch.
  destruct (PyStr.truthy (PyStr.strip (Api.prompt req))); cbn [negb]; [|discriminate].
  destruct (Api.mkdir_batch bs) as [u|e]; [|destruct e; discriminate].
  pose proof (collect_now bs (t + 0) (PyStr.strip (Api.prompt req))
    ("generated/" ++ Api.batch_name bs (PyStr.strip (Api.prompt req)))
    (as_completed (range 3) (Api.completion_order bs)) [] (t + 0)) as Hnow.
  destruct_collect bs req t. cbn [now] in Hnow.
  destruct (html_docs _ _ _ _) as [|d ds] eqn:Hd; [discriminate|].
  cbn [app Api.is_empty].
  destruct (loop_launches (Api.install bs) (Api.extraction bs) (d :: ds) 0 [] t1)
    as [_ Hloop]; [lia|].
  destruct_loop Hl. cbn [res log] in Hloop.
  destruct r2 as [l|e]; [|destruct e; discriminate].
  specialize (Hloop l eq_refl).
  destruct (filter Api.sr_success l); [discriminate|].
  cbn -[String.append PyStr.of_nat Z.add Z.mul Z.sub staggered_launches launches].
  intros _. exists t1. split; [lia|].
  change (launches ((t, Mkdir ("generated/" ++ Api.batch_name bs (PyStr.strip (Api.prompt req))))
                    :: (l1 ++ l2 ++ [])%list))
    with (launches (l1 ++ l2 ++ [])%list).
  rewrite app_nil_r, launches_app, (launches_none l1 Hnosub). exact Hloop.
Qed.

(** ** Staggered starts, validation of the prompt, timeouts *)

Lemma cli_stagger gs ps topic v base t w s :
  0 <= v ->
  let r := MainHeadless.generate_single_variant_headless gs ps topic v base t in
  first_time is_WriteFile (log r) = Some w ->
  first_time is_PlaywrightStart (log r) = Some s ->
  s = w + 5000 * v.
Proof.
  intros Hv. cbv zeta. destruct gs, ps.
  unfold MainHeadless.generate_single_variant_headless, MainHeadless.headless_svg_extract_sync,
    MainHeadless.headless_svg_extract_async, sleep; unfold_m.
  cbn -[String.append Z.add Z.mul Z.ltb code_task elements_task add_declaration_and_namespace].
  split_run;
    cbn -[String.append Z.add Z.mul Z.ltb code_task elements_task add_declaration_and_namespace];
    intros Hw Hs; try discriminate; apply some_eq in Hw, Hs; lia.
Qed.

(** C7.  A prompt that is empty after stripping is rejected with the
    HTTP 400 error at once: nothing has been done, no directory is
    created and nothing is scheduled.  For any other prompt the
    validation is passed and the first thing done is the creation of
    the batch directory. *)
Theorem prompt_validation (bs : Api.BatchScript) (req : Api.InfographicRequest) (t : Z) :
  (PyStr.strip (Api.prompt req) = EmptyString ->
     Api.generate_infographics bs req t
     = Run (Raises (HTTPException 400 "Prompt cannot be empty")) t []) /\
  (PyStr.strip (Api.prompt req) <> EmptyString ->
     exists rest,
       log (Api.generate_infographics bs req t) = (t, Mkdir (batch_dir bs req)) :: rest).
Proof.
  unfold batch_dir, batch_topic. split.
  - intros H. unfold_batch. rewrite H. reflexivity.
  - intros H. unfold_batch.
    destruct (PyStr.strip (Api.prompt req)) as [|c s] eqn:Hs; [congruence|].
    cbn [PyStr.truthy negb].
    destruct (Api.mkdir_batch bs) as [u|e]; [|destruct e; eexists; reflexivity].
    destruct (Api.collect_html _ _ _ _ _ _ _) as [[hr|e] t1 l1];
      [|destruct e; eexists; reflexivity].
    destruct hr as [|d ds]; cbn [Api.is_empty]; [eexists; reflexivity|].
    destruct (Api.extract_svgs_loop _ _ _ _ _ _) as [[l|e] t2 l2];
      [|destruct e; eexists; reflexivity].
    destruct (filter Api.sr_success l); cbn [Api.is_empty]; eexists; reflexivity.
Qed.



(** C6, as amended.  In the API path the extractions run one after the
    other in the order of the list of generated documents, which is the
    order in which the generations completed: the one at index [i] of
    that list is launched [3 * i] seconds after the extraction before
    it has ended (after the start of the stage for the first), so the
    launches of the loop are those of [staggered_launches], all of them
    when the loop returns; for a batch that returns a response they are
    those of its documents from the end of the generation stage.  The
    start times are thus non-decreasing along the list and two
    consecutive ones differ by at least 3 seconds.  In the command-line
    path the task of slot [v] starts its extraction [5 * v] seconds
    after it has written its HTML file. *)
Theorem staggered_extraction_starts (inst : Api.Install) (xs : Z -> Api.ExtractScript)
    (docs : list Api.GeneratedDoc) (dir : string) (t : Z) :
  (forall v, 0 <= Api.run_elapsed (xs v)) ->
  let r := Api.extract_svgs_sequential inst xs (map Some docs) dir t in
  let starts := extraction_starts (log r) in
  (exists n, launches (log r) = firstn n (staggered_launches inst xs 0 t docs)) /\
  (forall entries, res r = Returns entries ->
     launches (log r) = staggered_launches inst xs 0 t docs) /\
  (forall bs req t' resp,
     res (Api.generate_infographics bs req t') = Returns resp ->
     exists t1, t' <= t1 /\
       launches (log (Api.generate_infographics bs req t'))
       = staggered_launches (Api.install bs) (Api.extraction bs) 0 t1 (batch_docs bs req)) /\
  spaced 3000 starts /\ Forall (fun s => t <= s) starts /\
  (forall i d t', 0 <= i ->
     extraction_starts (log (Api.extract_svgs_body inst xs i d t')) = [t' + 1000 * (3 * i)]) /\
  (forall gs ps topic v base t' w s, 0 <= v ->
     let r := MainHeadless.generate_single_variant_headless gs ps topic v base t' in
     first_time is_WriteFile (log r) = Some w ->
     first_time is_PlaywrightStart (log r) = Some s ->
     s = w + 1000 * (5 * v)).
Proof.
  intros Hel. cbv zeta. unfold Api.extract_svgs_sequential.
  destruct (loop_launches inst xs docs 0 [] t) as [Hn Hall]; [lia|].
  destruct (loop_starts inst xs (map Some docs) Hel 0 [] t) as [H1 H2]; [lia|].
  split; [exact Hn|]. split; [exact Hall|]. split; [exact batch_launches|].
  split; [exact H1|]. split.
  - eapply Forall_impl; [|exact H2]. cbn beta. intros; lia.
  - split.
    + intros i d t' Hi. rewrite body_starts, stagger_delay_nonneg by exact Hi. f_equal. lia.
    + intros gs ps topic v base t' w s Hv Hw Hs.
      rewrite (cli_stagger gs ps topic v base t' w s Hv Hw Hs). lia.
Qed.


(** ** The batch result *)

Lemma strip_nonempty_truthy (s : string) :
  PyStr.strip s <> EmptyString -> PyStr.truthy (PyStr.strip s) = true.
Proof. destruct (PyStr.strip s); [congruence|reflexivity]. Qed.

Lemma response_ids bs req t resp :
  res (Api.generate_infographics bs req t) = Returns resp ->
  map Api.rv_variant_id (Api.variants resp) = map (fun v => v + 1) (generated_slots bs req).
Proof.
  intros H. destruct (returned_batch bs req t resp H) as (_ & HF & _ & _).
  rewrite batch_docs_slots in HF. revert HF. generalize (Api.variants resp).
  induction (generated_slots bs req) as [|v l IH]; intros vs HF;
    inversion HF as [|a b l1 l2 [Hid _] HF']; subst; [reflexivity|].
  cbn [map]. rewrite Hid, (IH _ HF'). reflexivity.
Qed.

Lemma filter_map_length {A B} (f : A -> B) (p : B -> bool) (l : list A) :
  List.length (filter (fun a => p (f a)) l) = List.length (filter p (map f l)).
Proof.
  induction l as [|a l IH]; [reflexivity|]. cbn. destruct (p (f a)); cbn; rewrite IH; reflexivity.
Qed.

Lemma filter_filter_comm {A} (p q : A -> bool) (l : list A) :
  filter p (filter q l) = filter q (filter p l).
Proof.
  induction l as [|a l IH]; [reflexivity|]. cbn.
  destruct (p a) eqn:Hp, (q a) eqn:Hq; cbn; rewrite ?Hp, ?Hq, IH; reflexivity.
Qed.

(** Every slot is completed once. *)
Lemma completed_slot_once bs v :
  In v [0; 1; 2] -> filter (fun x => x =? v) (completed_slots bs) = [v].
Proof.
  intros Hv.
  pose proof (filter_permutation (fun x => x =? v) _ _ (completed_slots_permutation bs)) as HP.
  assert (filter (fun x => x =? v) [0; 1; 2] = [v]) as E
    by (destruct Hv as [<-|[<-|[<-|[]]]]; reflexivity).
  rewrite E in HP. apply Permutation_sym, Permutation_length_1_inv in HP. exact HP.
Qed.

Lemma slot_entries bs req t resp v :
  res (Api.generate_infographics bs req t) = Returns resp ->
  In v [0; 1; 2] ->
  List.length (entries_of_slot resp v) = if slot_generated bs req v then 1%nat else 0%nat.
Proof.
  intros H Hv. unfold entries_of_slot.
  rewrite (filter_map_length Api.rv_variant_id (fun x => x =? v + 1)), (response_ids _ _ _ _ H).
  rewrite <- (filter_map_length (fun x => x + 1) (fun x => x =? v + 1)).
  rewrite (filter_ext (fun x => x + 1 =? v + 1) (fun x => x =? v))
    by (intros x; destruct (Z.eqb_spec x v), (Z.eqb_spec (x + 1) (v + 1)); lia || reflexivity).
  unfold generated_slots. rewrite filter_filter_comm, (completed_slot_once bs v Hv).
  cbn [filter]. destruct (slot_generated bs req v); reflexivity.
Qed.

(** C1, as amended.  The three slots are each completed once.  When
    the batch returns a response, its [variants] list has exactly one
    entry for each slot whose HTML generation succeeded, in the order
    of completion, with the variant id of the slot and the success flag
    and message of its extraction; a slot whose generation failed has
    no entry.  The list has at least one entry and at most three. *)
Theorem batch_variants_per_generated_document
    (bs : Api.BatchScript) (req : Api.InfographicRequest) (t : Z)
    (resp : Api.InfographicResponse) :
  res (Api.generate_infographics bs req t) = Returns resp ->
  Permutation (completed_slots bs) [0; 1; 2] /\
  Forall2 (variant_of bs) (batch_docs bs req) (Api.variants resp) /\
  map Api.rv_variant_id (Api.variants resp) = map (fun v => v + 1) (generated_slots bs req) /\
  (forall v, In v [0; 1; 2] ->
     List.length (entries_of_slot resp v)
     = if slot_generated bs req v then 1%nat else 0%nat) /\
  (1 <= List.length (Api.variants resp) <= 3)%nat.
Proof.
  intros H. destruct (returned_batch bs req t resp H) as (_ & HF & (rv & Hin & _) & _).
  split; [apply completed_slots_permutation|]. split; [exact HF|].
  split; [exact (response_ids bs req t resp H)|].
  split; [intros v Hv; exact (slot_entries bs req t resp v H Hv)|].
  split.
  - destruct (Api.variants resp); [contradiction|cbn; lia].
  - rewrite <- (length_map Api.rv_variant_id), (response_ids bs req t resp H), length_map.
    unfold generated_slots.
    pose proof (filter_length_le (slot_generated bs req) (completed_slots bs)) as Hle.
    pose proof (Permutation_length (completed_slots_permutation bs)) as Hl.
    cbn in Hl. lia.
Qed.

Lemma batch_variants_per_generated_document_witness :
  exists resp,
    res (Api.generate_infographics
           (sample_batch [2; 0; 1] (fun _ => Some sample_html) (fun _ => Extracted))
           sample_request 0) = Returns resp /\
    map Api.rv_variant_id (Api.variants resp) = [3; 1; 2] /\
    (forall v, In v [0; 1; 2] -> List.length (entries_of_slot resp v) = 1%nat) /\
    (1 <= List.length (Api.variants resp) <= 3)%nat.
Proof.
  eexists. split; [vm_compute; reflexivity|].
  match goal with
  | |- map Api.rv_variant_id (Api.variants ?r) = _ /\ _ =>
      destruct (batch_variants_per_generated_document
                  (sample_batch [2; 0; 1] (fun _ => Some sample_html) (fun _ => Extracted))
                  sample_request 0 r) as (_ & _ & Hids & Hone & Hlen)
  end.
  - vm_compute. reflexivity.
  - split; [exact Hids|]. split; [|exact Hlen].
    intros v Hv. rewrite (Hone v Hv).
    destruct Hv as [<-|[<-|[<-|[]]]]; reflexivity.
Defined.

(** C1 as stated fails: when the code generation of slot 1 returns
    nothing and the other two slots go through, the response has two
    entries, for variants 1 and 3, and none for the failed slot. *)
Lemma batch_variants_not_one_per_slot :
  exists resp,
    res (Api.generate_infographics
           (sample_batch [0; 1; 2]
              (fun v => if v =? 1 then None else Some sample_html) (fun _ => Extracted))
           sample_request 0) = Returns resp /\
    List.length (Api.variants resp) = 2%nat /\
    map Api.rv_variant_id (Api.variants resp) = [1; 3].
Proof.
  eexists. split; [vm_compute; reflexivity|]. split; reflexivity.
Qed.

(** C2, as amended.  For a batch that passes the validation, creates
    its directory and generates at least one document: a returned
    response always has [success = true] and at least one successful
    variant; if at least one extraction succeeds (and the artifacts of
    the successful ones can be read back) a response is returned, also
    when other extractions failed; if every extraction fails no
    response is returned: the endpoint raises the HTTP 500 error
    "Failed to extract any SVGs". *)
Theorem batch_success_policy
    (bs : Api.BatchScript) (req : Api.InfographicRequest) (t : Z) (u : unit) :
  PyStr.strip (Api.prompt req) <> EmptyString ->
  Api.mkdir_batch bs = Returns u ->
  batch_docs bs req <> [] ->
  (forall resp, res (Api.generate_infographics bs req t) = Returns resp ->
     Api.success resp = true /\
     exists rv, In rv (Api.variants resp) /\ Api.rv_success rv = true) /\
  ((exists d, In d (batch_docs bs req) /\
              fst (extraction_verdict (Api.install bs) (Api.extraction bs) d) = true) ->
   (forall d, In d (batch_docs bs req) ->
      fst (extraction_verdict (Api.install bs) (Api.extraction bs) d) = true ->
      readable (Api.extraction bs) d) ->
   exists resp, res (Api.generate_infographics bs req t) = Returns resp /\
                Api.success resp = true) /\
  ((forall d, In d (batch_docs bs req) ->
      fst (extraction_verdict (Api.install bs) (Api.extraction bs) d) = false) ->
   res (Api.generate_infographics bs req t)
   = Raises (HTTPException 500 "Failed to extract any SVGs")).
Proof.
  intros Hp Hm Hd. apply strip_nonempty_truthy in Hp.
  split; [|split].
  - intros resp H. destruct (returned_batch bs req t resp H) as (H1 & _ & H3 & _).
    split; assumption.
  - intros (d & Hin & Hv) Hr.
    destruct (successful_batch bs req t u d Hp Hm Hin Hv Hr) as [resp H].
    exists resp. split; [exact H|].
    exact (proj1 (returned_batch bs req t resp H)).
  - intros Hall. exact (failed_batch bs req t u Hp Hm Hd Hall).
Qed.

Lemma batch_success_policy_witness :
  exists resp,
    res (Api.generate_infographics
           (sample_batch [0; 1; 2] (fun _ => Some sample_html)
              (fun id => if id =? 2 then Rejected else Extracted))
           sample_request 0) = Returns resp /\
    Api.success resp = true /\
    map Api.rv_success (Api.variants resp) = [true; false; true].
Proof.
  destruct (batch_success_policy
              (sample_batch [0; 1; 2] (fun _ => Some sample_html)
                 (fun id => if id =? 2 then Rejected else Extracted))
              sample_request 0 tt) as (_ & H & _).
  - vm_compute. discriminate.
  - reflexivity.
  - vm_compute. discriminate.
  - destruct H as (resp & Hres & Hs).
    + eexists. split; [left; reflexivity|reflexivity].
    + intros d Hin Hv. vm_compute in Hin.
      destruct Hin as [<-|[<-|[<-|[]]]]; try (split; reflexivity).
      vm_compute in Hv. discriminate Hv.
    + exists resp. split; [exact Hres|]. split; [exact Hs|].
      vm_compute in Hres. injection Hres as <-. reflexivity.
Defined.

(** C2 as stated fails: when every extraction fails the endpoint does
    not return a response with [success = false]; it raises. *)
Lemma all_extractions_failed_raises :
  res (Api.generate_infographics
         (sample_batch [0; 1; 2] (fun _ => Some sample_html)
            (fun id => if id =? 2 then TimedOut else Rejected))
         sample_request 0)
  = Raises (HTTPException 500 "Failed to extract any SVGs").
Proof. vm_compute. reflexivity. Qed.

(** C5.  When no generation task yields a document, the endpoint raises
    the HTTP 500 error "Failed to generate any HTML variants" and no
    extraction subprocess has been launched. *)
Theorem no_extraction_without_documents
    (bs : Api.BatchScript) (req : Api.InfographicRequest) (t : Z) (u : unit) :
  PyStr.strip (Api.prompt req) <> EmptyString ->
  Api.mkdir_batch bs = Returns u ->
  batch_docs bs req = [] ->
  res (Api.generate_infographics bs req t)
  = Raises (HTTPException 500 "Failed to generate any HTML variants") /\
  existsb is_SubprocessRun (events (Api.generate_infographics bs req t)) = false.
Proof.
  intros Hp Hm Hd. apply strip_nonempty_truthy in Hp.
  exact (no_generated_documents bs req t u Hp Hm Hd).
Qed.

Lemma no_extraction_without_documents_witness :
  res (Api.generate_infographics
         (sample_batch [1; 2; 0] (fun _ => None) (fun _ => Extracted)) sample_request 0)
  = Raises (HTTPException 500 "Failed to generate any HTML variants") /\
  existsb is_SubprocessRun
    (events (Api.generate_infographics
               (sample_batch [1; 2; 0] (fun _ => None) (fun _ => Extracted))
               sample_request 0)) = false.
Proof.
  apply (no_extraction_without_documents
           (sample_batch [1; 2; 0] (fun _ => None) (fun _ => Extracted)) sample_request 0 tt).
  - vm_compute. discriminate.
  - reflexivity.
  - reflexivity.
Defined.

(** ** Instances *)

Lemma placeholder_elements_witness :
  let r := Api.generate_single_variant_api (sample_gen (Some EmptyString) (Some sample_html))
             "coffee brewing" 1 "generated/b" 0 in
  In (GetCode "coffee brewing" "basic elements" 1 (code_task 1)) (events r) /\
  (res r = Returns None \/ exists doc, res r = Returns (Some doc)) /\
  ((exists doc, res r = Returns (Some doc)) <->
   (exists code,
      code_answer (sample_gen (Some EmptyString) (Some sample_html)) "basic elements"
      = Returns (Some code) /\
      code <> EmptyString /\
      returned (write_html (sample_gen (Some EmptyString) (Some sample_html))) = true)).
Proof.
  apply (placeholder_elements (sample_gen (Some EmptyString) (Some sample_html))
           "coffee brewing" 1 "generated/b" 0 (Some EmptyString)); reflexivity.
Defined.

Example placeholder_elements_run :
  res (Api.generate_single_variant_api (sample_gen None (Some sample_html))
         "coffee brewing" 1 "generated/b" 0)
  = Returns (Some {| Api.variant_id := 2;
                     Api.html := "generated/b/variant_2/infographic.html";
                     Api.directory := "generated/b/variant_2";
                     Api.status := "html_generated" |}).
Proof. reflexivity. Qed.

Example empty_prompt_rejected :
  Api.generate_infographics (sample_batch [0; 1; 2] (fun _ => Some sample_html)
                               (fun _ => Extracted))
    {| Api.prompt := "   "; Api.style_preference := "creative and modern" |} 0
  = Run (Raises (HTTPException 400 "Prompt cannot be empty")) 0 [].
Proof. reflexivity. Qed.


Example timeout_kills_the_child :
  process_events
    (Api.extract_svgs_sequential sample_install
       (fun id => sample_extraction (if id =? 2 then TimedOut else Extracted))
       (map Some [sample_doc 1; sample_doc 2; sample_doc 3]) "generated/b" 0)
  = [expected_run sample_install (sample_doc 1);
     expected_run sample_install (sample_doc 2);
     expected_kill sample_install (sample_doc 2);
     expected_run sample_install (sample_doc 3)].
Proof. vm_compute. reflexivity. Qed.

Example timeout_run :
  map (fun e => (Api.sr_variant_id e, Api.sr_success e, Api.sr_message e))
    match res (Api.extract_svgs_sequential sample_install
                 (fun id => sample_extraction (if id =? 2 then TimedOut else Extracted))
                 (map Some [sample_doc 1; sample_doc 2; sample_doc 3]) "generated/b" 0) with
    | Returns l => l
    | Raises _ => []
    end
  = [(1, true, "Success: 54 bytes"); (2, false, "Extraction timeout (120s)");
     (3, true, "Success: 54 bytes")].
Proof. vm_compute. reflexivity. Qed.

Lemma staggered_extraction_starts_witness :
  let xs := fun _ : Z => sample_extraction Extracted in
  let docs := [sample_doc 3; sample_doc 1; sample_doc 2] in
  let r := Api.extract_svgs_sequential sample_install xs (map Some docs) "generated/b" 0 in
  launches (log r)
  = [(0, expected_run sample_install (sample_doc 3));
     (12000, expected_run sample_install (sample_doc 1));
     (27000, expected_run sample_install (sample_doc 2))] /\
  spaced 3000 (extraction_starts (log r)).
Proof.
  destruct (staggered_extraction_starts sample_install (fun _ : Z => sample_extraction Extracted)
              [sample_doc 3; sample_doc 1; sample_doc 2] "generated/b" 0)
    as (_ & Hall & _ & Hsp & _).
  - intros v. simpl. lia.
  - split; [|exact Hsp]. eapply eq_trans; [eapply Hall; vm_compute; reflexivity|].
    vm_compute. reflexivity.
Defined.

(** C6 as stated fails: when the futures complete in the order 2, 0, 1
    the extraction of slot 2 (variant 3) starts first, with no delay,
    and the extraction of slot 0 (variant 1) starts after it; the delays
    add up along the list instead of being counted from the start of
    the batch. *)
Lemma extraction_starts_follow_completion_order :
  let r := Api.generate_infographics
             (sample_batch [2; 0; 1] (fun _ => Some sample_html) (fun _ => Extracted))
             sample_request 0 in
  start_of "variant_3" (log r) = Some 5500 /\
  start_of "variant_1" (log r) = Some 17500 /\
  start_of "variant_2" (log r) = Some 32500 /\
  extraction_starts (log r) = [5500; 17500; 32500].
Proof. vm_compute. repeat split; reflexivity. Qed.

Example cli_stagger_run :
  let r := MainHeadless.generate_single_variant_headless
             (sample_gen (Some "title, bars, legend") (Some sample_html))
             (sample_page true true 6 sample_markup) "coffee brewing" 2 "generated/b" 0 in
  first_time is_WriteFile (log r) = Some 5500 /\
  first_time is_PlaywrightStart (log r) = Some 15500.
Proof. vm_compute. split; reflexivity. Qed.

(** * Further properties *)

(** ** Text processing *)

Example text_processing_examples :
  BatchName.safe_topic "  coffee brewing " = "coffee_brewing" /\
  BatchName.safe_topic "a/b\c ../etc" = "abc_etc" /\
  BatchName.safe_topic "___ --" = "____--" /\
  Gemini.remove_code_fences "json" ("```json" ++ PyStr.LF ++ "[1,2]" ++ PyStr.LF ++ "```")
  = "[1,2]" /\
  Gemini.remove_code_fences "html" ("```json" ++ PyStr.LF ++ "[1,2]" ++ PyStr.LF ++ "```")
  = "json" ++ PyStr.LF ++ "[1,2]" /\
  Gemini.remove_code_fences "json" "``````abc" = "```abc" /\
  Gemini.remove_code_fences "json" "`` ```" = "``".
Proof. repeat split; reflexivity. Qed.

Lemma string_append_assoc (a b c : string) : (a ++ b) ++ c = a ++ b ++ c.
Proof. induction a as [|x a IH]; [reflexivity|]. cbn. rewrite IH. reflexivity. Qed.

Lemma length_append (a b : string) :
  String.length (a ++ b) = (String.length a + String.length b)%nat.
Proof. induction a as [|c a IH]; [reflexivity|]. cbn. rewrite IH. reflexivity. Qed.

Lemma utf8_len_append (a b : string) :
  PyStr.utf8_len (a ++ b) = PyStr.utf8_len a + PyStr.utf8_len b.
Proof.
  induction a as [|c a IH]; [reflexivity|].
  cbn [String.append PyStr.utf8_len]. rewrite IH. lia.
Qed.

Lemma all_chars_append (q : ascii -> bool) (a b : string) :
  PyText.all_chars q (a ++ b) = PyText.all_chars q a && PyText.all_chars q b.
Proof.
  induction a as [|c a IH]; [reflexivity|]. cbn. rewrite IH, andb_assoc. reflexivity.
Qed.

Lemma all_chars_weaken (p q : ascii -> bool) (s : string) :
  (forall c, p c = true -> q c = true) ->
  PyText.all_chars p s = true -> PyText.all_chars q s = true.
Proof.
  intros Hpq. induction s as [|c s IH]; [reflexivity|]. cbn.
  intros H. apply andb_true_iff in H. destruct H as [Hc Hs].
  rewrite (Hpq c Hc), (IH Hs). reflexivity.
Qed.

(** A property of characters that holds of the 256 code points holds
    of every character. *)
Lemma for_all_ascii (P : ascii -> bool) :
  forallb P (map ascii_of_nat (seq 0 256)) = true -> forall c, P c = true.
Proof.
  intros H c. rewrite forallb_forall in H. apply H.
  rewrite <- (ascii_nat_embedding c). apply in_map, in_seq.
  pose proof (nat_ascii_bounded c). lia.
Qed.

(** *** Numerals *)

Lemma string_of_uint_digits (d : Decimal.uint) :
  PyText.all_chars is_digit (NilEmpty.string_of_uint d) = true.
Proof. induction d; cbn; auto. Qed.

Lemma of_Z_digits (z : Z) : 0 <= z -> PyText.all_chars is_digit (PyStr.of_Z z) = true.
Proof.
  intros H. destruct z as [|p|p]; [reflexivity| |lia].
  apply string_of_uint_digits.
Qed.

Lemma of_nat_nonempty (n : nat) : PyStr.of_nat n <> EmptyString.
Proof.
  unfold PyStr.of_nat. destruct (Nat.to_uint n) eqn:H; cbn; try discriminate.
  pose proof (Unsigned.of_to n) as Hn. rewrite H in Hn. cbn in Hn. subst n. discriminate H.
Qed.

Lemma of_Z_nonempty (z : Z) : PyStr.of_Z z <> EmptyString.
Proof.
  destruct z as [|p|p]; cbn; [discriminate|apply of_nat_nonempty|discriminate].
Qed.

Lemma of_Z_numeral (z : Z) : PyText.all_chars is_numeral_char (PyStr.of_Z z) = true.
Proof.
  assert (forall d, PyText.all_chars is_numeral_char (NilEmpty.string_of_uint d) = true) as Hd.
  { intros d. eapply all_chars_weaken; [|apply string_of_uint_digits].
    intros c Hc. unfold is_numeral_char. rewrite Hc. reflexivity. }
  destruct z as [|p|p]; [reflexivity|apply Hd|].
  cbn [PyStr.of_Z]. rewrite all_chars_append. unfold PyStr.of_nat. rewrite Hd. reflexivity.
Qed.

(** *** Searching *)

(** A pattern cannot start inside a run of characters that differ from
    its first character. *)
Lemma contains_after_run (c : ascii) (p d b : string) :
  PyText.all_chars (fun x => negb (Ascii.eqb c x)) d = true ->
  PyStr.contains (String c p) (d ++ b) = PyStr.contains (String c p) b.
Proof.
  induction d as [|x d IH]; intros H; [reflexivity|].
  cbn [PyText.all_chars] in H. apply andb_true_iff in H. destruct H as [Hx Hd].
  change (String x d ++ b) with (String x (d ++ b)). rewrite contains_step, (IH Hd).
  cbn [PyStr.startswith]. apply negb_true_iff in Hx. rewrite Hx. reflexivity.
Qed.

Lemma startswith_before_foreign (p a r : string) (x : ascii) :
  occurs x p = false ->
  PyStr.startswith p (a ++ String x r) = PyStr.startswith p a.
Proof.
  revert a. induction p as [|c p IH]; intros a Hx; [reflexivity|].
  cbn [occurs] in Hx. apply orb_false_iff in Hx. destruct Hx as [Hc Hp].
  destruct a as [|y a]; cbn [String.append PyStr.startswith].
  - rewrite Hc. reflexivity.
  - rewrite (IH a Hp). reflexivity.
Qed.

Lemma contains_before_foreign (p a r : string) (x : ascii) :
  occurs x p = false ->
  PyStr.contains p (a ++ String x r) = PyStr.contains p a || PyStr.contains p (String x r).
Proof.
  intros Hx. induction a as [|y a IH].
  - cbn [String.append]. destruct p as [|c p]; reflexivity.
  - change (String y a ++ String x r) with (String y (a ++ String x r)).
    rewrite !contains_step, IH.
    change (String y (a ++ String x r)) with (String y a ++ String x r).
    rewrite (startswith_before_foreign p (String y a) r x Hx), orb_assoc. reflexivity.
Qed.

Lemma occurs_head_differs (c x : ascii) (p : string) :
  occurs x (String c p) = false -> negb (Ascii.eqb c x) = true.
Proof. cbn. intros H. apply orb_false_iff in H. destruct H as [-> _]. reflexivity. Qed.

(** An occurrence of [p] in [a ++ d ++ b], where [d] is not empty and
    has no character of [p], lies in [a] or in [b]. *)
Lemma contains_around (p a d b : string) :
  d <> EmptyString ->
  PyText.all_chars (fun x => negb (occurs x p)) d = true ->
  PyStr.contains p (a ++ d ++ b) = PyStr.contains p a || PyStr.contains p b.
Proof.
  intros Hne Hd. destruct d as [|x d]; [congruence|].
  pose proof Hd as Hd'. cbn [PyText.all_chars] in Hd'. apply andb_true_iff in Hd'.
  destruct Hd' as [Hx _]. apply negb_true_iff in Hx.
  change (String x d ++ b) with (String x (d ++ b)).
  rewrite (contains_before_foreign p a (d ++ b) x Hx). f_equal.
  destruct p as [|c p].
  - destruct b; reflexivity.
  - change (String x (d ++ b)) with (String x d ++ b).
    apply contains_after_run.
    eapply all_chars_weaken; [|exact Hd].
    cbn beta. intros y Hy. apply negb_true_iff in Hy. exact (occurs_head_differs c y p Hy).
Qed.

(** *** Lower case and the dispatch on the task *)

Lemma lower_append (a b : string) : PyText.lower (a ++ b) = PyText.lower a ++ PyText.lower b.
Proof. induction a as [|c a IH]; [reflexivity|]. cbn. rewrite IH. reflexivity. Qed.

Lemma lower_numeral_char (c : ascii) : is_numeral_char c = true -> PyText.lower_char c = c.
Proof.
  intros H.
  assert (implb (is_numeral_char c) (Ascii.eqb (PyText.lower_char c) c) = true) as Hi.
  { clear H. revert c. apply for_all_ascii. vm_compute. reflexivity. }
  rewrite H in Hi. cbn in Hi. apply Ascii.eqb_eq. exact Hi.
Qed.

Lemma lower_numeral (s : string) :
  PyText.all_chars is_numeral_char s = true -> PyText.lower s = s.
Proof.
  induction s as [|c s IH]; [reflexivity|]. cbn. intros H.
  apply andb_true_iff in H. destruct H as [Hc Hs].
  rewrite (lower_numeral_char c Hc), (IH Hs). reflexivity.
Qed.

Lemma numeral_foreign (p : string) :
  forallb (fun c => implb (is_numeral_char c) (negb (occurs c p)))
    (map ascii_of_nat (seq 0 256)) = true ->
  forall z, PyText.all_chars (fun x => negb (occurs x p)) (PyStr.of_Z z) = true.
Proof.
  intros H z. eapply all_chars_weaken; [|apply of_Z_numeral].
  intros c Hc. pose proof (for_all_ascii _ H c) as Hi. cbn beta in Hi.
  rewrite Hc in Hi. exact Hi.
Qed.

(** The search for [p], which has no character of a numeral, in the
    lower-cased text [a ++ str(z) ++ b]. *)
Lemma contains_lower_task (p a b : string) (z : Z) :
  forallb (fun c => implb (is_numeral_char c) (negb (occurs c p)))
    (map ascii_of_nat (seq 0 256)) = true ->
  PyStr.contains p (PyText.lower (a ++ PyStr.of_Z z ++ b))
  = PyStr.contains p (PyText.lower a) || PyStr.contains p (PyText.lower b).
Proof.
  intros H. rewrite !lower_append, (lower_numeral _ (of_Z_numeral z)).
  apply contains_around; [apply of_Z_nonempty|apply numeral_foreign; exact H].
Qed.

(** X1.  The two tasks that the orchestrators send for a slot reach the
    intended branches of [get_d3_code_single_frame] and
    [get_d3_code_headless_variant], whatever the slot: the task that
    asks for the elements takes the branch that lists elements (though
    it also contains the word [code]), and the task that asks for the
    code takes the branch that generates code. *)
Theorem tasks_reach_their_branch (v : Z) :
  Gemini.task_branch (elements_task v) = Gemini.ListElements /\
  Gemini.task_branch (code_task v) = Gemini.GenerateCode.
Proof.
  unfold Gemini.task_branch, elements_task, code_task. cbv zeta.
  rewrite !contains_lower_task by (vm_compute; reflexivity).
  split; vm_compute; reflexivity.
Qed.

(** *** The sanitized topic *)

Lemma all_chars_filter (q : ascii -> bool) (s : string) :
  PyText.all_chars q (PyText.filter_chars q s) = true.
Proof.
  induction s as [|c s IH]; [reflexivity|]. cbn.
  destruct (q c) eqn:Hq; [cbn; rewrite Hq, IH; reflexivity|exact IH].
Qed.

Lemma all_chars_rstrip (q : ascii -> bool) (s : string) :
  PyText.all_chars q s = true -> PyText.all_chars q (PyStr.rstrip s) = true.
Proof.
  induction s as [|c s IH]; [reflexivity|]. cbn [PyText.all_chars PyStr.rstrip].
  intros H. apply andb_true_iff in H. destruct H as [Hc Hs]. specialize (IH Hs).
  destruct (PyStr.rstrip s) as [|d r].
  - destruct (PyStr.isspace c); [reflexivity|]. cbn. rewrite Hc. reflexivity.
  - cbn [PyText.all_chars] in *. rewrite Hc, IH. reflexivity.
Qed.

Lemma all_chars_rev (q : ascii -> bool) (cur acc : string) :
  PyText.all_chars q (PyStr.rev_string acc cur)
  = PyText.all_chars q acc && PyText.all_chars q cur.
Proof.
  revert acc. induction cur as [|c cur IH]; intros acc.
  - cbn. rewrite andb_true_r. reflexivity.
  - cbn [PyStr.rev_string PyText.all_chars]. rewrite IH. cbn [PyText.all_chars].
    destruct (q c), (PyText.all_chars q acc), (PyText.all_chars q cur); reflexivity.
Qed.

Lemma all_chars_take (q : ascii -> bool) (n : nat) (s : string) :
  PyText.all_chars q s = true -> PyText.all_chars q (PyText.take n s) = true.
Proof.
  revert s. induction n as [|n IH]; intros s; [reflexivity|].
  destruct s as [|c s]; [reflexivity|]. cbn. intros H.
  apply andb_true_iff in H. destruct H as [-> Hs]. exact (IH s Hs).
Qed.

Lemma length_take (n : nat) (s : string) : (String.length (PyText.take n s) <= n)%nat.
Proof.
  revert s. induction n as [|n IH]; intros s; [cbn; lia|].
  destruct s as [|c s]; cbn; [lia|]. specialize (IH s). lia.
Qed.

Lemma all_chars_join (q : ascii -> bool) (sep : string) (l : list string) :
  PyText.all_chars q sep = true ->
  Forall (fun w => PyText.all_chars q w = true) l ->
  PyText.all_chars q (PyText.join sep l) = true.
Proof.
  intros Hsep. induction 1 as [|w l Hw Hl IH]; [reflexivity|].
  cbn [PyText.join]. destruct l as [|w' l]; [exact Hw|].
  rewrite !all_chars_append, Hw, Hsep, IH. reflexivity.
Qed.

Lemma kept_not_space (c : ascii) :
  BatchName.kept c = true -> PyStr.isspace c = false -> name_char c = true.
Proof.
  intros Hk Hs.
  assert (implb (BatchName.kept c && negb (PyStr.isspace c)) (name_char c) = true) as Hi.
  { clear Hk Hs. revert c. apply for_all_ascii. vm_compute. reflexivity. }
  rewrite Hk, Hs in Hi. exact Hi.
Qed.

Lemma numeral_name_char (c : ascii) : is_numeral_char c = true -> name_char c = true.
Proof.
  intros H.
  assert (implb (is_numeral_char c) (name_char c) = true) as Hi.
  { clear H. revert c. apply for_all_ascii. vm_compute. reflexivity. }
  rewrite H in Hi. exact Hi.
Qed.

Lemma split_ws_words (s : string) :
  PyText.all_chars BatchName.kept s = true ->
  forall cur, PyText.all_chars name_char cur = true ->
  Forall (fun w => PyText.all_chars name_char w = true) (PyText.split_ws_from s cur).
Proof.
  induction s as [|c s IH]; intros Hs cur Hcur.
  - cbn. destruct cur; constructor; [|constructor].
    rewrite all_chars_rev. cbn [PyText.all_chars andb]. exact Hcur.
  - cbn [PyText.all_chars] in Hs. apply andb_true_iff in Hs. destruct Hs as [Hc Hs].
    cbn [PyText.split_ws_from]. destruct (PyStr.isspace c) eqn:Hsp.
    + destruct cur.
      * apply IH; [exact Hs|reflexivity].
      * constructor; [|apply IH; [exact Hs|reflexivity]].
        rewrite all_chars_rev. cbn [PyText.all_chars andb]. exact Hcur.
    + apply IH; [exact Hs|]. cbn [PyText.all_chars].
      rewrite (kept_not_space c Hc Hsp), Hcur. reflexivity.
Qed.

Lemma safe_topic_chars (topic : string) :
  PyText.all_chars name_char (BatchName.safe_topic topic) = true.
Proof.
  unfold BatchName.safe_topic. cbv zeta.
  apply all_chars_take, all_chars_join; [reflexivity|].
  apply split_ws_words; [|reflexivity].
  apply all_chars_rstrip, all_chars_filter.
Qed.

(** X2.  The sanitized topic computed by [generate_infographics] and by
    [main_d3_parallel_headless] is made of letters, digits, hyphens and
    underscores only (no space, dot or path separator is left) and has
    at most 50 characters; and the name of the batch directory, in the
    two programs, is made of such characters only when the digest
    is. *)
Theorem safe_topic_is_a_file_name (topic : string) :
  PyText.all_chars name_char (BatchName.safe_topic topic) = true /\
  (String.length (BatchName.safe_topic topic) <= 50)%nat /\
  (forall timestamp hexdigest,
     PyText.all_chars name_char hexdigest = true ->
     PyText.all_chars name_char (BatchName.api_batch_name timestamp hexdigest topic) = true /\
     PyText.all_chars name_char (BatchName.cli_batch_name timestamp hexdigest topic) = true).
Proof.
  split; [apply safe_topic_chars|]. split; [apply length_take|].
  intros timestamp hexdigest Hh.
  assert (PyText.all_chars name_char (PyStr.of_Z timestamp) = true) as Ht.
  { eapply all_chars_weaken; [exact numeral_name_char|apply of_Z_numeral]. }
  unfold BatchName.api_batch_name, BatchName.cli_batch_name.
  rewrite !all_chars_append, Ht, (all_chars_take _ 8 _ Hh), safe_topic_chars.
  split; reflexivity.
Qed.

(** *** Removing the code fences *)

Lemma rstrip_cons (c : ascii) (s : string) :
  PyStr.rstrip (String c s)
  = match PyStr.rstrip s with
    | EmptyString => if PyStr.isspace c then EmptyString else String c EmptyString
    | r => String c r
    end.
Proof. reflexivity. Qed.

Lemma rstrip_idempotent (s : string) : PyStr.rstrip (PyStr.rstrip s) = PyStr.rstrip s.
Proof.
  induction s as [|c s IH]; [reflexivity|]. rewrite rstrip_cons.
  destruct (PyStr.rstrip s) as [|d r] eqn:Hr.
  - destruct (PyStr.isspace c) eqn:Hc; [reflexivity|]. cbn. rewrite Hc. reflexivity.
  - rewrite rstrip_cons, IH. reflexivity.
Qed.

Lemma lstrip_head (s : string) :
  match PyStr.lstrip s with
  | EmptyString => True
  | String c _ => PyStr.isspace c = false
  end.
Proof.
  induction s as [|c s IH]; [exact I|]. cbn [PyStr.lstrip].
  destruct (PyStr.isspace c) eqn:Hc; [exact IH|exact Hc].
Qed.

Lemma rstrip_head (c : ascii) (s : string) :
  PyStr.isspace c = false -> exists r, PyStr.rstrip (String c s) = String c r.
Proof.
  intros Hc. cbn [PyStr.rstrip]. destruct (PyStr.rstrip s); rewrite ?Hc; eexists; reflexivity.
Qed.

Lemma strip_idempotent (s : string) : PyStr.strip (PyStr.strip s) = PyStr.strip s.
Proof.
  unfold PyStr.strip. pose proof (lstrip_head s) as Hh.
  destruct (PyStr.lstrip s) as [|c r]; [reflexivity|].
  destruct (rstrip_head c r Hh) as [r' Hr]. rewrite Hr.
  cbn [PyStr.lstrip]. rewrite Hh, <- Hr. apply rstrip_idempotent.
Qed.

(** A text that ends with text that [rstrip] keeps is kept as well. *)
Lemma rstrip_append_kept (a b : string) :
  b <> EmptyString -> PyStr.rstrip b = b -> PyStr.rstrip (a ++ b) = a ++ b.
Proof.
  intros Hne Hb. induction a as [|c a IH]; [exact Hb|].
  change (String c a ++ b) with (String c (a ++ b)). rewrite rstrip_cons, IH.
  destruct (a ++ b) eqn:Hab; [|reflexivity].
  destruct a; [cbn in Hab; congruence|discriminate Hab].
Qed.

Lemma rstrip_append_space (s : string) (c : ascii) :
  PyStr.isspace c = true -> PyStr.rstrip (s ++ String c EmptyString) = PyStr.rstrip s.
Proof.
  intros Hc. induction s as [|d s IH].
  - cbn. rewrite Hc. reflexivity.
  - change (String d s ++ String c EmptyString) with (String d (s ++ String c EmptyString)).
    rewrite !rstrip_cons, IH. reflexivity.
Qed.

Lemma lstrip_append_space (s : string) (c : ascii) :
  PyStr.isspace c = true ->
  PyStr.lstrip (s ++ String c EmptyString)
  = match PyStr.lstrip s with
    | EmptyString => EmptyString
    | r => r ++ String c EmptyString
    end.
Proof.
  intros Hc. induction s as [|d s IH].
  - cbn. rewrite Hc. reflexivity.
  - cbn [String.append PyStr.lstrip]. destruct (PyStr.isspace d); [exact IH|reflexivity].
Qed.

Lemma strip_append_space (s : string) (c : ascii) :
  PyStr.isspace c = true -> PyStr.strip (s ++ String c EmptyString) = PyStr.strip s.
Proof.
  intros Hc. unfold PyStr.strip. rewrite (lstrip_append_space s c Hc).
  destruct (PyStr.lstrip s) as [|d r]; [reflexivity|].
  apply rstrip_append_space. exact Hc.
Qed.

Lemma drop_length_append (a b : string) : PyText.drop (String.length a) (a ++ b) = b.
Proof. induction a as [|c a IH]; [destruct b; reflexivity|]. cbn. exact IH. Qed.

Lemma take_length_append (a b : string) : PyText.take (String.length a) (a ++ b) = a.
Proof. induction a as [|c a IH]; [destruct b; reflexivity|]. cbn. rewrite IH. reflexivity. Qed.

Lemma endswith_append (a suffix : string) : PyText.endswith suffix (a ++ suffix) = true.
Proof.
  unfold PyText.endswith. rewrite length_append.
  replace (String.length a + String.length suffix - String.length suffix)%nat
    with (String.length a) by lia.
  rewrite drop_length_append, String.eqb_refl, andb_true_r.
  apply Nat.leb_le. lia.
Qed.

Lemma drop_last_append (a suffix : string) :
  PyText.drop_last (String.length suffix) (a ++ suffix) = a.
Proof.
  unfold PyText.drop_last. rewrite length_append.
  replace (String.length a + String.length suffix - String.length suffix)%nat
    with (String.length a) by lia.
  apply take_length_append.
Qed.

(** X3.  The text left by the block that removes the code fences from a
    response of the model is stripped; and a response that, once
    stripped, neither starts nor ends with a fence is returned stripped
    and otherwise unchanged. *)
Theorem fence_removal_result (lang text : string) :
  PyStr.strip (Gemini.remove_code_fences lang text) = Gemini.remove_code_fences lang text /\
  (PyStr.startswith Gemini.fence (PyStr.strip text) = false ->
   PyText.endswith Gemini.fence (PyStr.strip text) = false ->
   Gemini.remove_code_fences lang text = PyStr.strip text).
Proof.
  unfold Gemini.remove_code_fences. cbv zeta. split; [apply strip_idempotent|].
  intros Hs He.
  assert (PyStr.startswith (Gemini.fence ++ lang) (PyStr.strip text) = false) as ->.
  { destruct (PyStr.startswith (Gemini.fence ++ lang) (PyStr.strip text)) eqn:H; [|reflexivity].
    destruct (startswith_split _ _ H) as [r Hr]. rewrite Hr in Hs.
    rewrite (startswith_append Gemini.fence (Gemini.fence ++ lang) r
               (startswith_append Gemini.fence Gemini.fence lang eq_refl)) in Hs.
    discriminate Hs. }
  rewrite Hs, He. apply strip_idempotent.
Qed.

(** X4.  A stripped answer that the model wraps between an opening
    fence with the expected language tag ([json] for the elements,
    [html] for the code) and a closing fence, each on a line of its
    own, is recovered as it is. *)
Theorem fenced_answer_recovered (lang body : string) :
  lang = "json" \/ lang = "html" ->
  PyStr.strip body = body ->
  Gemini.remove_code_fences lang
    (Gemini.fence ++ lang ++ PyStr.LF ++ body ++ PyStr.LF ++ Gemini.fence)
  = body.
Proof.
  intros Hlang Hbody. unfold Gemini.remove_code_fences. cbv zeta.
  set (rest := PyStr.LF ++ body ++ PyStr.LF ++ Gemini.fence).
  assert (PyStr.strip (Gemini.fence ++ lang ++ rest) = Gemini.fence ++ lang ++ rest) as ->.
  { unfold PyStr.strip.
    change (PyStr.lstrip (Gemini.fence ++ lang ++ rest)) with (Gemini.fence ++ lang ++ rest).
    rewrite <- !string_append_assoc. unfold rest. rewrite <- !string_append_assoc.
    apply rstrip_append_kept; [discriminate|reflexivity]. }
  assert (PyStr.startswith (Gemini.fence ++ lang) (Gemini.fence ++ lang ++ rest) = true) as ->.
  { rewrite <- string_append_assoc. apply startswith_append.
    destruct Hlang as [-> | ->]; reflexivity. }
  assert (PyText.drop 7 (Gemini.fence ++ lang ++ rest) = rest) as ->
    by (destruct Hlang as [-> | ->]; reflexivity).
  change (PyStr.startswith Gemini.fence rest) with false. cbv iota.
  assert (rest = (PyStr.LF ++ body ++ PyStr.LF) ++ Gemini.fence) as Hrest
    by (unfold rest; rewrite !string_append_assoc; reflexivity).
  rewrite Hrest, endswith_append.
  change 3%nat with (String.length Gemini.fence). rewrite drop_last_append.
  change (PyStr.LF ++ body ++ PyStr.LF) with (String (ascii_of_nat 10) (body ++ PyStr.LF)).
  unfold PyStr.strip at 1. cbn [PyStr.lstrip].
  change (PyStr.isspace (ascii_of_nat 10)) with true. cbv iota.
  change (PyStr.rstrip (PyStr.lstrip (body ++ PyStr.LF))) with (PyStr.strip (body ++ PyStr.LF)).
  exact (eq_trans (strip_append_space body (ascii_of_nat 10) eq_refl) Hbody).
Qed.

Lemma fenced_answer_recovered_witness :
  Gemini.remove_code_fences "json"
    (Gemini.fence ++ "json" ++ PyStr.LF ++ "[1, 2]" ++ PyStr.LF ++ Gemini.fence)
  = "[1, 2]".
Proof.
  apply (fenced_answer_recovered "json" "[1, 2]"); [left; reflexivity|reflexivity].
Defined.

(** ** The extraction workers: exceptions and the browser *)

(** X5.  [svg_extractor.extract_svg] never raises: whatever Playwright
    and the file system answer, it returns a pair of a flag and a
    message; and [main] exits with status 0 when the flag is true and
    with status 1 otherwise. *)
Theorem extractor_never_raises (ps : PageScript) (html out name : string) (t : Z) :
  exists ok message,
    res (SvgExtractor.extract_svg ps html out name t) = Returns (ok, message) /\
    res (SvgExtractor.main ps html out name t) = Returns (if ok then 0 else 1).
Proof.
  destruct ps. unfold SvgExtractor.main, SvgExtractor.extract_svg; unfold_m.
  cbn -[String.append Z.add].
  split_run; cbn -[String.append Z.add]; do 2 eexists; split; reflexivity.
Qed.

Lemma extractor_closes ps html out name t :
  closes (SvgExtractor.extract_svg ps html out name t)
  = if returned (pw_start ps) && returned (launch ps) then 1%nat else 0%nat.
Proof.
  destruct ps. unfold closes, events, returned, andb, SvgExtractor.extract_svg; unfold_m.
  cbn -[String.append Z.add].
  split_run; reflexivity.
Qed.

Lemma api_closes ps html out name t :
  closes (Api.headless_svg_extract_async ps html out name t)
  = if returned (pw_start ps) && returned (launch ps) then 1%nat else 0%nat.
Proof.
  destruct ps. unfold closes, events, returned, andb, Api.headless_svg_extract_async; unfold_m.
  cbn -[String.append Z.add add_declaration_and_namespace].
  split_run; reflexivity.
Qed.

Lemma main_closes ps html out t :
  closes (MainHeadless.headless_svg_extract_async ps html out t)
  = if returned (pw_start ps) && returned (launch ps) then 1%nat else 0%nat.
Proof.
  destruct ps.
  unfold closes, events, returned, andb, MainHeadless.headless_svg_extract_async; unfold_m.
  cbn -[String.append Z.add add_declaration_and_namespace].
  split_run; reflexivity.
Qed.

Lemma extractor_close_last ps html out name t :
  pw_start ps = Returns tt -> launch ps = Returns tt ->
  last (filter is_browser_or_page (events (SvgExtractor.extract_svg ps html out name t)))
    PlaywrightStart = BrowserClose.
Proof.
  destruct ps; cbn; intros -> ->. unfold events.
  unfold SvgExtractor.extract_svg; unfold_m. cbn -[String.append Z.add].
  split_run; reflexivity.
Qed.

Lemma api_close_last ps html out name t :
  pw_start ps = Returns tt -> launch ps = Returns tt ->
  last (filter is_browser_or_page (events (Api.headless_svg_extract_async ps html out name t)))
    PlaywrightStart = BrowserClose.
Proof.
  destruct ps; cbn; intros -> ->. unfold events.
  unfold Api.headless_svg_extract_async; unfold_m.
  cbn -[String.append Z.add add_declaration_and_namespace].
  split_run; reflexivity.
Qed.

Lemma main_close_last ps html out t :
  pw_start ps = Returns tt -> launch ps = Returns tt ->
  last (filter is_browser_or_page (events (MainHeadless.headless_svg_extract_async ps html out t)))
    PlaywrightStart = BrowserClose.
Proof.
  destruct ps; cbn; intros -> ->. unfold events.
  unfold MainHeadless.headless_svg_extract_async; unfold_m.
  cbn -[String.append Z.add add_declaration_and_namespace].
  split_run; reflexivity.
Qed.

(** X6.  In the three extraction functions the browser is closed
    exactly once when it was launched, whatever happens on the page,
    and never when Playwright did not start or the launch failed; when
    it was launched, closing it is the last thing done with the browser
    or its page. *)
Theorem browser_closed_once (ps : PageScript) (html out name : string) (t : Z) :
  let r1 := SvgExtractor.extract_svg ps html out name t in
  let r2 := Api.headless_svg_extract_async ps html out name t in
  let r3 := MainHeadless.headless_svg_extract_async ps html out t in
  let launched := returned (pw_start ps) && returned (launch ps) in
  (closes r1 = if launched then 1%nat else 0%nat) /\
  (closes r2 = if launched then 1%nat else 0%nat) /\
  (closes r3 = if launched then 1%nat else 0%nat) /\
  (pw_start ps = Returns tt -> launch ps = Returns tt ->
   last (filter is_browser_or_page (events r1)) PlaywrightStart = BrowserClose /\
   last (filter is_browser_or_page (events r2)) PlaywrightStart = BrowserClose /\
   last (filter is_browser_or_page (events r3)) PlaywrightStart = BrowserClose).
Proof.
  cbv zeta. split; [apply extractor_closes|]. split; [apply api_closes|].
  split; [apply main_closes|]. intros H1 H2.
  split; [apply extractor_close_last; assumption|].
  split; [apply api_close_last|apply main_close_last]; assumption.
Qed.









(** X9.  When [svg_extractor.extract_svg] succeeds, the size in its
    message "Success: N bytes" is the size of the serialized markup,
    while the file it has written holds the declaration before the
    markup: the file is 39 bytes longer than reported. *)
Theorem reported_size_excludes_declaration
    (ps : PageScript) (html out name : string) (t : Z) (message : string) :
  res (SvgExtractor.extract_svg ps html out name t) = Returns (true, message) ->
  exists markup content,
    svg_content ps = Returns (Some markup) /\
    written_files (events (SvgExtractor.extract_svg ps html out name t)) = [(out, content)] /\
    message = "Success: " ++ PyStr.of_Z (PyStr.utf8_len markup) ++ " bytes" /\
    PyStr.utf8_len content = PyStr.utf8_len markup + 39.
Proof.
  destruct ps; unfold events; cbn.
  unfold SvgExtractor.extract_svg; unfold_m. cbn -[String.append Z.add PyStr.utf8_len PyStr.of_Z].
  split_run; cbn -[String.append Z.add PyStr.utf8_len PyStr.of_Z]; intros H; try discriminate H.
  all: do 2 eexists; split; [reflexivity|]; split; [reflexivity|]; split;
    [inversion H; reflexivity
    |rewrite utf8_len_append; change (PyStr.utf8_len xml_declaration) with 39; lia].
Qed.

Lemma reported_size_excludes_declaration_witness :
  exists markup content,
    svg_content (sample_page true true 6 sample_markup) = Returns (Some markup) /\
    written_files (events (SvgExtractor.extract_svg (sample_page true true 6 sample_markup)
                             "v/infographic.html" "v/infographic.svg" "variant_1" 0))
    = [("v/infographic.svg", content)] /\
    "Success: 54 bytes" = "Success: " ++ PyStr.of_Z (PyStr.utf8_len markup) ++ " bytes" /\
    PyStr.utf8_len content = PyStr.utf8_len markup + 39.
Proof.
  apply (reported_size_excludes_declaration (sample_page true true 6 sample_markup)
           "v/infographic.html" "v/infographic.svg" "variant_1" 0 "Success: 54 bytes").
  reflexivity.
Defined.







(** ** The subprocess wrapper: reading the output of the extractor *)

Lemma rev_string_append (cur acc x : string) :
  PyStr.rev_string acc cur ++ x = PyStr.rev_string (acc ++ x) cur.
Proof.
  revert acc. induction cur as [|c cur IH]; intros acc; [reflexivity|].
  cbn [PyStr.rev_string]. rewrite IH. reflexivity.
Qed.

(** Splitting on a separator that does not occur gives the string
    itself. *)
Lemma split_from_absent (sep s cur : string) :
  PyStr.contains sep s = false ->
  PyStr.split_from sep s cur 0 = [PyStr.rev_string EmptyString cur ++ s].
Proof.
  revert cur. induction s as [|c s IH]; intros cur H.
  - cbn [PyStr.split_from]. rewrite rev_string_append. reflexivity.
  - rewrite contains_step in H. apply orb_false_iff in H. destruct H as [Hp Hc].
    cbn [PyStr.split_from]. rewrite Hp, (IH _ Hc).
    cbn [PyStr.rev_string]. rewrite !rev_string_append. reflexivity.
Qed.

Lemma split_absent (sep s : string) :
  PyStr.contains sep s = false -> PyStr.split sep s = [s].
Proof. intros H. unfold PyStr.split. rewrite (split_from_absent _ _ _ H). reflexivity. Qed.

Lemma find_first {A} (p : A -> bool) (pre post : list A) (x : A) :
  (forall y, In y pre -> p y = false) -> p x = true ->
  find p (pre ++ x :: post) = Some x.
Proof.
  intros Hpre Hx. induction pre as [|y pre IH]; cbn.
  - rewrite Hx. reflexivity.
  - rewrite (Hpre y (or_introl eq_refl)). apply IH. intros z Hz. apply Hpre. now right.
Qed.

Lemma find_nothing {A} (p : A -> bool) (l : list A) :
  (forall y, In y l -> p y = false) -> find p l = None.
Proof.
  intros H. induction l as [|y l IH]; [reflexivity|]. cbn.
  rewrite (H y (or_introl eq_refl)). apply IH. intros z Hz. apply H. now right.
Qed.

Ltac unfold_subprocess :=
  unfold Api.extract_svg_subprocess, Api.subprocess_run; unfold_m;
  cbn -[String.append Z.add Z.eqb PyStr.split PyStr.strip PyStr.contains find nth_error].

(** X13.  [extract_svg_subprocess] never raises: it returns a pair of a
    flag and a message; an exception of [subprocess.run] becomes a
    failure, with "Extraction timeout (120s)" for a timeout and
    "Subprocess error:" followed by the text of the exception for any
    other one. *)
Theorem subprocess_exceptions (inst : Api.Install) (xs : Api.ExtractScript)
    (h o n : string) (t : Z) :
  (exists ok message, res (Api.extract_svg_subprocess inst xs h o n t) = Returns (ok, message)) /\
  (forall e, Api.run_answer xs = Raises e ->
     res (Api.extract_svg_subprocess inst xs h o n t)
     = Returns (false, match e with
                       | TimeoutExpired _ => "Extraction timeout (120s)"
                       | _ => "Subprocess error: " ++ str_exn e
                       end)).
Proof.
  split.
  - destruct (subprocess_run_once inst xs h o n t) as (_ & _ & [[ok m] H]).
    exists ok, m. exact H.
  - intros e He. destruct xs; cbn in He; subst. destruct e; reflexivity.
Qed.

(** The first line with both markers decides, and the message is what
    follows the marker. *)
Lemma report_line_parsed inst xs h o n t cp pre post message :
  Api.run_answer xs = Returns cp -> Api.returncode cp = 0 ->
  PyStr.split PyStr.LF (PyStr.strip (Api.stdout cp))
  = (pre ++ ("[EXTRACTOR] SUCCESS: " ++ message)%string :: post)%list ->
  (forall l, In l pre -> has_markers l = false) ->
  PyStr.contains "bytes" message = true ->
  PyStr.contains "SUCCESS: " message = false ->
  res (Api.extract_svg_subprocess inst xs h o n t) = Returns (true, message).
Proof.
  intros Ha Hr Hl Hpre Hb Hs. destruct xs; cbn in Ha; subst.
  unfold_subprocess. rewrite Hr. cbn [Z.eqb]. rewrite Hl.
  change (fun line : string => PyStr.contains "SUCCESS:" line && PyStr.contains "bytes" line)
    with has_markers.
  rewrite (find_first has_markers pre post _ Hpre).
  - unfold PyStr.split. cbn -[nth_error]. rewrite (split_from_absent _ _ _ Hs). reflexivity.
  - unfold has_markers. apply andb_true_iff. split; [reflexivity|].
    apply contains_append_r. exact Hb.
Qed.

Lemma digit_not (c : ascii) (x : ascii) :
  is_digit c = false -> is_digit x = true -> negb (Ascii.eqb c x) = true.
Proof.
  intros Hc Hx. destruct (Ascii.eqb_spec c x) as [->|]; [congruence|reflexivity].
Qed.

Lemma success_message_shape (size : Z) :
  0 <= size ->
  PyStr.contains "bytes" ("Success: " ++ PyStr.of_Z size ++ " bytes") = true /\
  PyStr.contains "SUCCESS: " ("Success: " ++ PyStr.of_Z size ++ " bytes") = false.
Proof.
  intros H. split.
  - apply contains_append_r, contains_append_r. reflexivity.
  - change (PyStr.contains "SUCCESS: " ("Success: " ++ PyStr.of_Z size ++ " bytes"))
      with (PyStr.contains "SUCCESS: " (PyStr.of_Z size ++ " bytes")).
    rewrite contains_after_run; [reflexivity|].
    eapply all_chars_weaken; [|exact (of_Z_digits size H)].
    intros c Hc. apply digit_not; [reflexivity|exact Hc].
Qed.

(** X14.  The wrapper recovers the message of the extractor: when the
    subprocess exits with status 0 and the first line of its output
    that has both markers is the line that [svg_extractor.main] prints
    for the message "Success: N bytes", the wrapper returns a success
    with exactly that message. *)
Theorem extractor_report_recovered (inst : Api.Install) (xs : Api.ExtractScript)
    (h o n : string) (t : Z) (cp : Api.CompletedProcess) (pre post : list string) (size : Z) :
  Api.run_answer xs = Returns cp -> Api.returncode cp = 0 ->
  0 <= size ->
  PyStr.split PyStr.LF (PyStr.strip (Api.stdout cp))
  = (pre ++ ("[EXTRACTOR] SUCCESS: " ++ "Success: " ++ PyStr.of_Z size ++ " bytes")%string
         :: post)%list ->
  (forall l, In l pre -> has_markers l = false) ->
  res (Api.extract_svg_subprocess inst xs h o n t)
  = Returns (true, "Success: " ++ PyStr.of_Z size ++ " bytes").
Proof.
  intros Ha Hr Hs Hl Hpre. destruct (success_message_shape size Hs) as [H1 H2].
  exact (report_line_parsed inst xs h o n t cp pre post _ Ha Hr Hl Hpre H1 H2).
Qed.

Lemma extractor_report_recovered_witness :
  res (Api.extract_svg_subprocess sample_install (sample_extraction Extracted)
         "v/infographic.html" "v/infographic.svg" "variant_1" 0)
  = Returns (true, "Success: 54 bytes").
Proof.
  apply (extractor_report_recovered sample_install (sample_extraction Extracted)
           "v/infographic.html" "v/infographic.svg" "variant_1" 0
           {| Api.returncode := 0;
              Api.stdout := "[EXTRACTOR] Starting extraction for variant" ++ PyStr.LF
                            ++ "[EXTRACTOR] SUCCESS: Success: 54 bytes" ++ PyStr.LF;
              Api.stderr := EmptyString |}
           ["[EXTRACTOR] Starting extraction for variant"] [] 54).
  - reflexivity.
  - reflexivity.
  - lia.
  - reflexivity.
  - intros l [<-|[]]. reflexivity.
Defined.

(** X15.  When the subprocess exits with status 0 and the first line
    that has both markers has no space after "SUCCESS:", indexing the
    split line fails and the wrapper returns the failure "Subprocess
    error: list index out of range", although the exit status was 0. *)
Theorem report_without_space_is_failure (inst : Api.Install) (xs : Api.ExtractScript)
    (h o n : string) (t : Z) (cp : Api.CompletedProcess) (pre post : list string)
    (line : string) :
  Api.run_answer xs = Returns cp -> Api.returncode cp = 0 ->
  PyStr.split PyStr.LF (PyStr.strip (Api.stdout cp)) = (pre ++ line :: post)%list ->
  (forall l, In l pre -> has_markers l = false) ->
  has_markers line = true ->
  PyStr.contains "SUCCESS: " line = false ->
  res (Api.extract_svg_subprocess inst xs h o n t)
  = Returns (false, "Subprocess error: list index out of range").
Proof.
  intros Ha Hr Hl Hpre Hm Hs. destruct xs; cbn in Ha; subst.
  unfold_subprocess. rewrite Hr. cbn [Z.eqb]. rewrite Hl.
  change (fun line : string => PyStr.contains "SUCCESS:" line && PyStr.contains "bytes" line)
    with has_markers.
  rewrite (find_first has_markers pre post _ Hpre Hm), (split_absent _ _ Hs). reflexivity.
Qed.

Lemma report_without_space_is_failure_witness :
  res (Api.extract_svg_subprocess sample_install terse_extraction
         "v/infographic.html" "v/infographic.svg" "variant_1" 0)
  = Returns (false, "Subprocess error: list index out of range").
Proof.
  apply (report_without_space_is_failure sample_install terse_extraction
           "v/infographic.html" "v/infographic.svg" "variant_1" 0
           {| Api.returncode := 0;
              Api.stdout := "starting" ++ PyStr.LF ++ "SUCCESS:54 bytes" ++ PyStr.LF;
              Api.stderr := EmptyString |}
           ["starting"] [] "SUCCESS:54 bytes").
  - reflexivity.
  - reflexivity.
  - reflexivity.
  - intros l [<-|[]]. reflexivity.
  - reflexivity.
  - reflexivity.
Defined.

(** X16.  The exit status decides: a subprocess that exits with a
    status other than 0 is a failure whose message is "Subprocess
    failed:" followed by its standard error; one that exits with
    status 0 and prints no line with both markers is a success with the
    message "Success". *)
Theorem exit_status_decides (inst : Api.Install) (xs : Api.ExtractScript)
    (h o n : string) (t : Z) (cp : Api.CompletedProcess) :
  Api.run_answer xs = Returns cp ->
  (Api.returncode cp <> 0 ->
   res (Api.extract_svg_subprocess inst xs h o n t)
   = Returns (false, "Subprocess failed: " ++ Api.stderr cp)) /\
  (Api.returncode cp = 0 ->
   (forall l, In l (PyStr.split PyStr.LF (PyStr.strip (Api.stdout cp))) ->
      has_markers l = false) ->
   res (Api.extract_svg_subprocess inst xs h o n t) = Returns (true, "Success")).
Proof.
  intros Ha. destruct xs; cbn in Ha; subst. split.
  - intros Hr. unfold_subprocess. apply Z.eqb_neq in Hr. rewrite Hr. reflexivity.
  - intros Hr Hl. unfold_subprocess. rewrite Hr. cbn [Z.eqb].
    change (fun line : string => PyStr.contains "SUCCESS:" line && PyStr.contains "bytes" line)
      with has_markers.
    rewrite (find_nothing has_markers _ Hl). reflexivity.
Qed.

Lemma exit_status_decides_witness :
  res (Api.extract_svg_subprocess sample_install (sample_extraction Rejected)
         "v/infographic.html" "v/infographic.svg" "variant_1" 0)
  = Returns (false, "Subprocess failed: ").
Proof.
  apply (exit_status_decides sample_install (sample_extraction Rejected)
           "v/infographic.html" "v/infographic.svg" "variant_1" 0
           {| Api.returncode := 1;
              Api.stdout := "[EXTRACTOR] FAILED: D3.js failed to load" ++ PyStr.LF;
              Api.stderr := EmptyString |} eq_refl).
  discriminate.
Defined.

(** ** The generation tasks *)

(** X17.  A document returned by [generate_single_variant_api] for the
    slot [v] has the variant id [v + 1], lies in the directory
    [variant_(v+1)] of the batch and has the status "html_generated";
    the task has then done exactly five things: the import, the
    creation of that directory, the two calls to the generation
    functions, and the writing of the returned code, which is not
    empty, to the HTML file of the document. *)
Theorem generated_document_shape (gs : GenScript) (topic : string) (v : Z) (dir : string)
    (t : Z) (doc : Api.GeneratedDoc) :
  res (Api.generate_single_variant_api gs topic v dir t) = Returns (Some doc) ->
  doc = doc_of_slot dir v /\
  exists elements code,
    (elements_answer gs = Returns (Some elements) \/ elements = "basic elements") /\
    code_answer gs elements = Returns (Some code) /\ code <> EmptyString /\
    events (Api.generate_single_variant_api gs topic v dir t)
    = [ImportGemini; Mkdir (Api.directory doc); GetElements topic (elements_task v);
       GetCode topic elements v (code_task v); WriteFile (Api.html doc) code].
Proof.
  destruct gs; cbn. unfold events, doc_of_slot, Api.generate_single_variant_api; unfold_m.
  cbn -[String.append Z.add code_task elements_task].
  split_run; cbn -[String.append Z.add code_task elements_task];
    intros H; try discriminate H; apply returns_eq, some_eq in H; subst doc.
  all: try match goal with Hc : PyStr.truthy_opt _ = _ |- _ => discriminate Hc end.
  all: split; [reflexivity|]; do 2 eexists.
  all: split; [|split; [eassumption|split; [discriminate|reflexivity]]].
  all: first [left; reflexivity | right; reflexivity].
Qed.

Lemma generated_document_shape_witness :
  doc_of_slot "generated/b" 1 = doc_of_slot "generated/b" 1 /\
  exists elements code,
    (elements_answer (sample_gen (Some "title, bars, legend") (Some sample_html))
     = Returns (Some elements) \/ elements = "basic elements") /\
    code_answer (sample_gen (Some "title, bars, legend") (Some sample_html)) elements
    = Returns (Some code) /\ code <> EmptyString /\
    events (Api.generate_single_variant_api
              (sample_gen (Some "title, bars, legend") (Some sample_html))
              "coffee brewing" 1 "generated/b" 0)
    = [ImportGemini; Mkdir (Api.directory (doc_of_slot "generated/b" 1));
       GetElements "coffee brewing" (elements_task 1);
       GetCode "coffee brewing" elements 1 (code_task 1);
       WriteFile (Api.html (doc_of_slot "generated/b" 1)) code].
Proof.
  apply (generated_document_shape (sample_gen (Some "title, bars, legend") (Some sample_html))
           "coffee brewing" 1 "generated/b" 0 (doc_of_slot "generated/b" 1)).
  reflexivity.
Defined.

Ltac unfold_cli :=
  unfold MainHeadless.generate_single_variant_headless, MainHeadless.headless_svg_extract_sync,
    MainHeadless.headless_svg_extract_async, sleep; unfold_m;
  cbn -[String.append Z.add Z.mul Z.ltb code_task elements_task add_declaration_and_namespace].

Ltac cbn_cli :=
  cbn -[String.append Z.add Z.mul Z.ltb code_task elements_task add_declaration_and_namespace].

(** X18.  In the command-line path, unlike the API path, a listing of
    elements that returns nothing ends the task: it returns [None], the
    code generation is not called and no file is written. *)
Theorem cli_task_requires_elements (gs : GenScript) (ps : PageScript) (topic : string)
    (v : Z) (base : string) (t : Z) (e : option string) :
  elements_answer gs = Returns e -> PyStr.truthy_opt e = false ->
  let r := MainHeadless.generate_single_variant_headless gs ps topic v base t in
  res r = Returns None /\ existsb is_GetCode (events r) = false /\
  written_files (events r) = [].
Proof.
  destruct gs, ps; cbn. intros -> He. unfold events. unfold_cli.
  destruct e as [[|c s]|]; try discriminate He.
  all: split_run; cbn_cli; repeat split; reflexivity.
Qed.

Lemma cli_task_requires_elements_witness :
  let r := MainHeadless.generate_single_variant_headless
             (sample_gen None (Some sample_html)) (sample_page true true 6 sample_markup)
             "coffee brewing" 1 "generated/b" 0 in
  res r = Returns None /\ existsb is_GetCode (events r) = false /\
  written_files (events r) = [].
Proof.
  apply (cli_task_requires_elements (sample_gen None (Some sample_html))
           (sample_page true true 6 sample_markup) "coffee brewing" 1 "generated/b" 0 None);
    reflexivity.
Defined.

Lemma cli_never_raises gs ps topic v base t :
  exists x, res (MainHeadless.generate_single_variant_headless gs ps topic v base t) = Returns x.
Proof.
  destruct gs, ps. unfold_cli.
  split_run; eexists; reflexivity.
Qed.

Lemma cli_returned_variant gs ps topic v base t var :
  res (MainHeadless.generate_single_variant_headless gs ps topic v base t) = Returns (Some var) ->
  var = variant_of_slot base v /\
  exists elements code markup,
    elements_answer gs = Returns (Some elements) /\
    code_answer gs elements = Returns (Some code) /\
    svg_content ps = Returns (Some markup) /\
    written_files (events (MainHeadless.generate_single_variant_headless gs ps topic v base t))
    = [(MainHeadless.html var, code);
       (MainHeadless.svg var, add_declaration_and_namespace markup)].
Proof.
  destruct gs, ps; cbn. unfold events, variant_of_slot. unfold_cli.
  split_run; cbn_cli; intros H; try discriminate H; apply returns_eq, some_eq in H; subst var.
  all: split; [reflexivity|]; do 3 eexists; repeat split; try reflexivity; eassumption.
Qed.

(** X19.  [generate_single_variant_headless] never raises; and when it
    returns a variant for the slot [v], the variant has the id [v + 1]
    and the paths under [variant_(v+1)], and the task has written
    exactly two files: the generated code to the HTML path, and then
    the serialized markup, with declaration and namespace, to the SVG
    path. *)
Theorem cli_task_result (gs : GenScript) (ps : PageScript) (topic : string)
    (v : Z) (base : string) (t : Z) :
  let r := MainHeadless.generate_single_variant_headless gs ps topic v base t in
  (exists x, res r = Returns x) /\
  (forall var, res r = Returns (Some var) ->
     var = variant_of_slot base v /\
     exists elements code markup,
       elements_answer gs = Returns (Some elements) /\
       code_answer gs elements = Returns (Some code) /\
       svg_content ps = Returns (Some markup) /\
       written_files (events r)
       = [(MainHeadless.html var, code);
          (MainHeadless.svg var, add_declaration_and_namespace markup)]).
Proof.
  cbv zeta. split; [apply cli_never_raises|].
  intros var. apply cli_returned_variant.
Qed.

(** ** The endpoint: errors *)

(** X20.  Whatever goes wrong, the endpoint raises nothing but an
    [HTTPException]. *)
Theorem endpoint_raises_http_only (bs : Api.BatchScript) (req : Api.InfographicRequest)
    (t : Z) (e : exn) :
  res (Api.generate_infographics bs req t) = Raises e ->
  exists status detail, e = HTTPException status detail.
Proof.
  unfold_batch.
  destruct (PyStr.truthy (PyStr.strip (Api.prompt req))); cbn [negb];
    [|intros H; injection H as <-; eauto].
  destruct (Api.mkdir_batch bs) as [u|e0];
    [|destruct e0; cbn; intros H; injection H as <-; eauto].
  destruct_collect bs req t.
  destruct (html_docs _ _ _ _) as [|d ds]; cbn [app Api.is_empty];
    [cbn; intros H; injection H as <-; eauto|].
  destruct_loop Hl. clear Hl.
  destruct r2 as [l|e0]; [|destruct e0; cbn; intros H; injection H as <-; eauto].
  destruct (filter Api.sr_success l); cbn; intros H; [injection H as <-; eauto|discriminate H].
Qed.

Lemma endpoint_raises_http_only_witness :
  exists status detail,
    HTTPException 500 "Failed to extract any SVGs" = HTTPException status detail.
Proof.
  apply (endpoint_raises_http_only
           (sample_batch [0; 1; 2] (fun _ => Some sample_html) (fun _ => Rejected))
           sample_request 0 (HTTPException 500 "Failed to extract any SVGs")).
  vm_compute. reflexivity.
Defined.

(** X21.  When the batch directory cannot be created, the endpoint
    raises the HTTP 500 error "Internal server error:" followed by the
    text of the exception (an [HTTPException] is passed on as it is),
    and it has done nothing but the attempt to create the directory. *)
Theorem directory_failure (bs : Api.BatchScript) (req : Api.InfographicRequest)
    (t : Z) (e : exn) :
  PyStr.strip (Api.prompt req) <> EmptyString ->
  Api.mkdir_batch bs = Raises e ->
  res (Api.generate_infographics bs req t)
  = Raises match e with
           | HTTPException _ _ => e
           | _ => HTTPException 500 ("Internal server error: " ++ str_exn e)
           end /\
  events (Api.generate_infographics bs req t) = [Mkdir (batch_dir bs req)].
Proof.
  intros Hp Hm. apply strip_nonempty_truthy in Hp.
  unfold events, batch_dir, batch_topic. unfold_batch. rewrite Hp, Hm. cbn [negb].
  destruct e; split; reflexivity.
Qed.

Lemma directory_failure_witness :
  res (Api.generate_infographics unwritable_batch sample_request 0)
  = Raises (HTTPException 500 "Internal server error: Permission denied") /\
  events (Api.generate_infographics unwritable_batch sample_request 0)
  = [Mkdir (batch_dir unwritable_batch sample_request)].
Proof.
  apply (directory_failure unwritable_batch sample_request 0 (PyException "Permission denied")).
  - vm_compute. discriminate.
  - reflexivity.
Defined.

Lemma body_read_failure inst xs i d t e :
  fst (extraction_verdict inst xs d) = true ->
  read_back_error xs d = Some e ->
  res (Api.extract_svgs_body inst xs i d t) = Raises e.
Proof.
  unfold extraction_verdict, read_back_error. destruct (xs (Api.variant_id d)) eqn:Hx.
  unfold_api. rewrite Hx. cbn_run.
  split_run; cbn_run; intros H1 H2; try discriminate H1; try discriminate H2;
    apply some_eq in H2; subst; reflexivity.
Qed.

Lemma loop_raises inst xs pre d post e :
  (forall d', In d' pre -> fst (extraction_verdict inst xs d') = true -> readable xs d') ->
  (forall i t, res (Api.extract_svgs_body inst xs i d t) = Raises e) ->
  forall i acc t,
  res (Api.extract_svgs_loop inst xs i (map Some (pre ++ d :: post)) acc t) = Raises e /\
  subprocess_runs (Api.extract_svgs_loop inst xs i (map Some (pre ++ d :: post)) acc t)
  = map (expected_run inst) (pre ++ [d]).
Proof.
  intros Hpre Hd. induction pre as [|p pre IH]; intros i acc t.
  - cbn [app map Api.extract_svgs_loop]. unfold subprocess_runs, events.
    rewrite res_bind, log_bind, Hd. split; [reflexivity|].
    exact (body_subprocess_runs inst xs i d t).
  - cbn [app map Api.extract_svgs_loop]. unfold subprocess_runs, events.
    rewrite res_bind, log_bind.
    assert (exists x, res (Api.extract_svgs_body inst xs i p t) = Returns x) as [x Hx].
    { destruct (fst (extraction_verdict inst xs p)) eqn:Hv.
      - apply body_returns, Hpre; [now left|exact Hv].
      - apply body_failure_returns. exact Hv. }
    rewrite Hx.
    destruct (IH (fun d' H => Hpre d' (or_intror H)) (i + 1) (acc ++ [x])%list
                (now (Api.extract_svgs_body inst xs i p t))) as [IH1 IH2].
    split; [exact IH1|].
    rewrite map_app, filter_app. unfold subprocess_runs, events in IH2. rewrite IH2.
    pose proof (body_subprocess_runs inst xs i p t) as Hb.
    unfold subprocess_runs, events in Hb. rewrite Hb. reflexivity.
Qed.

(** X22.  When an extraction has reported a success but its artifact
    cannot be read back (or its size taken), the whole batch is lost:
    the endpoint raises the HTTP 500 error "Internal server error:"
    followed by the text of the exception, also when documents before
    it were extracted, and the documents after it are not extracted. *)
Theorem read_back_failure_aborts_batch (bs : Api.BatchScript) (req : Api.InfographicRequest)
    (t : Z) (u : unit) (pre post : list Api.GeneratedDoc) (d : Api.GeneratedDoc) (e : exn) :
  PyStr.strip (Api.prompt req) <> EmptyString ->
  Api.mkdir_batch bs = Returns u ->
  batch_docs bs req = (pre ++ d :: post)%list ->
  (forall d', In d' pre ->
     fst (extraction_verdict (Api.install bs) (Api.extraction bs) d') = true ->
     readable (Api.extraction bs) d') ->
  fst (extraction_verdict (Api.install bs) (Api.extraction bs) d) = true ->
  read_back_error (Api.extraction bs) d = Some e ->
  res (Api.generate_infographics bs req t)
  = Raises match e with
           | HTTPException _ _ => e
           | _ => HTTPException 500 ("Internal server error: " ++ str_exn e)
           end /\
  subprocess_runs (Api.generate_infographics bs req t)
  = map (expected_run (Api.install bs)) (pre ++ [d]).
Proof.
  intros Hp Hm Hd Hpre Hv He. apply strip_nonempty_truthy in Hp.
  unfold batch_docs, completed_slots, batch_dir, batch_topic in Hd.
  unfold subprocess_runs, events. unfold_batch. rewrite Hp, Hm. cbn [negb].
  destruct_collect bs req t. rewrite Hd.
  assert (Api.is_empty (pre ++ d :: post) = false) as -> by (destruct pre; reflexivity).
  destruct (loop_raises (Api.install bs) (Api.extraction bs) pre d post e Hpre
              (fun i t' => body_read_failure _ _ i d t' e Hv He) 0 [] t1) as [H1 H2].
  unfold subprocess_runs, events in H2.
  destruct (Api.extract_svgs_loop _ _ _ _ _ _) as [r2 t2 l2]. cbn [res log] in H1, H2.
  subst r2. apply existsb_false_filter in Hnosub.
  destruct e; cbn [res log app map filter is_SubprocessRun];
    rewrite ?app_nil_r, map_app, filter_app, Hnosub, H2; split; reflexivity.
Qed.

Lemma read_back_failure_aborts_batch_witness :
  res (Api.generate_infographics vanishing_batch sample_request 0)
  = Raises (HTTPException 500 "Internal server error: No such file or directory") /\
  subprocess_runs (Api.generate_infographics vanishing_batch sample_request 0)
  = map (expected_run sample_install)
      [doc_of_slot (batch_dir vanishing_batch sample_request) 0;
       doc_of_slot (batch_dir vanishing_batch sample_request) 1].
Proof.
  apply (read_back_failure_aborts_batch vanishing_batch sample_request 0 tt
           [doc_of_slot (batch_dir vanishing_batch sample_request) 0]
           [doc_of_slot (batch_dir vanishing_batch sample_request) 2]
           (doc_of_slot (batch_dir vanishing_batch sample_request) 1)
           (PyException "No such file or directory")).
  - vm_compute. discriminate.
  - reflexivity.
  - vm_compute. reflexivity.
  - intros d' [<-|[]] _. split; reflexivity.
  - vm_compute. reflexivity.
  - reflexivity.
Defined.

(** ** The endpoint: the response *)

Lemma body_content inst xs i d t :
  forall e, res (Api.extract_svgs_body inst xs i d t) = Returns e -> entry_content xs d e.
Proof.
  unfold entry_content. destruct (xs (Api.variant_id d)) eqn:Hx.
  unfold_api. rewrite Hx. cbn_run.
  split_run; cbn_run; intros entry H; try discriminate H; apply returns_eq in H;
    subst entry; cbn;
    (split; [reflexivity|]); try (split; reflexivity); eexists; repeat split; reflexivity.
Qed.

Lemma loop_res_rel (R : Api.GeneratedDoc -> Api.SvgResult -> Prop) inst xs docs :
  (forall i d t e, res (Api.extract_svgs_body inst xs i d t) = Returns e -> R d e) ->
  forall i acc t l,
  res (Api.extract_svgs_loop inst xs i (map Some docs) acc t) = Returns l ->
  exists entries, l = (acc ++ entries)%list /\ Forall2 R docs entries.
Proof.
  intros HR. induction docs as [|d docs IH]; intros i acc t l H.
  - cbn in H. injection H as <-. exists []. rewrite app_nil_r. split; [reflexivity|constructor].
  - cbn [map Api.extract_svgs_loop] in H. rewrite res_bind in H.
    destruct (res (Api.extract_svgs_body inst xs i d t)) as [e|e] eqn:He; [|discriminate H].
    destruct (IH _ _ _ _ H) as (entries & -> & HF).
    exists (e :: entries). rewrite <- app_assoc. split; [reflexivity|].
    constructor; [exact (HR _ _ _ _ He)|exact HF].
Qed.

(** The response of a batch, from the entries of the extraction loop;
    [R] is any relation that the loop body establishes between a
    document and its entry. *)
Lemma returned_batch_shape (R : Api.GeneratedDoc -> Api.SvgResult -> Prop) bs req t resp :
  (forall i d t e,
     res (Api.extract_svgs_body (Api.install bs) (Api.extraction bs) i d t) = Returns e ->
     R d e) ->
  res (Api.generate_infographics bs req t) = Returns resp ->
  exists entries,
    Forall2 R (batch_docs bs req) entries /\
    Api.variants resp = map Api.to_response_variant entries /\
    Api.message resp
    = "Successfully generated "
      ++ PyStr.of_nat (List.length (filter Api.sr_success entries))
      ++ "/3 infographic variants" /\
    Api.output_directory resp = batch_dir bs req.
Proof.
  intros HR. unfold batch_docs, completed_slots, batch_dir, batch_topic.
  unfold_batch.
  destruct (PyStr.truthy (PyStr.strip (Api.prompt req))); cbn [negb]; [|discriminate].
  destruct (Api.mkdir_batch bs) as [u|e]; [|destruct e; discriminate].
  destruct_collect bs req t.
  destruct (html_docs _ _ _ _) as [|d ds] eqn:Hd; [discriminate|].
  cbn [app Api.is_empty].
  destruct_loop Hl.
  apply (f_equal res) in Hl. cbn [res] in Hl.
  destruct r2 as [l|e]; [|destruct e; discriminate].
  change (Some d :: map Some ds) with (map Some (d :: ds)) in Hl.
  destruct (loop_res_rel R _ _ _ HR _ _ _ _ Hl) as (entries & -> & HF). cbn [app].
  destruct (filter Api.sr_success entries) as [|e0 es] eqn:Hf; [discriminate|].
  cbn -[String.append PyStr.of_nat]. intros H. apply returns_eq in H. subst resp.
  exists entries. rewrite Hf.
  split; [exact HF|]. split; [reflexivity|]. split; reflexivity.
Qed.

Lemma filter_map_variants (l : list Api.SvgResult) :
  filter Api.rv_success (map Api.to_response_variant l)
  = map Api.to_response_variant (filter Api.sr_success l).
Proof.
  induction l as [|e l IH]; [reflexivity|]. cbn.
  destruct (Api.sr_success e); cbn; rewrite IH; reflexivity.
Qed.

(** X24.  The message of a response counts the successful variants of
    its list, always out of 3: it is "Successfully generated k/3
    infographic variants" where [k], the number of variants whose flag
    is true, is at least 1 and at most the length of the list. *)
Theorem message_counts_successes (bs : Api.BatchScript) (req : Api.InfographicRequest)
    (t : Z) (resp : Api.InfographicResponse) :
  res (Api.generate_infographics bs req t) = Returns resp ->
  Api.message resp
  = "Successfully generated " ++ PyStr.of_nat (successes resp) ++ "/3 infographic variants" /\
  (1 <= successes resp <= List.length (Api.variants resp))%nat.
Proof.
  intros H.
  destruct (returned_batch_shape (fun _ _ => True) bs req t resp (fun _ _ _ _ _ => I) H)
    as (entries & _ & Hv & Hm & _).
  destruct (returned_batch bs req t resp H) as (_ & _ & (rv & Hin & Hs) & _).
  unfold successes. rewrite Hm, Hv, filter_map_variants, length_map. split; [reflexivity|].
  split.
  - rewrite <- (length_map Api.to_response_variant), <- filter_map_variants, <- Hv.
    assert (In rv (filter Api.rv_success (Api.variants resp))) as Hc
      by (apply filter_In; split; assumption).
    destruct (filter Api.rv_success (Api.variants resp)); [contradiction|cbn; lia].
  - rewrite length_map. apply filter_length_le.
Qed.

Lemma message_counts_successes_witness :
  exists resp,
    res (Api.generate_infographics
           (sample_batch [0; 1; 2] (fun _ => Some sample_html)
              (fun id => if id =? 2 then Rejected else Extracted))
           sample_request 0) = Returns resp /\
    Api.message resp = "Successfully generated 2/3 infographic variants" /\
    successes resp = 2%nat.
Proof.
  eexists. split; [vm_compute; reflexivity|].
  match goal with
  | |- Api.message ?r = _ /\ _ =>
      destruct (message_counts_successes
                  (sample_batch [0; 1; 2] (fun _ => Some sample_html)
                     (fun id => if id =? 2 then Rejected else Extracted))
                  sample_request 0 r) as [Hm _]
  end.
  - vm_compute. reflexivity.
  - split; [exact Hm|reflexivity].
Defined.

Lemma Forall2_Forall_r {A B} (R : A -> B -> Prop) (P : B -> Prop) (l : list A) (l' : list B) :
  (forall a b, R a b -> P b) -> Forall2 R l l' -> Forall P l'.
Proof. intros H. induction 1; constructor; eauto. Qed.

Lemma body_entry inst xs i d t e :
  res (Api.extract_svgs_body inst xs i d t) = Returns e ->
  Api.sr_variant_id e = Api.variant_id d /\ entry_content xs d e.
Proof.
  intros H. split.
  - exact (proj1 (body_res _ _ _ _ _ _ H)).
  - exact (body_content _ _ _ _ _ _ H).
Qed.

(** X25.  Every variant of a response that is a success carries the
    base64 encoding of the content read back from the artifact of that
    variant, and the size of that artifact; every one that is a failure
    carries no content and the size 0. *)
Theorem failed_variants_carry_nothing (bs : Api.BatchScript) (req : Api.InfographicRequest)
    (t : Z) (resp : Api.InfographicResponse) :
  res (Api.generate_infographics bs req t) = Returns resp ->
  Forall (variant_content (Api.extraction bs)) (Api.variants resp).
Proof.
  intros H.
  destruct (returned_batch_shape
              (fun d e => Api.sr_variant_id e = Api.variant_id d /\
                          entry_content (Api.extraction bs) d e)
              bs req t resp (fun i d t e => body_entry _ _ i d t e) H)
    as (entries & HF & Hv & _ & _).
  rewrite Hv. apply Forall_map.
  eapply Forall2_Forall_r; [|exact HF].
  intros d e [Hid [_ Hc]]. unfold variant_content.
  cbn [Api.to_response_variant Api.rv_success Api.rv_variant_id Api.rv_svg_content_base64
       Api.rv_file_size].
  rewrite Hid. exact Hc.
Qed.

Lemma failed_variants_carry_nothing_witness :
  exists resp,
    res (Api.generate_infographics
           (sample_batch [0; 1; 2] (fun _ => Some sample_html)
              (fun id => if id =? 2 then Rejected else Extracted))
           sample_request 0) = Returns resp /\
    Forall (variant_content
              (fun id => sample_extraction (if id =? 2 then Rejected else Extracted)))
      (Api.variants resp) /\
    map Api.rv_svg_content_base64 (Api.variants resp)
    = [Some (PyStr.b64encode (xml_declaration ++ sample_markup)); None;
       Some (PyStr.b64encode (xml_declaration ++ sample_markup))].
Proof.
  eexists. split; [vm_compute; reflexivity|]. split; [|vm_compute; reflexivity].
  apply (failed_variants_carry_nothing
           (sample_batch [0; 1; 2] (fun _ => Some sample_html)
              (fun id => if id =? 2 then Rejected else Extracted))
           sample_request 0).
  vm_compute. reflexivity.
Defined.

Lemma body_path inst xs i d t e :
  res (Api.extract_svgs_body inst xs i d t) = Returns e ->
  Api.sr_variant_id e = Api.variant_id d /\
  Api.sr_svg_file e = Api.directory d ++ "/infographic.svg".
Proof.
  intros H. split.
  - exact (proj1 (body_res _ _ _ _ _ _ H)).
  - exact (proj1 (body_content _ _ _ _ _ _ H)).
Qed.

Lemma NoDup_map_succ (l : list Z) : NoDup l -> NoDup (map (fun v => v + 1) l).
Proof.
  induction 1 as [|x l Hx Hl IH]; cbn; constructor; [|exact IH].
  intros Hin. apply in_map_iff in Hin. destruct Hin as (y & Hy & Hin).
  assert (y = x) by lia. subst y. exact (Hx Hin).
Qed.

(** X26.  The variants of a response are those of the slots whose
    generation yielded a document, in the order of completion: the
    variant of the slot [v] has the id [v + 1] and its artifact is
    [infographic.svg] in the directory [variant_(v+1)] of the output
    directory of the response; no id occurs twice. *)
Theorem response_variants_by_slot (bs : Api.BatchScript) (req : Api.InfographicRequest)
    (t : Z) (resp : Api.InfographicResponse) :
  res (Api.generate_infographics bs req t) = Returns resp ->
  map Api.rv_variant_id (Api.variants resp) = map (fun v => v + 1) (generated_slots bs req) /\
  Forall (fun rv =>
            Api.rv_svg_file_path rv
            = (Api.output_directory resp ++ "/variant_" ++ PyStr.of_Z (Api.rv_variant_id rv))
              ++ "/infographic.svg")
    (Api.variants resp) /\
  NoDup (map Api.rv_variant_id (Api.variants resp)).
Proof.
  intros H.
  destruct (returned_batch_shape
              (fun d e => Api.sr_variant_id e = Api.variant_id d /\
                          Api.sr_svg_file e = Api.directory d ++ "/infographic.svg")
              bs req t resp (fun i d t e => body_path _ _ i d t e) H)
    as (entries & HF & Hv & _ & Ho).
  rewrite batch_docs_slots in HF. rewrite Hv, Ho. clear H Hv Ho.
  assert (map Api.rv_variant_id (map Api.to_response_variant entries)
          = map (fun v => v + 1) (generated_slots bs req)) as Hids.
  { revert entries HF. induction (generated_slots bs req) as [|v l IH]; intros entries HF;
      inversion HF as [|a b l1 l2 [Hid _] HF']; subst; [reflexivity|].
    cbn [map Api.to_response_variant Api.rv_variant_id]. rewrite Hid, (IH _ HF'). reflexivity. }
  split; [exact Hids|]. split.
  - revert entries HF Hids.
    induction (generated_slots bs req) as [|v l IH]; intros entries HF Hids;
      inversion HF as [|a b l1 l2 [Hid Hp] HF']; subst; [constructor|].
    cbn [map]. constructor.
    + cbn. rewrite Hp, Hid. reflexivity.
    + apply (IH _ HF'). cbn [map] in Hids. congruence.
  - rewrite Hids. apply NoDup_map_succ, NoDup_filter, completed_slots_nodup.
Qed.

Lemma response_variants_by_slot_witness :
  exists resp,
    res (Api.generate_infographics
           (sample_batch [2; 0; 1] (fun v => if v =? 0 then None else Some sample_html)
              (fun _ => Extracted))
           sample_request 0) = Returns resp /\
    map Api.rv_variant_id (Api.variants resp) = [3; 2] /\
    map Api.rv_svg_file_path (Api.variants resp)
    = ["generated/api_batch_1700000000_5f3a9c1e_coffee_brewing/variant_3/infographic.svg";
       "generated/api_batch_1700000000_5f3a9c1e_coffee_brewing/variant_2/infographic.svg"].
Proof.
  eexists. split; [vm_compute; reflexivity|].
  match goal with
  | |- map Api.rv_variant_id (Api.variants ?r) = _ /\ _ =>
      destruct (response_variants_by_slot
                  (sample_batch [2; 0; 1] (fun v => if v =? 0 then None else Some sample_html)
                     (fun _ => Extracted))
                  sample_request 0 r) as [Hids _]
  end.
  - vm_compute. reflexivity.
  - split; [exact Hids|reflexivity].
Defined.

(** ** The duration of a batch *)

Lemma loop_now inst xs docs :
  (forall v, 0 <= Api.run_elapsed (xs v)) ->
  forall i acc t l, 0 <= i ->
  res (Api.extract_svgs_loop inst xs i (map Some docs) acc t) = Returns l ->
  t + stagger_total i (List.length docs)
  <= now (Api.extract_svgs_loop inst xs i (map Some docs) acc t).
Proof.
  intros Hel. induction docs as [|d docs IH]; intros i acc t l Hi H.
  - cbn. lia.
  - cbn [map Api.extract_svgs_loop List.length stagger_total] in *.
    rewrite res_bind in H. rewrite now_bind.
    pose proof (body_now inst xs i d t (Hel _)) as Hn.
    rewrite stagger_delay_nonneg in Hn by exact Hi.
    destruct (res (Api.extract_svgs_body inst xs i d t)) as [e|e]; [|discriminate H].
    specialize (IH (i + 1) _ _ l ltac:(lia) H). lia.
Qed.

Lemma stagger_total_closed (n : nat) (i : Z) :
  2 * stagger_total i n = 3000 * Z.of_nat n * (2 * i + Z.of_nat n - 1).
Proof.
  revert i. induction n as [|n IH]; intros i; [cbn; lia|].
  cbn [stagger_total]. specialize (IH (i + 1)). nia.
Qed.

(** X27.  The staggered delays add up in the duration of a batch: when
    no subprocess takes a negative time, a response with [n] variants
    reports a generation time of at least [1.5 * n * (n - 1)] seconds,
    that is 9 seconds for three variants, whatever the time taken by
    the generation and by the extractions themselves. *)
Theorem batch_duration_lower_bound (bs : Api.BatchScript) (req : Api.InfographicRequest)
    (t : Z) (resp : Api.InfographicResponse) :
  (forall v, 0 <= Api.run_elapsed (Api.extraction bs v)) ->
  res (Api.generate_infographics bs req t) = Returns resp ->
  let n := Z.of_nat (List.length (Api.variants resp)) in
  1500 * n * (n - 1) <= Api.generation_time resp.
Proof.
  intros Hel. cbv zeta. unfold_batch.
  destruct (PyStr.truthy (PyStr.strip (Api.prompt req))); cbn [negb]; [|discriminate].
  destruct (Api.mkdir_batch bs) as [u|e]; [|destruct e; discriminate].
  pose proof (collect_now bs (t + 0) (PyStr.strip (Api.prompt req))
    ("generated/" ++ Api.batch_name bs (PyStr.strip (Api.prompt req)))
    (as_completed (range 3) (Api.completion_order bs)) [] (t + 0)) as Hnow.
  destruct_collect bs req t. cbn [now] in Hnow.
  destruct (html_docs _ _ _ _) as [|d ds] eqn:Hd; [discriminate|].
  cbn [app Api.is_empty].
  pose proof (loop_now (Api.install bs) (Api.extraction bs) (d :: ds) Hel 0 [] t1) as Hloop.
  destruct_loop Hl. cbn [res now] in Hloop.
  change (Some d :: map Some ds) with (map Some (d :: ds)) in Hl.
  destruct r2 as [l|e]; [|destruct e; discriminate].
  specialize (Hloop l ltac:(lia) eq_refl).
  apply (f_equal res) in Hl. cbn [res] in Hl.
  destruct (loop_res _ _ _ _ _ _ _ Hl) as (entries & -> & HF). cbn [app].
  destruct (filter Api.sr_success entries) as [|e0 es] eqn:Hf; [discriminate|].
  cbn -[String.append PyStr.of_nat Z.mul Z.add Z.sub Z.of_nat stagger_total List.length].
  intros H. apply returns_eq in H. subst resp.
  cbn [Api.variants Api.generation_time]. rewrite length_map, <- (Forall2_length HF).
  pose proof (stagger_total_closed (List.length (d :: ds)) 0). lia.
Qed.

Lemma batch_duration_lower_bound_witness :
  exists resp,
    res (Api.generate_infographics
           (sample_batch [0; 1; 2] (fun _ => Some sample_html) (fun _ => Extracted))
           sample_request 0) = Returns resp /\
    List.length (Api.variants resp) = 3%nat /\
    9000 <= Api.generation_time resp.
Proof.
  eexists. split; [vm_compute; reflexivity|].
  match goal with
  | |- List.length (Api.variants ?r) = _ /\ _ =>
      pose proof (batch_duration_lower_bound
                    (sample_batch [0; 1; 2] (fun _ => Some sample_html) (fun _ => Extracted))
                    sample_request 0 r) as Hb
  end.
  split; [reflexivity|].
  apply Hb; [intros v; cbn; lia|vm_compute; reflexivity].
Defined.
